(** * OCR ingestion adapter and chunking benchmark: a shallow embedding

    The development follows two Python sources:
    - [ocr_research/image_ocr_reader.py]: class [ImageOCRReader] with
      [load_data], [_process_ocr_result] and [_format_text_blocks];
    - [chunking_research/main.py]: [evaluate_splitter] and
      [evaluate_sentence_window_splitter].

    Modelling conventions.
    - Dynamically typed values are the inductive [pyval]; every dynamic test
      of the source ([isinstance], truthiness, [len], indexing, [float]) is a
      function on it, with the exception the interpreter raises written out.
    - A Python [float] is an exact rational ([Q]): binary64 rounding error,
      infinities and NaN are not represented.  Two floats are compared with
      [==] ([Qeq]).
    - A Python [str] is a [string] holding its UTF-8 encoding; [len], indexing
      and iteration go by code point ([chars]).
    - Exceptions are an error result; [print] and the call of the OCR engine
      are events of a trace. *)

From Stdlib Require Import QArith Qround Qabs ZArith String Ascii List.
From Stdlib Require Import DecimalString Decimal Lia Lqa.
From stdpp Require Import gmap strings list fin_maps.

Set Warnings "-register-all".
Open Scope list_scope.

(** ** Exceptions, outcomes and traces *)

Inductive exn : Type :=
| TypeError
| ValueError
| KeyError
| IndexError
| FileNotFoundError
| OverflowError
| EngineError (msg : string).

Inductive outcome (A : Type) : Type :=
| Ok (a : A)
| Raise (e : exn).
Arguments Ok {A} a.
Arguments Raise {A} e.

#[global] Instance outcome_ret : MRet outcome := fun _ a => Ok a.
#[global] Instance outcome_bind : MBind outcome := fun _ _ f m =>
  match m with
  | Ok a => f a
  | Raise e => Raise e
  end.

(** ** Python values *)

Module Py.

Inductive pyval : Type :=
| VNone
| VBool (b : bool)
| VInt (z : Z)
| VFloat (q : Q)
| VStr (s : string)
| VList (l : list pyval)
| VTuple (l : list pyval)
| VDict (d : list (string * pyval)).
(** A dict is the list of its items in insertion order, with strings as keys;
    the keys of a dict are distinct. *)

(** A byte [10xxxxxx] continues a UTF-8 code point. *)
Definition is_continuation (a : ascii) : bool :=
  let n := nat_of_ascii a in (128 <=? n)%nat && (n <? 192)%nat.

(** The code points of a string, each as a one-character string. *)
Fixpoint chars (s : string) : list string :=
  match s with
  | EmptyString => []
  | String a s' =>
      match s' with
      | String b _ =>
          if is_continuation b then
            match chars s' with
            | c :: cs => String a c :: cs
            | [] => [String a EmptyString]
            end
          else String a EmptyString :: chars s'
      | EmptyString => [String a EmptyString]
      end
  end.

Definition Qnonzero (q : Q) : bool := negb (Qeq_bool q 0).

(** Truth value testing ([if v:]). *)
Definition truthy (v : pyval) : bool :=
  match v with
  | VNone => false
  | VBool b => b
  | VInt z => negb (z =? 0)%Z
  | VFloat q => Qnonzero q
  | VStr s => negb (String.eqb s "")
  | VList l | VTuple l => negb (Nat.eqb (length l) 0)
  | VDict d => negb (Nat.eqb (length d) 0)
  end.

(** [isinstance(v, (list, tuple))] *)
Definition is_list_or_tuple (v : pyval) : bool :=
  match v with VList _ | VTuple _ => true | _ => false end.

(** [len(v)] *)
Definition len (v : pyval) : outcome nat :=
  match v with
  | VStr s => Ok (length (chars s))
  | VList l | VTuple l => Ok (length l)
  | VDict d => Ok (length d)
  | VNone | VBool _ | VInt _ | VFloat _ => Raise TypeError
  end.

(** [v[i]] for an index [i >= 0].  The keys of a modelled dict are strings,
    so an integer subscript is a missing key. *)
Definition getitem (v : pyval) (i : nat) : outcome pyval :=
  match v with
  | VList l | VTuple l =>
      match l !! i with Some x => Ok x | None => Raise IndexError end
  | VStr s =>
      match chars s !! i with Some c => Ok (VStr c) | None => Raise IndexError end
  | VDict _ => Raise KeyError
  | VNone | VBool _ | VInt _ | VFloat _ => Raise TypeError
  end.

(** [len(v) >= n], asked of a value already known to have a length. *)
Definition len_ge (n : nat) (v : pyval) : bool :=
  match len v with Ok m => (n <=? m)%nat | Raise _ => false end.

(** The items [for x in v] visits. *)
Definition iter (v : pyval) : outcome (list pyval) :=
  match v with
  | VList l | VTuple l => Ok l
  | VStr s => Ok (VStr <$> chars s)
  | VDict d => Ok ((fun kv => VStr kv.1) <$> d)
  | VNone | VBool _ | VInt _ | VFloat _ => Raise TypeError
  end.

Fixpoint assoc (k : string) (d : list (string * pyval)) : option pyval :=
  match d with
  | [] => None
  | (k', v) :: d' => if String.eqb k k' then Some v else assoc k d'
  end.

(** [k in d] and [d.get(k, default)] on a dict-like value. *)
Definition dict_contains (k : string) (d : list (string * pyval)) : bool :=
  match assoc k d with Some _ => true | None => false end.
Definition dict_get (k : string) (default : pyval) (d : list (string * pyval))
    : pyval :=
  match assoc k d with Some v => v | None => default end.

(** The least magnitude of an [int] that [float] cannot convert: half-way
    between the greatest binary64 number, [2^1024 - 2^971], and [2^1024];
    from there on the conversion rounds out of range and raises
    [OverflowError]. *)
Definition float_int_limit : Z := (2 ^ 1024 - 2 ^ 970)%Z.

Section Float.
(** The interpreter's reading of a numeric string ([float("0.5")]); [None]
    where it raises [ValueError]. *)
Variable str_to_float : string -> option Q.

(** [float(v)] *)
Definition to_float (v : pyval) : outcome Q :=
  match v with
  | VBool b => Ok (if b then 1 else 0)%Q
  | VInt z =>
      if (Z.abs z <? float_int_limit)%Z then Ok (inject_Z z)
      else Raise OverflowError
  | VFloat q => Ok q
  | VStr s =>
      match str_to_float s with Some q => Ok q | None => Raise ValueError end
  | VNone | VList _ | VTuple _ | VDict _ => Raise TypeError
  end.
End Float.

(** *** Numbers *)

(** Round to the nearest integer, ties to the even one. *)
Definition round_half_even (q : Q) : Z :=
  let f := Qfloor q in
  match (q - inject_Z f ?= 1 # 2)%Q with
  | Lt => f
  | Gt => (f + 1)%Z
  | Eq => if Z.even f then f else (f + 1)%Z
  end.

(** [round(x, ndigits)] for [ndigits >= 0]. *)
Definition round (x : Q) (ndigits : nat) : Q :=
  let scale := (10 ^ Z.of_nat ndigits)%Z in
  Qmake (round_half_even (x * inject_Z scale)) (Z.to_pos scale).

(** [sum(l)]: a left fold from 0. *)
Definition sum (l : list Q) : Q := fold_left Qplus l 0%Q.

Definition Qltb (x y : Q) : bool := negb (Qle_bool y x).

(** [min(l)] and [max(l)] on a non-empty list: the first extremal item. *)
Definition min_from (x : Q) (l : list Q) : Q :=
  fold_left (fun best y => if Qltb y best then y else best) l x.
Definition max_from (x : Q) (l : list Q) : Q :=
  fold_left (fun best y => if Qltb best y then y else best) l x.

(** *** Text *)

(** [str(n)] for a natural number. *)
Definition str_of_nat (n : nat) : string := NilZero.string_of_uint (Nat.to_uint n).

Definition pad2 (n : nat) : string :=
  if (n <? 10)%nat then "0" +:+ str_of_nat n else str_of_nat n.

(** [f"{x:.2f}"]: fixed point, two decimals, ties to even; the sign of a
    negative [x] is kept even when the digits round to zero. *)
Definition format_2f (x : Q) : string :=
  let n := Z.to_nat (round_half_even (Qabs x * 100)) in
  (if Qltb x 0 then "-" else "") +:+
  str_of_nat (n / 100) +:+ "." +:+ pad2 (n mod 100).

Definition newline : ascii := ascii_of_nat 10.
Definition nl : string := String newline EmptyString.

(** [s.split(sep)] for a one-character separator: never the empty list. *)
Fixpoint split_on (c : ascii) (s : string) : list string :=
  match s with
  | EmptyString => [EmptyString]
  | String a s' =>
      if Ascii.eqb a c then EmptyString :: split_on c s'
      else match split_on c s' with
           | l :: ls => String a l :: ls
           | [] => [String a EmptyString]
           end
  end.

(** ASCII lower-casing.  [str.lower] also changes characters outside ASCII,
    but never into a string of ASCII letters alone that occurs in a supported
    extension, so membership of a lower-cased suffix in [supported_formats] is
    decided by the ASCII letters. *)
Definition lower_ascii (a : ascii) : ascii :=
  let n := nat_of_ascii a in
  if (65 <=? n)%nat && (n <=? 90)%nat then ascii_of_nat (n + 32) else a.
Fixpoint lower (s : string) : string :=
  match s with
  | EmptyString => EmptyString
  | String a s' => String (lower_ascii a) (lower s')
  end.

End Py.
Import Py.

(** ** Paths ([pathlib], POSIX flavour) *)

Module Pathlib.

Record Path : Type := { root : string; tail : list string }.

Definition slash : ascii := ascii_of_nat 47.
Definition dot : ascii := ascii_of_nat 46.

(** [posixpath.splitroot]: exactly two leading slashes are kept as they are,
    any other number of them is one. *)
Definition splitroot (s : string) : string * string :=
  match s with
  | String a (String b (String c r)) =>
      if Ascii.eqb a slash then
        if Ascii.eqb b slash then
          if Ascii.eqb c slash then ("/", String b (String c r))
          else ("//", String c r)
        else ("/", String b (String c r))
      else ("", s)
  | String a (String b EmptyString) =>
      if Ascii.eqb a slash then
        if Ascii.eqb b slash then ("//", "") else ("/", String b "")
      else ("", s)
  | String a EmptyString => if Ascii.eqb a slash then ("/", "") else ("", s)
  | EmptyString => ("", "")
  end.

Definition keep_part (x : string) : bool :=
  negb (String.eqb x "") && negb (String.eqb x ".").

(** [Path(s)] *)
Definition parse (s : string) : Path :=
  let '(r, rel) := splitroot s in
  {| root := r; tail := List.filter keep_part (split_on slash rel) |}.

(** [str(p)] *)
Definition str (p : Path) : string :=
  let s := root p +:+ String.concat "/" (tail p) in
  if String.eqb s "" then "." else s.

(** [p.name] *)
Definition name (p : Path) : string := List.last (tail p) "".

(** [name.rfind('.')] *)
Fixpoint rfind_dot (s : string) : option nat :=
  match s with
  | EmptyString => None
  | String a s' =>
      match rfind_dot s' with
      | Some i => Some (S i)
      | None => if Ascii.eqb a dot then Some 0%nat else None
      end
  end.

(** [p.suffix]: from the last dot of the name, unless the name starts or ends
    with that dot. *)
Definition suffix (p : Path) : string :=
  let nm := name p in
  match rfind_dot nm with
  | Some i =>
      if (0 <? i)%nat && (i <? String.length nm - 1)%nat
      then String.substring i (String.length nm - i) nm
      else ""
  | None => ""
  end.

Definition is_absolute (p : Path) : bool := negb (String.eqb (root p) "").

(** [p.absolute()] in the working directory [cwd]. *)
Definition absolute (cwd : string) (p : Path) : Path :=
  if is_absolute p then p
  else let c := parse cwd in {| root := root c; tail := tail c ++ tail p |}.

End Pathlib.

(** ** The reader: [ImageOCRReader] *)

Module OCR.
Import Pathlib.

(** What a call leaves behind besides its result: the warnings it prints and
    the images it hands to the OCR engine. *)
Inductive event : Type :=
| PrintNoRecTexts
| PrintBadLine (idx : nat) (line : pyval)
| OcrCall (path : string).

(** A computation: its trace, then its result or the exception that ended it. *)
Definition M (A : Type) : Type := (list event * outcome A)%type.

#[global] Instance M_ret : MRet M := fun _ a => ([], Ok a).
#[global] Instance M_bind : MBind M := fun _ _ f m =>
  match m with
  | (w, Ok a) => let '(w', r) := f a in (w ++ w', r)
  | (w, Raise e) => (w, Raise e)
  end.

Definition lift {A} (r : outcome A) : M A := ([], r).
Definition raise {A} (e : exn) : M A := ([], Raise e).
Definition emit (ev : event) : M unit := ([ev], Ok tt).

(** [for idx, x in enumerate(xs, idx): s = body(idx, x, s)] *)
Fixpoint for_enumerate {A St : Type} (body : nat -> A -> St -> M St)
    (idx : nat) (xs : list A) (s : St) : M St :=
  match xs with
  | [] => mret s
  | x :: xs' => s' ← body idx x s; for_enumerate body (S idx) xs' s'
  end.

(** One entry of [detailed_blocks]. *)
Record detection : Type := {
  d_text : pyval;
  d_confidence : Q;
  d_bbox : pyval;
  d_block_index : nat
}.

(** The three lists [_process_ocr_result] fills in step. *)
Record blocks : Type := {
  text_blocks : list pyval;
  confidences : list Q;
  detailed_blocks : list detection
}.

Definition no_blocks : blocks :=
  {| text_blocks := []; confidences := []; detailed_blocks := [] |}.

Definition append_block (b : blocks) (text : pyval) (conf : Q) (bbox : pyval)
    (idx : nat) : blocks :=
  {| text_blocks := text_blocks b ++ [text];
     confidences := confidences b ++ [conf];
     detailed_blocks := detailed_blocks b ++
       [{| d_text := text; d_confidence := conf; d_bbox := bbox;
           d_block_index := idx |}] |}.

Record Document : Type := {
  text : string;
  metadata : gmap string pyval
}.

Record ImageOCRReader : Type := {
  lang : string;
  use_gpu : bool;
  ocr_version : string;
  (** [self.ocr_model.ocr]: the external engine, from an image path to its
      raw result or the exception it raises. *)
  ocr_model : string -> outcome pyval
}.

(** ["\n\n=== 纯文本内容 ===\n"]: an empty line, the title line, a line feed. *)
Definition separator_title : string := "=== 纯文本内容 ===".
Definition separator : string := nl +:+ nl +:+ separator_title +:+ nl.

(** [f"[Block {i}] (conf: {conf:.2f}): {text}"] *)
Definition detailed_line (i : nat) (text : string) (conf : Q) : string :=
  "[Block " +:+ str_of_nat i +:+ "] (conf: " +:+ format_2f conf +:+ "): " +:+ text.

(** [enumerate(zip(text_blocks, confidences), i)] mapped to its lines. *)
Fixpoint detailed_lines (i : nat) (text_blocks : list string)
    (confidences : list Q) : list string :=
  match text_blocks, confidences with
  | text :: ts, conf :: cs => detailed_line i text conf :: detailed_lines (S i) ts cs
  | _, _ => []
  end.

Definition _format_text_blocks (text_blocks : list string)
    (confidences : list Q) : string :=
  match text_blocks with
  | [] => ""
  | _ =>
      let detailed_text :=
        String.concat nl (detailed_lines 1 text_blocks confidences) in
      let plain_text := String.concat nl text_blocks in
      detailed_text +:+ separator +:+ plain_text
  end.

(** The items of ["\n".join(text_blocks)]: an item that is not a [str] makes
    [join] raise [TypeError]. *)
Fixpoint str_items (vs : list pyval) : outcome (list string) :=
  match vs with
  | [] => Ok []
  | VStr s :: vs' => ss ← str_items vs'; mret (s :: ss)
  | _ :: _ => Raise TypeError
  end.

Definition supported_formats : list string :=
  [".png"; ".jpg"; ".jpeg"; ".bmp"; ".tiff"; ".tif"; ".webp"].

Definition is_supported (suffix : string) : bool :=
  existsb (String.eqb suffix) supported_formats.

Inductive file_arg : Type :=
| OneFile (file : string)
| FileList (files : list string).

Section Reader.
(** The interpreter's [float] on strings, the file system and the working
    directory are given from outside. *)
Variable str_to_float : string -> option Q.
Variable path_exists : string -> bool.
Variable cwd : string.
Variable self : ImageOCRReader.

(** Body of the loop over [rec_texts] (batch shape).  [float(confidence)] is
    evaluated twice in the source, with one result.  No modelled value has a
    [tolist] method (the arrays of a numerical library are not modelled), so
    the bounding box is stored as it is. *)
Definition batch_body (rec_scores dt_polys : pyval) (idx : nat) (text : pyval)
    (b : blocks) : M blocks :=
  confidence ← lift (n ← len rec_scores;
                     if (idx <? n)%nat then getitem rec_scores idx
                     else mret (VFloat 1));
  bbox ← lift (n ← len dt_polys;
               if (idx <? n)%nat then getitem dt_polys idx else mret VNone);
  conf ← lift (to_float str_to_float confidence);
  mret (append_block b text conf bbox idx).

(** Body of the loop over the top-level list (flat shape). *)
Definition flat_body (idx : nat) (text : pyval) (b : blocks) : M blocks :=
  if truthy text then mret (append_block b text 1 VNone idx) else mret b.

(** Body of the loop over the lines of the first page (nested lists). *)
Definition legacy_body (idx : nat) (line : pyval) (b : blocks) : M blocks :=
  if truthy line then
    n ← lift (len line);
    if (2 <=? n)%nat then
      box ← lift (getitem line 0);
      inner ← lift (getitem line 1);
      if is_list_or_tuple inner && len_ge 2 inner then
        text ← lift (getitem inner 0);
        confidence ← lift (getitem inner 1);
        conf ← lift (to_float str_to_float confidence);
        mret (append_block b text conf box idx)
      else
        emit (PrintBadLine idx line);; mret b
    else mret b
  else mret b.

(** The first half of [_process_ocr_result]: the shape of the raw result
    is found from its first element and the three lists are filled.
    - [ocr_result and isinstance(ocr_result, list) and len(ocr_result) > 0]
      holds of a non-empty list and of nothing else;
    - [hasattr(result_item, 'keys') and callable(result_item.keys)] holds of
      a dict, the only modelled value with a [keys] method;
    - [isinstance(result_item, str)] and [isinstance(result_item, list)] are
      the next two cases; any other first element leaves the lists empty. *)
Definition collect_blocks (ocr_result : pyval) : M blocks :=
  match ocr_result with
  | VList (result_item :: rest) =>
      match result_item with
      | VDict d =>
          if dict_contains "rec_texts" d then
            let rec_texts := dict_get "rec_texts" (VList []) d in
            let rec_scores := dict_get "rec_scores" (VList []) d in
            let dt_polys := dict_get "dt_polys" (VList []) d in
            items ← lift (iter rec_texts);
            for_enumerate (batch_body rec_scores dt_polys) 0 items no_blocks
          else
            emit PrintNoRecTexts;; mret no_blocks
      | VStr _ =>
          for_enumerate flat_body 0 (result_item :: rest) no_blocks
      | VList lines =>
          for_enumerate legacy_body 0 lines no_blocks
      | _ => mret no_blocks
      end
  | _ => mret no_blocks
  end.

(** [sum(confidences) / len(confidences) if confidences else 0.0] *)
Definition avg_confidence (confidences : list Q) : Q :=
  match confidences with
  | [] => 0
  | _ => Py.sum confidences / inject_Z (Z.of_nat (length confidences))
  end.

Definition min_confidence (confidences : list Q) : Q :=
  match confidences with
  | [] => 0
  | c :: cs => Py.round (min_from c cs) 4
  end.

Definition max_confidence (confidences : list Q) : Q :=
  match confidences with
  | [] => 0
  | c :: cs => Py.round (max_from c cs) 4
  end.

(** The dict literal [metadata = {...}]; no key occurs twice. *)
Definition computed_metadata (file_path : Path) (text_blocks : list pyval)
    (confidences : list Q) : gmap string pyval :=
  list_to_map
    [("image_path", VStr (Pathlib.str (absolute cwd file_path)));
     ("file_name", VStr (name file_path));
     ("ocr_model", VStr (ocr_version self));
     ("language", VStr (lang self));
     ("num_text_blocks", VInt (Z.of_nat (length text_blocks)));
     ("avg_confidence", VFloat (Py.round (avg_confidence confidences) 4));
     ("min_confidence", VFloat (min_confidence confidences));
     ("max_confidence", VFloat (max_confidence confidences));
     ("used_gpu", VBool (use_gpu self))].

(** [if extra_info: metadata.update(extra_info)] *)
Definition merge_extra (metadata : gmap string pyval)
    (extra_info : option (gmap string pyval)) : gmap string pyval :=
  match extra_info with
  | Some extra => if (size extra =? 0)%nat then metadata else extra ∪ metadata
  | None => metadata
  end.

(** [_format_text_blocks] is typed for a list of [str].  Called on a
    non-empty list that holds another value, the source builds the annotated
    lines and then raises [TypeError] in ["\n".join(text_blocks)]; [str_items]
    takes that decision before the call. *)
Definition _process_ocr_result (ocr_result : pyval) (file_path : Path)
    (extra_info : option (gmap string pyval)) : M (string * gmap string pyval) :=
  b ← collect_blocks ocr_result;
  texts ← lift (str_items (text_blocks b));
  let formatted_text := _format_text_blocks texts (confidences b) in
  let metadata := computed_metadata file_path (text_blocks b) (confidences b) in
  mret (formatted_text, merge_extra metadata extra_info).

(** One round of the loop of [load_data]. *)
Definition load_file (file : string) (extra_info : option (gmap string pyval))
    : M Document :=
  let file_path := parse file in
  if negb (path_exists (Pathlib.str file_path)) then raise FileNotFoundError
  else if negb (is_supported (lower (suffix file_path))) then raise ValueError
  else
    emit (OcrCall (Pathlib.str file_path));;
    result ← lift (ocr_model self (Pathlib.str file_path));
    '(text_content, metadata) ← _process_ocr_result result file_path extra_info;
    mret {| text := text_content; metadata := metadata |}.

Fixpoint load_files (files : list string) (extra_info : option (gmap string pyval))
    (documents : list Document) : M (list Document) :=
  match files with
  | [] => mret documents
  | file :: files' =>
      document ← load_file file extra_info;
      load_files files' extra_info (documents ++ [document])
  end.

Definition load_data (file : file_arg) (extra_info : option (gmap string pyval))
    : M (list Document) :=
  let files := match file with OneFile f => [f] | FileList fs => fs end in
  load_files files extra_info [].

End Reader.

End OCR.

(** ** The chunking benchmark harness *)

Module Chunking.

(** A source record of a query response: what reading its [text] gives
    (the framework raises for a node that holds no text) and its score,
    which the framework leaves optional. *)
Record NodeWithScore : Type := {
  node_text : outcome string;
  score : option Q
}.

Record Response : Type := {
  response : string;
  source_nodes : list NodeWithScore
}.

(** The dict [results] both evaluation functions return. *)
Record results : Type := {
  config_name : string;
  num_chunks : nat;
  query_time : Q;
  results_response : string;
  num_sources : nat;
  avg_similarity : Q
}.

(** The scores as [sum(node.score for node in source_nodes)] reads them: a
    missing score raises [TypeError]. *)
Fixpoint scores (nodes : list NodeWithScore) : outcome (list Q) :=
  match nodes with
  | [] => Ok []
  | n :: nodes' =>
      match score n with
      | Some s => ss ← scores nodes'; mret (s :: ss)
      | None => Raise TypeError
      end
  end.

(** [sum(node.score for node in source_nodes) / len(source_nodes)
     if source_nodes else 0] *)
Definition average_similarity (source_nodes : list NodeWithScore) : outcome Q :=
  match source_nodes with
  | [] => Ok 0%Q
  | _ =>
      ss ← scores source_nodes;
      mret (Py.sum ss / inject_Z (Z.of_nat (length source_nodes)))%Q
  end.

(** Step 5, [for i, source_node in enumerate(response.source_nodes)]: the
    first [print] formats the score with [:.4f], which raises [TypeError]
    for [None]; the second reads [source_node.text].  Of the printing only
    its failures are kept. *)
Fixpoint show_sources (nodes : list NodeWithScore) : outcome unit :=
  match nodes with
  | [] => Ok tt
  | n :: nodes' =>
      match score n with
      | Some _ => _ ← node_text n; show_sources nodes'
      | None => Raise TypeError
      end
  end.

(** [for node in nodes: show(node)] *)
Fixpoint show_each {Node : Type} (show : Node -> outcome unit)
    (nodes : list Node) : outcome unit :=
  match nodes with
  | [] => Ok tt
  | n :: nodes' => _ ← show n; show_each show nodes'
  end.

Section Harness.
(** The collaborators: documents, chunk nodes, the splitters and the
    index with its query engine.  Each call of the framework may raise. *)
Variables Doc Node Splitter WindowParser : Type.
(** [splitter.get_nodes_from_documents(documents)] *)
Variable get_nodes_from_documents : Splitter -> list Doc -> outcome (list Node).
(** [SentenceSplitter(chunk_size=..., chunk_overlap=...)] *)
Variable sentence_splitter : nat -> nat -> outcome Splitter.
(** [splitter.build_window_nodes_from_documents(base_nodes)] *)
Variable build_window_nodes_from_documents
  : WindowParser -> list Node -> outcome (list Node).
(** The prints of one chunk, which read [node.text], and of one window
    node, which read [node.text] and [node.metadata]: what they raise. *)
Variable show_node : Node -> outcome unit.
Variable show_window_node : Node -> outcome unit.
(** [VectorStoreIndex(nodes).as_query_engine(similarity_top_k=3).query(q)];
    the flag tells whether the window post-processor is installed. *)
Variable run_query : bool -> list Node -> string -> outcome Response.

(** Steps 5 and 6, shared by both functions: the sources are printed with
    their scores, then the metrics are gathered. *)
Definition report (name : string) (nodes : list Node) (resp : Response)
    (start_time end_time : Q) : outcome results :=
  _ ← show_sources (source_nodes resp);
  avg ← average_similarity (source_nodes resp);
  mret {| config_name := name;
          num_chunks := length nodes;
          query_time := (end_time - start_time)%Q;
          results_response := response resp;
          num_sources := length (source_nodes resp);
          avg_similarity := avg |}.

(** [start_time] and [end_time] are the two readings of [time.time()].
    The first three chunks are shown before the index is built. *)
Definition evaluate_splitter (splitter : Splitter) (documents : list Doc)
    (query name : string) (start_time end_time : Q) : outcome results :=
  nodes ← get_nodes_from_documents splitter documents;
  _ ← show_each show_node (take 3 nodes);
  resp ← run_query false nodes query;
  report name nodes resp start_time end_time.

Definition evaluate_sentence_window_splitter (splitter : WindowParser)
    (documents : list Doc) (query name : string) (start_time end_time : Q)
    : outcome results :=
  base_splitter ← sentence_splitter 512 50;
  base_nodes ← get_nodes_from_documents base_splitter documents;
  nodes ← build_window_nodes_from_documents splitter base_nodes;
  _ ← show_each show_window_node (take 3 nodes);
  resp ← run_query true nodes query;
  report name nodes resp start_time end_time.

End Harness.

End Chunking.

(** ** Loading a directory, and the making of a reader *)

Module Directory.
Import Pathlib OCR.

(** The trace of [load_data_from_dir]: its own two messages around the
    events of [load_data]. *)
Inductive dir_event : Type :=
| PrintNoImages (dir : string)
| PrintFound (n : nat)
| Inner (ev : event).

Section Loader.
Variable str_to_float : string -> option Q.
(** The file system: what exists, what is a directory, what is a file, and
    the entries [glob('*')] and [rglob('*')] list below a directory. *)
Variable path_exists : string -> bool.
Variable is_dir : string -> bool.
Variable is_file : string -> bool.
Variable glob : string -> list string.
Variable rglob : string -> list string.
Variable cwd : string.
Variable self : ImageOCRReader.

(** [f.suffix.lower() in image_extensions and f.is_file()] *)
Definition is_image_file (f : string) : bool :=
  is_supported (lower (suffix (parse f))) && is_file (Pathlib.str (parse f)).

Definition load_data_from_dir (dir_path : string) (recursive : bool)
    (extra_info : option (gmap string pyval))
    : list dir_event * outcome (list Document) :=
  let dir_path := parse dir_path in
  if negb (path_exists (Pathlib.str dir_path)) || negb (is_dir (Pathlib.str dir_path))
  then ([], Raise ValueError)
  else
    let image_files :=
      List.filter is_image_file
        (if recursive then rglob (Pathlib.str dir_path)
         else glob (Pathlib.str dir_path)) in
    match image_files with
    | [] => ([PrintNoImages (Pathlib.str dir_path)], Ok [])
    | _ :: _ =>
        let '(w, r) :=
          load_data str_to_float path_exists cwd self (FileList image_files)
            extra_info in
        (PrintFound (length image_files) :: (Inner <$> w), r)
    end.

End Loader.

(** The parameters [__init__] hands to the engine: the language, the two
    switches when they are set, then the caller's keyword arguments, two
    names left out, over them. *)
Definition dropped_kwargs : list string :=
  ["use_doc_unwarping"; "use_textline_orientation"].

Definition ocr_params (lang : string) (use_gpu use_doc_orientation_classify : bool)
    (kwargs : gmap string pyval) : gmap string pyval :=
  let ocr_params : gmap string pyval := {[ "lang" := VStr lang ]} in
  let ocr_params :=
    if use_gpu then <["use_gpu" := VBool true]> ocr_params else ocr_params in
  let ocr_params :=
    if use_doc_orientation_classify
    then <["use_angle_cls" := VBool true]> ocr_params else ocr_params in
  let filtered_kwargs :=
    filter (fun kv => negb (existsb (String.eqb kv.1) dropped_kwargs) = true)
      kwargs in
  filtered_kwargs ∪ ocr_params.

(** [__init__]: [PaddleOCR] is the constructor of the engine, which may
    reject its parameters.  ([self.additional_params], which nothing reads,
    is not kept.) *)
Definition __init__
    (PaddleOCR : gmap string pyval -> outcome (string -> outcome pyval))
    (lang : string) (use_gpu : bool) (ocr_version : string)
    (use_doc_orientation_classify use_doc_unwarping use_textline_orientation : bool)
    (kwargs : gmap string pyval) : outcome ImageOCRReader :=
  engine ← PaddleOCR (ocr_params lang use_gpu use_doc_orientation_classify kwargs);
  mret {| OCR.lang := lang; OCR.use_gpu := use_gpu;
          OCR.ocr_version := ocr_version; OCR.ocr_model := engine |}.

End Directory.

(** ** The benchmark: loading the documents, the runs and the report *)

Module Benchmark.
Import Chunking.

(** [needle in hay] for strings. *)
Fixpoint contains (needle hay : string) : bool :=
  String.prefix needle hay ||
  match hay with
  | EmptyString => false
  | String _ hay' => contains needle hay'
  end.

(** [max(x :: l, key=key)]: the first item whose key is not exceeded. *)
Definition max_by {A : Type} (key : A -> Q) (x : A) (l : list A) : A :=
  fold_left (fun best y => if Qltb (key best) (key y) then y else best) l x.

(** [max(l, key=key) if l else None] *)
Definition best_of (l : list results) : option results :=
  match l with
  | [] => None
  | r :: l' => Some (max_by avg_similarity r l')
  end.

(** [sum(field(r) for r in l) / len(l) if l else 0] *)
Definition average_of (field : results -> Q) (l : list results) : Q :=
  match l with
  | [] => 0%Q
  | _ => (Py.sum (field <$> l) / inject_Z (Z.of_nat (length l)))%Q
  end.

Definition chunks (r : results) : Q := inject_Z (Z.of_nat (num_chunks r)).

Definition sentence_marker : string := "句子切片-".
Definition token_marker : string := "Token切片".
Definition window_marker : string := "句子窗口".

Definition sentence_method : string := "句子切片".
Definition token_method : string := "Token 切片".
Definition window_method : string := "句子窗口切片".

(** What the closing report of [main] prints. *)
Record summary : Type := {
  sentence_results : list results;
  token_results : list results;
  window_results : list results;
  best_sentence : option results;
  best_token : option results;
  best_window : option results;
  overall_best : results;
  avg_sentence_chunks : Q;
  avg_token_chunks : Q;
  avg_window_chunks : Q;
  avg_sentence_similarity : Q;
  avg_token_similarity : Q;
  avg_window_similarity : Q;
  best_method : string
}.

(** The report part of [main], from the table to the advice.  The messages
    themselves are left out; [max] of an empty list raises [ValueError]. *)
Definition summarize (all_results : list results) : outcome summary :=
  let sentence_results :=
    List.filter (fun r => contains sentence_marker (config_name r)) all_results in
  let token_results :=
    List.filter (fun r => contains token_marker (config_name r)) all_results in
  let window_results :=
    List.filter (fun r => contains window_marker (config_name r)) all_results in
  match all_results with
  | [] => Raise ValueError
  | r :: rs =>
      let avg_sentence_similarity := average_of avg_similarity sentence_results in
      let avg_token_similarity := average_of avg_similarity token_results in
      let avg_window_similarity := average_of avg_similarity window_results in
      let method_scores :=
        [(token_method, avg_token_similarity);
         (window_method, avg_window_similarity)] in
      Ok {| sentence_results := sentence_results;
            token_results := token_results;
            window_results := window_results;
            best_sentence := best_of sentence_results;
            best_token := best_of token_results;
            best_window := best_of window_results;
            overall_best := max_by avg_similarity r rs;
            avg_sentence_chunks := average_of chunks sentence_results;
            avg_token_chunks := average_of chunks token_results;
            avg_window_chunks := average_of chunks window_results;
            avg_sentence_similarity := avg_sentence_similarity;
            avg_token_similarity := avg_token_similarity;
            avg_window_similarity := avg_window_similarity;
            best_method :=
              (max_by snd (sentence_method, avg_sentence_similarity)
                 method_scores).1 |}
  end.

(** A row of the three tables of configurations. *)
Record configuration : Type := {
  name : string;
  chunk_size : nat;
  chunk_overlap : nat
}.

Record window_configuration : Type := {
  window_name : string;
  window_size : nat
}.

Definition sentence_configurations : list configuration :=
  [{| name := "句子切片-配置1: 小块 + 无重叠"; chunk_size := 256; chunk_overlap := 0 |};
   {| name := "句子切片-配置2: 小块 + 小重叠"; chunk_size := 256; chunk_overlap := 50 |};
   {| name := "句子切片-配置3: 中等块 + 中等重叠"; chunk_size := 512; chunk_overlap := 50 |};
   {| name := "句子切片-配置4: 中等块 + 大重叠"; chunk_size := 512; chunk_overlap := 128 |};
   {| name := "句子切片-配置5: 大块 + 中等重叠"; chunk_size := 1024; chunk_overlap := 100 |}].

Definition token_configurations : list configuration :=
  [{| name := "Token切片-配置1: 小块(128 tokens) + 无重叠";
      chunk_size := 128; chunk_overlap := 0 |};
   {| name := "Token切片-配置2: 小块(128 tokens) + 小重叠(20 tokens)";
      chunk_size := 128; chunk_overlap := 20 |};
   {| name := "Token切片-配置3: 中等块(256 tokens) + 中等重叠(30 tokens)";
      chunk_size := 256; chunk_overlap := 30 |};
   {| name := "Token切片-配置4: 中等块(256 tokens) + 大重叠(50 tokens)";
      chunk_size := 256; chunk_overlap := 50 |};
   {| name := "Token切片-配置5: 大块(512 tokens) + 中等重叠(50 tokens)";
      chunk_size := 512; chunk_overlap := 50 |}].

Definition sentence_window_configurations : list window_configuration :=
  [{| window_name := "句子窗口-配置1: 窗口大小=1（前后各1句）"; window_size := 1 |};
   {| window_name := "句子窗口-配置2: 窗口大小=2（前后各2句）"; window_size := 2 |};
   {| window_name := "句子窗口-配置3: 窗口大小=3（前后各3句）"; window_size := 3 |};
   {| window_name := "句子窗口-配置4: 窗口大小=5（前后各5句）"; window_size := 5 |};
   {| window_name := "句子窗口-配置5: 窗口大小=10（前后各10句）"; window_size := 10 |}].

Definition test_query : string := "什么是深度学习？它与机器学习有什么关系？".

(** [for config in configs: all_results.append(evaluate(config))]; the
    number of the run picks its two clock readings. *)
Fixpoint run_configurations {C : Type} (evaluate : C -> nat -> outcome results)
    (configs : list C) (all_results : list results)
    : outcome (list results) :=
  match configs with
  | [] => Ok all_results
  | config :: configs' =>
      result ← evaluate config (length all_results);
      run_configurations evaluate configs' (all_results ++ [result])
  end.

Section Main.
(** The collaborators, as in the evaluation functions, with the three
    constructors [main] calls, the environment, the data folder and the
    clock. *)
Variables Doc Node Splitter WindowParser : Type.
Variable get_nodes_from_documents : Splitter -> list Doc -> outcome (list Node).
Variable sentence_splitter : nat -> nat -> outcome Splitter.
Variable build_window_nodes_from_documents
  : WindowParser -> list Node -> outcome (list Node).
Variable show_node : Node -> outcome unit.
Variable show_window_node : Node -> outcome unit.
Variable run_query : bool -> list Node -> string -> outcome Response.
(** [SentenceSplitter(chunk_size, chunk_overlap, paragraph_separator)],
    [TokenTextSplitter(chunk_size, chunk_overlap, separator)] and
    [SentenceWindowNodeParser.from_defaults(window_size,
    window_metadata_key, original_text_metadata_key)] *)
Variable sentence_splitter_by_paragraph : nat -> nat -> string -> outcome Splitter.
Variable token_text_splitter : nat -> nat -> string -> outcome Splitter.
Variable sentence_window_parser : nat -> string -> string -> outcome WindowParser.
Variable getenv : string -> option string.
Variable data_dir_exists : bool.
Variable listdir_data_dir : outcome (list string).
Variable reader_load_data : outcome (list Doc).
Variable clock : nat -> Q * Q.

(** [load_documents_from_data_folder]; its messages are left out.
    [reader_load_data] stands for the reader made and run and the loaded
    documents listed, with whatever these raise. *)
Definition load_documents_from_data_folder : outcome (list Doc) :=
  if negb data_dir_exists then Raise ValueError
  else
    entries ← listdir_data_dir;
    match entries with
    | [] => Raise ValueError
    | _ :: _ => reader_load_data
    end.

(** The body of each of the three loops: the splitter is made, then the
    evaluation runs with it. *)
Definition evaluate_sentence (documents : list Doc) (config : configuration)
    (run : nat) : outcome results :=
  splitter ← sentence_splitter_by_paragraph (chunk_size config)
               (chunk_overlap config) (nl +:+ nl);
  evaluate_splitter Doc Node Splitter get_nodes_from_documents show_node
    run_query splitter documents test_query (name config)
    (clock run).1 (clock run).2.

Definition evaluate_token (documents : list Doc) (config : configuration)
    (run : nat) : outcome results :=
  splitter ← token_text_splitter (chunk_size config) (chunk_overlap config) " ";
  evaluate_splitter Doc Node Splitter get_nodes_from_documents show_node
    run_query splitter documents test_query (name config)
    (clock run).1 (clock run).2.

Definition evaluate_window (documents : list Doc) (config : window_configuration)
    (run : nat) : outcome results :=
  splitter ← sentence_window_parser (window_size config) "window"
               "original_sentence";
  evaluate_sentence_window_splitter Doc Node Splitter WindowParser
    get_nodes_from_documents sentence_splitter
    build_window_nodes_from_documents show_window_node run_query
    splitter documents test_query (window_name config)
    (clock run).1 (clock run).2.

(** [main]: [None] where it returns before the report, the report where it
    prints one.  The messages and the pauses between runs are left out. *)
Definition main : outcome (option summary) :=
  match getenv "DASHSCOPE_API_KEY" with
  | None | Some EmptyString => Ok None
  | Some _ =>
      match load_documents_from_data_folder with
      | Raise ValueError => Ok None
      | Raise e => Raise e
      | Ok documents =>
          all_results ← run_configurations (evaluate_sentence documents)
                          sentence_configurations [];
          all_results ← run_configurations (evaluate_token documents)
                          token_configurations all_results;
          all_results ← run_configurations (evaluate_window documents)
                          sentence_window_configurations all_results;
          s ← summarize all_results;
          mret (Some s)
      end
  end.

End Main.

End Benchmark.

(** ** Vocabulary of the statements *)

(** A confidence in the unit interval. *)
Definition in_unit (q : Q) : Prop := (0 <= q /\ q <= 1)%Q.

(** The items of a list or tuple. *)
Definition seq_items (v : pyval) : option (list pyval) :=
  match v with
  | VList l | VTuple l => Some l
  | _ => None
  end.

(** A raw result one of whose detections carries a confidence that [float]
    rejects: in the batch shape the score at the index of a text, in the
    nested-list shape the second field of the inner pair of a line. *)
Inductive has_uncoercible_confidence (str_to_float : string -> option Q)
  : pyval -> Prop :=
| uncoercible_batch d rest texts scores i c e :
    seq_items (dict_get "rec_texts" (VList []) d) = Some texts ->
    seq_items (dict_get "rec_scores" (VList []) d) = Some scores ->
    (i < length texts)%nat ->
    scores !! i = Some c ->
    to_float str_to_float c = Raise e ->
    has_uncoercible_confidence str_to_float (VList (VDict d :: rest))
| uncoercible_legacy lines rest i line box inner more text c more' e :
    lines !! i = Some line ->
    seq_items line = Some (box :: inner :: more) ->
    seq_items inner = Some (text :: c :: more') ->
    to_float str_to_float c = Raise e ->
    has_uncoercible_confidence str_to_float (VList (VList lines :: rest)).

(** A computation that ends in an exception. *)
Definition fails {A : Type} (m : OCR.M A) : Prop :=
  exists w e, m = (w, Raise e).

(** [c in s] for a character. *)
Fixpoint has_char (c : ascii) (s : string) : bool :=
  match s with
  | EmptyString => false
  | String a s' => Ascii.eqb a c || has_char c s'
  end.

(** A text without a line feed. *)
Definition one_line (s : string) : Prop := has_char newline s = false.

(** Reading the plain-text section back, as the round trip of the
    specification words it: the lines of the document that follow the title
    line of the separator. *)
Fixpoint after_title (lines : list string) : list string :=
  match lines with
  | [] => []
  | l :: lines' =>
      if String.eqb l OCR.separator_title then lines' else after_title lines'
  end.

Definition spec_plain_section_lines (formatted_text : string) : list string :=
  after_title (split_on newline formatted_text).

(** The non-empty texts of a flat result. *)
Definition non_empty (s : string) : bool := negb (String.eqb s "").

(** A float stored under a key of a metadata dict. *)
Definition float_at (md : gmap string pyval) (k : string) (q : Q) : Prop :=
  exists q', md !! k = Some (VFloat q') /\ (q' == q)%Q.

(** [q] is [x] rounded to four decimal places. *)
Definition four_decimals (q : Q) : Prop := exists n : Z, (q == n # 10000)%Q.
Definition rounds_to (x q : Q) : Prop :=
  four_decimals q /\ (Qabs (x - q) <= 1 # 20000)%Q.

(** The exact extrema of a confidence list, before rounding. *)
Definition exact_min (cs : list Q) : Q :=
  match cs with [] => 0%Q | c :: cs' => min_from c cs' end.
Definition exact_max (cs : list Q) : Q :=
  match cs with [] => 0%Q | c :: cs' => max_from c cs' end.

(** The metadata after [metadata.update(extra_info)], key by key. *)
Definition updated_with (extra_info : option (gmap string pyval))
    (computed md : gmap string pyval) : Prop :=
  forall k : string,
    md !! k = match extra_info with
              | Some extra =>
                  match extra !! k with
                  | Some v => Some v
                  | None => computed !! k
                  end
              | None => computed !! k
              end.

(** The three lists go in step: one confidence and one detailed entry per
    text. *)
Definition in_step (b : OCR.blocks) : Prop :=
  length (OCR.confidences b) = length (OCR.text_blocks b) /\
  length (OCR.detailed_blocks b) = length (OCR.text_blocks b).

(** A detection of the flat shape: confidence 1.0 and no bounding box. *)
Definition flat_detection (d : OCR.detection) : Prop :=
  OCR.d_confidence d = 1%Q /\ OCR.d_bbox d = VNone.

(** An event that is not a call of the engine. *)
Definition quiet (ev : OCR.event) : Prop :=
  match ev with OCR.OcrCall _ => False | _ => True end.

(** An event a call of [load_data] on [files] may leave: a warning, or the
    engine called on one of the files, which exists and has a supported
    extension. *)
Definition allowed_event (path_exists : string -> bool) (files : list string)
    (ev : OCR.event) : Prop :=
  match ev with
  | OCR.OcrCall path =>
      exists f, In f files /\ path = Pathlib.str (Pathlib.parse f) /\
        path_exists path = true /\
        OCR.is_supported (lower (Pathlib.suffix (Pathlib.parse f))) = true
  | _ => True
  end.

(** The sum of the numbers of a list, as arithmetic has it. *)
Fixpoint total (ss : list Q) : Q :=
  match ss with
  | [] => 0%Q
  | s :: ss' => (s + total ss')%Q
  end.

(** [a] is the arithmetic mean of [ss], read as 0 for no score at all. *)
Definition is_mean_of (ss : list Q) (a : Q) : Prop :=
  match ss with
  | [] => (a == 0)%Q
  | _ => (a * inject_Z (Z.of_nat (length ss)) == total ss)%Q
  end.

(** Every source of the response has a score and a text that can be read;
    [ss] are the scores, in order. *)
Definition sources_scored (resp : Chunking.Response) (ss : list Q) : Prop :=
  Forall2 (fun n s => Chunking.score n = Some s /\
                      exists t, Chunking.node_text n = Ok t)
    (Chunking.source_nodes resp) ss.

(** The first three of [nodes] are shown without an exception. *)
Definition shown {Node : Type} (show : Node -> outcome unit)
    (nodes : list Node) : Prop :=
  Forall (fun n => show n = Ok tt) (take 3 nodes).

(** ** Inputs of the scenarios *)

Module Scenario.
Import OCR.

Definition reader : ImageOCRReader :=
  {| lang := "ch"; use_gpu := false; ocr_version := "PP-OCRv4";
     ocr_model := fun _ => Ok (VList []) |}.

(** No string reads as a number. *)
Definition no_float : string -> option Q := fun _ => None.

Definition work_dir : string := "/work".
Definition image : Pathlib.Path := Pathlib.parse "scan.png".

(** [[{"rec_texts": ["A","B"], "rec_scores": [0.9, 0.8]}]] *)
Definition batch_AB : pyval :=
  VList [VDict [("rec_texts", VList [VStr "A"; VStr "B"]);
                ("rec_scores", VList [VFloat (9 # 10); VFloat (8 # 10)])]].

(** [[{"rec_texts": ["A","B"], "rec_scores": [0.9, None]}]] *)
Definition batch_bad_score : pyval :=
  VList [VDict [("rec_texts", VList [VStr "A"; VStr "B"]);
                ("rec_scores", VList [VFloat (9 # 10); VNone])]].

(** [[{"rec_texts": ["A"], "rec_scores": [0.0]}]] *)
Definition batch_zero_score : pyval :=
  VList [VDict [("rec_texts", VList [VStr "A"]);
                ("rec_scores", VList [VFloat 0])]].

(** A text of two lines. *)
Definition two_lines : string := "a" +:+ nl +:+ "b".

(** [["A","B","C"]] *)
Definition flat_ABC : pyval := VList [VStr "A"; VStr "B"; VStr "C"].

(** [{"avg_confidence": "n/a", "source": "scanner"}] *)
Definition extra_scanner : gmap string pyval :=
  <["avg_confidence" := VStr "n/a"]> (<["source" := VStr "scanner"]> ∅).

(** A file system with every file, and one with none. *)
Definition every_file : string -> bool := fun _ => true.
Definition no_file : string -> bool := fun _ => false.

(** Collaborators of the benchmark: a document is its text, a chunk a
    string, and the query returns two sources. *)
Definition split_lines (_ : unit) (docs : list string)
  : outcome (list string) :=
  Ok (concat (List.map (split_on newline) docs)).
Definition show_line (_ : string) : outcome unit := Ok tt.
Definition two_sources : Chunking.Response :=
  {| Chunking.response := "answer";
     Chunking.source_nodes :=
       [{| Chunking.node_text := Ok "x"; Chunking.score := Some (3 # 4)%Q |};
        {| Chunking.node_text := Ok "y"; Chunking.score := Some (1 # 4)%Q |}] |}.
Definition answer_query (_ : bool) (_ : list string) (_ : string)
  : outcome Chunking.Response := Ok two_sources.

End Scenario.


(** ** Vocabulary of the further statements *)

(** The paths the engine was called with, in the order of the calls. *)
Definition engine_calls (w : list OCR.event) : list string :=
  flat_map (fun ev => match ev with OCR.OcrCall p => [p] | _ => [] end) w.

(** [d] is the document of [file]: the engine's raw result for its path,
    processed with [extra_info]. *)
Definition document_of (str_to_float : string -> option Q) (cwd : string)
    (self : OCR.ImageOCRReader) (extra_info : option (gmap string pyval))
    (file : string) (d : OCR.Document) : Prop :=
  exists raw w txt md,
    OCR.ocr_model self (Pathlib.str (Pathlib.parse file)) = Ok raw /\
    OCR._process_ocr_result str_to_float cwd self raw (Pathlib.parse file)
      extra_info = (w, Ok (txt, md)) /\
    d = {| OCR.text := txt; OCR.metadata := md |}.

(** A file that passes both guards of [load_data]. *)
Definition loadable (path_exists : string -> bool) (file : string) : bool :=
  path_exists (Pathlib.str (Pathlib.parse file)) &&
  OCR.is_supported (lower (Pathlib.suffix (Pathlib.parse file))).

(** The keys of the dict literal [metadata = {...}]. *)
Definition computed_keys : list string :=
  ["image_path"; "file_name"; "ocr_model"; "language"; "num_text_blocks";
   "avg_confidence"; "min_confidence"; "max_confidence"; "used_gpu"].

(** The detection the batch loop makes of the text at index [i]: its score
    and polygon when the parallel lists reach that far, else 1.0 and [None]. *)
Definition batch_detection (qs : list Q) (polys : list pyval) (i : nat)
    (t : pyval) : OCR.detection :=
  {| OCR.d_text := t;
     OCR.d_confidence := default 1%Q (qs !! i);
     OCR.d_bbox := default VNone (polys !! i);
     OCR.d_block_index := i |}.

(** The same detections [(box, text, confidence)] written in the batch shape
    and in the nested-list shape. *)
Definition batch_of (entries : list (pyval * pyval * pyval)) : pyval :=
  VList [VDict [("rec_texts", VList ((fun e => e.1.2) <$> entries));
                ("rec_scores", VList ((fun e => e.2) <$> entries));
                ("dt_polys", VList ((fun e => e.1.1) <$> entries))]].

Definition legacy_line (e : pyval * pyval * pyval) : pyval :=
  VList [e.1.1; VTuple [e.1.2; e.2]].

Definition legacy_of (entries : list (pyval * pyval * pyval)) : pyval :=
  VList [VList (legacy_line <$> entries)].

(** A raw result of the batch or of the nested-list shape: a non-empty list
    headed by a dict or by a list. *)
Definition keyed_or_nested (raw : pyval) : Prop :=
  match raw with
  | VList (VDict _ :: _) | VList (VList _ :: _) => True
  | _ => False
  end.

(** [isinstance(v, str)] *)
Definition is_text (v : pyval) : bool :=
  match v with VStr _ => true | _ => false end.

(** The engine calls in the trace of [load_data_from_dir]. *)
Definition dir_engine_calls (w : list Directory.dir_event) : list string :=
  flat_map (fun ev => match ev with
                      | Directory.Inner (OCR.OcrCall p) => [p]
                      | _ => []
                      end) w.

(** The names [__init__] binds itself, which Python never leaves among the
    keyword arguments. *)
Definition init_parameters : list string :=
  ["lang"; "use_gpu"; "ocr_version"; "use_doc_orientation_classify";
   "use_doc_unwarping"; "use_textline_orientation"].

(** [e] is what the first failing item of [l] raises: the items before it
    are in order. *)
Definition first_failing {A : Type} (ok : A -> Prop) (fails : A -> exn -> Prop)
    (l : list A) (e : exn) : Prop :=
  exists pre x post, l = pre ++ x :: post /\ Forall ok pre /\ fails x e.

(** A source with a score and a text that can be read, and a source whose
    print raises [e]: [TypeError] for a missing score, else what reading the
    text raises. *)
Definition source_ok (n : Chunking.NodeWithScore) : Prop :=
  (exists s, Chunking.score n = Some s) /\
  exists t, Chunking.node_text n = Ok t.

Definition source_fails (n : Chunking.NodeWithScore) (e : exn) : Prop :=
  (Chunking.score n = None /\ e = TypeError) \/
  ((exists s, Chunking.score n = Some s) /\ Chunking.node_text n = Raise e).

(** After the nodes are made, an evaluation fails with [e] in one of three
    places: showing one of the first three nodes, the query, or printing a
    source of the response. *)
Definition fails_after_split {Node : Type} (show : Node -> outcome unit)
    (run_query : bool -> list Node -> string -> outcome Chunking.Response)
    (post : bool) (nodes : list Node) (query : string) (e : exn) : Prop :=
  first_failing (fun n => show n = Ok tt) (fun n e => show n = Raise e)
    (take 3 nodes) e \/
  (shown show nodes /\
   (run_query post nodes query = Raise e \/
    exists resp, run_query post nodes query = Ok resp /\
      first_failing source_ok source_fails (Chunking.source_nodes resp) e)).

(** ** Inputs of the further scenarios *)

Module Scenario2.
Import Chunking Benchmark.

Definition result (n : string) (chunks : nat) (sim : Q) : results :=
  {| config_name := n; num_chunks := chunks; query_time := 1;
     results_response := "answer"; num_sources := 3; avg_similarity := sim |}.

(** Two sentence runs, a token run that ties with the better of them, and a
    window run. *)
Definition four_results : list results :=
  [result "句子切片-配置1" 10 (1 # 2); result "句子切片-配置2" 8 (3 # 4);
   result "Token切片-配置1" 20 (3 # 4); result "句子窗口-配置1" 40 (1 # 4)].

(** An environment in which [main] runs to its report. *)
Definition getenv (n : string) : option string :=
  if String.eqb n "DASHSCOPE_API_KEY" then Some "sk-demo" else None.
Definition by_paragraph (_ _ : nat) (_ : string) : outcome unit := Ok tt.
Definition window_parser (_ : nat) (_ _ : string) : outcome unit := Ok tt.
Definition plain_splitter (_ _ : nat) : outcome unit := Ok tt.
Definition same_nodes (_ : unit) (ns : list string) : outcome (list string) :=
  Ok ns.
Definition readings (run : nat) : Q * Q :=
  (inject_Z (Z.of_nat run), inject_Z (Z.of_nat run) + 1)%Q.

(** A splitter that fails on every document. *)
Definition failing_split (_ : unit) (_ : list string) : outcome (list string) :=
  Raise (EngineError "tokenizer").

(** A query whose second source the retriever left without a score. *)
Definition unscored_source : Response :=
  {| response := "answer";
     source_nodes := [{| node_text := Ok "x"; score := Some (3 # 4)%Q |};
                      {| node_text := Ok "y"; score := None |}] |}.
Definition unscored_query (_ : bool) (_ : list string) (_ : string)
  : outcome Response := Ok unscored_source.

(** A reader whose engine reads "A" and "B" off every image. *)
Definition reader_AB : OCR.ImageOCRReader :=
  {| OCR.lang := "ch"; OCR.use_gpu := false; OCR.ocr_version := "PP-OCRv4";
     OCR.ocr_model := fun _ => Ok Scenario.batch_AB |}.

(** The dict of [Scenario.batch_AB]. *)
Definition dict_AB : list (string * pyval) :=
  [("rec_texts", VList [VStr "A"; VStr "B"]);
   ("rec_scores", VList [VFloat (9 # 10); VFloat (8 # 10)])].

(** [["A", 5]]: a flat list with a number after its first text. *)
Definition flat_A_5 : pyval := VList [VStr "A"; VInt 5].

(** The lines of a nested-list result: a detection and a line whose second
    item is no pair. *)
Definition two_legacy_lines : list pyval :=
  [legacy_line (VNone, VStr "A", VFloat (9 # 10)); VList [VNone; VInt 7]].

(** A directory with an image and a text file. *)
Definition listing (_ : string) : list string := ["scans/a.png"; "scans/notes.txt"].

(** A directory with no image. *)
Definition listing_notes (_ : string) : list string := ["scans/notes.txt"].

(** [ImageOCRReader(lang="ch", use_gpu=True, det=True)] *)
Definition kwargs_det : gmap string pyval := {["det" := VBool true]}.

End Scenario2.

(** * Properties *)

(** ** Rounding and the statistics of a confidence list *)

Section Numbers.
Local Open Scope Q_scope.

Lemma round_half_even_near (q : Q) :
  inject_Z (round_half_even q) - (1 # 2) <= q /\
  q <= inject_Z (round_half_even q) + (1 # 2).
Proof.
  unfold round_half_even.
  pose proof (Qfloor_le q) as Hlo.
  pose proof (Qlt_floor q) as Hhi.
  rewrite inject_Z_plus in Hhi. change (inject_Z 1) with 1 in Hhi.
  destruct (Qcompare_spec (q - inject_Z (Qfloor q)) (1 # 2)) as [He | Hl | Hg].
  - destruct (Z.even (Qfloor q)).
    + split; lra.
    + rewrite inject_Z_plus. change (inject_Z 1) with 1. split; lra.
  - split; lra.
  - rewrite inject_Z_plus. change (inject_Z 1) with 1. split; lra.
Qed.

Lemma round_half_even_range (q : Q) (n : Z) :
  0 <= q -> q <= inject_Z n -> (0 <= round_half_even q <= n)%Z.
Proof.
  intros H0 Hn.
  destruct (round_half_even_near q) as [Hlo Hhi].
  split.
  - assert (inject_Z (-1) < inject_Z (round_half_even q)) as H.
    { change (inject_Z (-1)) with (-1 # 1). lra. }
    rewrite <- Zlt_Qlt in H. lia.
  - assert (inject_Z (round_half_even q) < inject_Z (n + 1)) as H.
    { rewrite inject_Z_plus. change (inject_Z 1) with 1. lra. }
    rewrite <- Zlt_Qlt in H. lia.
Qed.

Lemma round4_in_unit (x : Q) : in_unit x -> in_unit (Py.round x 4).
Proof.
  intros [H0 H1]. unfold Py.round.
  change (10 ^ Z.of_nat 4)%Z with 10000%Z.
  destruct (round_half_even_range (x * inject_Z 10000) 10000) as [Hlo Hhi].
  - change (inject_Z 10000) with (10000 # 1). lra.
  - change (inject_Z 10000) with (10000 # 1). lra.
  - split; unfold Qle; simpl; lia.
Qed.

(** [round(x, 4)] is a multiple of 1/10000 and within half of that of [x]. *)
Lemma round4_spec (x : Q) :
  exists n : Z, Py.round x 4 = n # 10000 /\
    Qabs (x - Py.round x 4) <= 1 # 20000.
Proof.
  exists (round_half_even (x * inject_Z 10000)). split; [reflexivity |].
  unfold Py.round. change (10 ^ Z.of_nat 4)%Z with 10000%Z.
  change (Z.to_pos 10000) with 10000%positive.
  destruct (round_half_even_near (x * inject_Z 10000)) as [Hlo Hhi].
  set (n := round_half_even (x * inject_Z 10000)) in *.
  assert (n # 10000 == inject_Z n * (1 # 10000)) as E.
  { unfold Qeq, Qmult, inject_Z. simpl. lia. }
  change (inject_Z 10000) with (10000 # 1) in Hlo, Hhi.
  apply Qabs_Qle_condition. rewrite E. split; lra.
Qed.

Lemma sum_from_bounds (l : list Q) (a : Q) :
  Forall in_unit l ->
  a <= fold_left Qplus l a /\
  fold_left Qplus l a <= a + inject_Z (Z.of_nat (length l)).
Proof.
  intros H. revert a. induction H as [| c l [Hc0 Hc1] _ IH]; intros a.
  - cbn [fold_left length]. change (inject_Z (Z.of_nat 0)) with 0. split; lra.
  - cbn [fold_left length]. destruct (IH (a + c)) as [Hlo Hhi].
    rewrite Nat2Z.inj_succ, <- Z.add_1_r, inject_Z_plus in *.
    change (inject_Z 1) with 1. split; lra.
Qed.

Lemma avg_confidence_in_unit (l : list Q) :
  Forall in_unit l -> in_unit (OCR.avg_confidence l).
Proof.
  intros H. unfold OCR.avg_confidence. destruct l as [| c l].
  - split; lra.
  - destruct (sum_from_bounds (c :: l) 0 H) as [Hlo Hhi].
    fold (Py.sum (c :: l)) in Hlo, Hhi.
    set (n := inject_Z (Z.of_nat (length (c :: l)))) in *.
    assert (0 < n) as Hn.
    { unfold n. change 0 with (inject_Z 0). rewrite <- Zlt_Qlt.
      simpl length. lia. }
    split.
    + apply Qle_shift_div_l; [exact Hn | lra].
    + apply Qle_shift_div_r; [exact Hn | lra].
Qed.

Lemma min_from_in_unit (l : list Q) (x : Q) :
  in_unit x -> Forall in_unit l -> in_unit (min_from x l).
Proof.
  intros Hx H. revert x Hx. unfold min_from.
  induction H as [| c l Hc _ IH]; intros x Hx; [exact Hx |].
  cbn [fold_left]. apply IH. destruct (Qltb c x); assumption.
Qed.

Lemma max_from_in_unit (l : list Q) (x : Q) :
  in_unit x -> Forall in_unit l -> in_unit (max_from x l).
Proof.
  intros Hx H. revert x Hx. unfold max_from.
  induction H as [| c l Hc _ IH]; intros x Hx; [exact Hx |].
  cbn [fold_left]. apply IH. destruct (Qltb x c); assumption.
Qed.

End Numbers.

(** ** Computations and loops *)

Section Computations.
Import OCR.

Lemma bind_ok {A B : Type} (w : list event) (a : A) (f : A -> M B) :
  ((w, Ok a) : M A) ≫= f = (w ++ (f a).1, (f a).2).
Proof. unfold mbind, M_bind. destruct (f a); reflexivity. Qed.

Lemma bind_raise {A B : Type} (w : list event) (e : exn) (f : A -> M B) :
  ((w, Raise e) : M A) ≫= f = (w, Raise e).
Proof. reflexivity. Qed.

Lemma bind_lift {A B : Type} (r : outcome A) (f : A -> M B) :
  lift r ≫= f = match r with Ok a => f a | Raise e => ([], Raise e) end.
Proof. destruct r; [unfold lift; rewrite bind_ok; destruct (f a) |]; reflexivity. Qed.

Lemma bind_mret {A B : Type} (a : A) (f : A -> M B) : mret a ≫= f = f a.
Proof. unfold mret, M_ret. rewrite bind_ok. destruct (f a); reflexivity. Qed.

Lemma bind_assoc {A B C : Type} (m : M A) (f : A -> M B) (g : B -> M C) :
  (m ≫= f) ≫= g = m ≫= (fun a => f a ≫= g).
Proof.
  destruct m as [w [a | e]]; [| reflexivity].
  rewrite !bind_ok. destruct (f a) as [w1 [b | e1]]; cbn [fst snd].
  - rewrite !bind_ok. cbn [fst snd]. rewrite app_assoc. reflexivity.
  - reflexivity.
Qed.

Lemma fails_bind_l {A B : Type} (m : M A) (f : A -> M B) :
  fails m -> fails (m ≫= f).
Proof. intros (w & e & ->). exists w, e. reflexivity. Qed.

Lemma fails_bind_r {A B : Type} (m : M A) (f : A -> M B) :
  (forall a, fails (f a)) -> fails (m ≫= f).
Proof.
  intros H. destruct m as [w [a | e]].
  - destruct (H a) as (w' & e & E). rewrite bind_ok, E.
    exists (w ++ w'), e. reflexivity.
  - exists w, e. reflexivity.
Qed.

Lemma fails_lift_raise {A : Type} (e : exn) : fails (lift (Raise e : outcome A)).
Proof. exists [], e. reflexivity. Qed.

(** A loop whose body raises at one of its items, whatever the state it is
    entered with, raises. *)
Lemma for_enumerate_fails {A St : Type} (body : nat -> A -> St -> M St)
    (xs : list A) (i : nat) (x : A) :
  xs !! i = Some x ->
  forall idx s, (forall s', fails (body (idx + i)%nat x s')) ->
  fails (for_enumerate body idx xs s).
Proof.
  revert i. induction xs as [| y xs IH]; intros i Hx idx s Hbody.
  - discriminate.
  - cbn [for_enumerate]. destruct i as [| i].
    + injection Hx as ->. apply fails_bind_l.
      rewrite Nat.add_0_r in Hbody. apply Hbody.
    + apply fails_bind_r. intros s'. apply (IH i Hx).
      intros s''. replace (S idx + i)%nat with (idx + S i)%nat by lia.
      apply Hbody.
Qed.

Lemma bind_ok_inv {A B : Type} (m : M A) (f : A -> M B) (w : list event) (b : B) :
  m ≫= f = (w, Ok b) ->
  exists w1 a w2, m = (w1, Ok a) /\ f a = (w2, Ok b) /\ w = w1 ++ w2.
Proof.
  destruct m as [w1 [a | e]]; [| discriminate].
  rewrite bind_ok. destruct (f a) as [w2 r] eqn:E. cbn [fst snd].
  intros [= <- ->]. exists w1, a, w2.
  split; [reflexivity |]. split; [exact E | reflexivity].
Qed.

Lemma lift_ok_inv {A : Type} (r : outcome A) (w : list event) (a : A) :
  lift r = (w, Ok a) -> r = Ok a /\ w = [].
Proof. unfold lift. intros [= <- ->]. split; reflexivity. Qed.

(** A property of the state that every round keeps holds after the loop. *)
Lemma for_enumerate_invariant {A St : Type} (P : St -> Prop)
    (body : nat -> A -> St -> M St) :
  (forall idx x s w s', P s -> body idx x s = (w, Ok s') -> P s') ->
  forall xs idx s w s',
    P s -> for_enumerate body idx xs s = (w, Ok s') -> P s'.
Proof.
  intros Hbody. induction xs as [| x xs IH]; intros idx s w s' Hs.
  - cbn [for_enumerate]. intros [= _ <-]. exact Hs.
  - cbn [for_enumerate]. intros H.
    apply bind_ok_inv in H as (w1 & s1 & w2 & H1 & H2 & _).
    exact (IH _ _ _ _ (Hbody _ _ _ _ _ Hs H1) H2).
Qed.

End Computations.

(** ** Confidences that [float] rejects *)

Section Coercion.
Import OCR.
Variable str_to_float : string -> option Q.
Variable cwd : string.
Variable self : ImageOCRReader.

Lemma seq_items_len (v : pyval) (l : list pyval) :
  seq_items v = Some l -> len v = Ok (length l).
Proof. destruct v; intros [= <-]; reflexivity. Qed.

Lemma seq_items_getitem (v : pyval) (l : list pyval) (i : nat) (x : pyval) :
  seq_items v = Some l -> l !! i = Some x -> getitem v i = Ok x.
Proof. destruct v; intros [= <-] E; cbn [getitem]; rewrite E; reflexivity. Qed.

Lemma seq_items_iter (v : pyval) (l : list pyval) :
  seq_items v = Some l -> iter v = Ok l.
Proof. destruct v; intros [= <-]; reflexivity. Qed.

Lemma seq_items_truthy (v x : pyval) (l : list pyval) :
  seq_items v = Some (x :: l) -> truthy v = true.
Proof. destruct v; intros [= ->]; reflexivity. Qed.

Lemma seq_items_list_or_tuple (v : pyval) (l : list pyval) :
  seq_items v = Some l -> is_list_or_tuple v = true.
Proof. destruct v; intros [= <-]; reflexivity. Qed.

(** The batch loop raises at a text whose score does not coerce. *)
Lemma batch_body_fails (rec_scores dt_polys : pyval) (scores : list pyval)
    (i : nat) (c text : pyval) (e : exn) (b : blocks) :
  seq_items rec_scores = Some scores ->
  scores !! i = Some c ->
  to_float str_to_float c = Raise e ->
  fails (batch_body str_to_float rec_scores dt_polys i text b).
Proof.
  intros Hs Hc He. unfold batch_body.
  rewrite (seq_items_len _ _ Hs). cbn [mbind outcome_bind].
  assert ((i <? length scores)%nat = true) as ->.
  { apply Nat.ltb_lt. eapply lookup_lt_Some. exact Hc. }
  rewrite (seq_items_getitem _ _ _ _ Hs Hc), bind_lift.
  apply fails_bind_r. intros bbox. rewrite He. apply fails_bind_l, fails_lift_raise.
Qed.

(** The loop over lines raises at a well-formed line whose confidence does
    not coerce. *)
Lemma legacy_body_fails (i : nat) (line box inner text c : pyval)
    (more more' : list pyval) (e : exn) (b : blocks) :
  seq_items line = Some (box :: inner :: more) ->
  seq_items inner = Some (text :: c :: more') ->
  to_float str_to_float c = Raise e ->
  fails (legacy_body str_to_float i line b).
Proof.
  intros Hl Hi He. unfold legacy_body.
  rewrite (seq_items_truthy _ _ _ Hl), (seq_items_len _ _ Hl), bind_lift.
  cbn [length Nat.leb].
  rewrite (seq_items_getitem line _ 0 box Hl eq_refl), bind_lift.
  rewrite (seq_items_getitem line _ 1 inner Hl eq_refl), bind_lift.
  rewrite (seq_items_list_or_tuple _ _ Hi). unfold len_ge.
  rewrite (seq_items_len _ _ Hi). cbn [length Nat.leb andb].
  rewrite (seq_items_getitem inner _ 0 text Hi eq_refl), bind_lift.
  rewrite (seq_items_getitem inner _ 1 c Hi eq_refl), bind_lift.
  rewrite He. apply fails_bind_l, fails_lift_raise.
Qed.

Lemma collect_blocks_fails (raw : pyval) :
  has_uncoercible_confidence str_to_float raw ->
  fails (collect_blocks str_to_float raw).
Proof.
  intros [d rest texts scores i c e Ht Hs Hi Hc He
         | lines rest i line box inner more text c more' e Hl Hline Hinner He].
  - cbn [collect_blocks].
    assert (dict_contains "rec_texts" d = true) as ->.
    { unfold dict_contains, dict_get in *.
      destruct (assoc "rec_texts" d); [reflexivity |].
      injection Ht as <-. cbn in Hi. lia. }
    rewrite (seq_items_iter _ _ Ht), bind_lift.
    destruct (lookup_lt_is_Some_2 texts i Hi) as [text Htext].
    apply (for_enumerate_fails _ texts i text Htext).
    intros b. cbn [Nat.add]. eapply batch_body_fails; eassumption.
  - cbn [collect_blocks].
    apply (for_enumerate_fails _ lines i line Hl).
    intros b. cbn [Nat.add]. eapply legacy_body_fails; eassumption.
Qed.

(** C1 (as amended).  A confidence that [float] rejects is not skipped: in
    the batch shape and in the nested-list shape alike, one such detection
    makes [_process_ocr_result] end in the exception, and nothing is
    returned. *)
Theorem coercion_failure_aborts_call (raw : pyval) (file_path : Pathlib.Path)
    (extra_info : option (gmap string pyval)) :
  has_uncoercible_confidence str_to_float raw ->
  exists w e,
    _process_ocr_result str_to_float cwd self raw file_path extra_info
    = (w, Raise e).
Proof.
  intros H. unfold _process_ocr_result.
  apply fails_bind_l, collect_blocks_fails, H.
Qed.

End Coercion.

(** ** The metadata dict *)

Section Metadata.
Import OCR.
Variable cwd : string.
Variable self : ImageOCRReader.

Lemma metadata_num_text_blocks (p : Pathlib.Path) (tbs : list pyval) (cs : list Q) :
  computed_metadata cwd self p tbs cs !! "num_text_blocks"
  = Some (VInt (Z.of_nat (length tbs))).
Proof. reflexivity. Qed.

Lemma metadata_avg_confidence (p : Pathlib.Path) (tbs : list pyval) (cs : list Q) :
  computed_metadata cwd self p tbs cs !! "avg_confidence"
  = Some (VFloat (Py.round (avg_confidence cs) 4)).
Proof. reflexivity. Qed.

Lemma metadata_min_confidence (p : Pathlib.Path) (tbs : list pyval) (cs : list Q) :
  computed_metadata cwd self p tbs cs !! "min_confidence"
  = Some (VFloat (min_confidence cs)).
Proof. reflexivity. Qed.

Lemma metadata_max_confidence (p : Pathlib.Path) (tbs : list pyval) (cs : list Q) :
  computed_metadata cwd self p tbs cs !! "max_confidence"
  = Some (VFloat (max_confidence cs)).
Proof. reflexivity. Qed.

End Metadata.

(** ** Mean, minimum and maximum confidence *)

Section Statistics.
Import OCR.
Variable str_to_float : string -> option Q.
Variable cwd : string.
Variable self : ImageOCRReader.

(** What a successful call returns, in terms of its two halves. *)
Lemma process_ok_inv (raw : pyval) (p : Pathlib.Path)
    (extra_info : option (gmap string pyval)) (w : list event)
    (txt : string) (md : gmap string pyval) :
  _process_ocr_result str_to_float cwd self raw p extra_info = (w, Ok (txt, md)) ->
  exists b texts,
    collect_blocks str_to_float raw = (w, Ok b) /\
    str_items (text_blocks b) = Ok texts /\
    txt = _format_text_blocks texts (confidences b) /\
    md = merge_extra (computed_metadata cwd self p (text_blocks b) (confidences b))
           extra_info.
Proof.
  unfold _process_ocr_result.
  destruct (collect_blocks str_to_float raw) as [w0 [b | e]]; [| discriminate].
  rewrite bind_ok, bind_lift.
  destruct (str_items (text_blocks b)) as [texts | e] eqn:Et; [| discriminate].
  cbn. rewrite app_nil_r. intros [= <- <- <-].
  exists b, texts. repeat split; [exact Et | reflexivity ..].
Qed.

Lemma merge_extra_lookup (computed : gmap string pyval)
    (extra_info : option (gmap string pyval)) :
  updated_with extra_info computed (merge_extra computed extra_info).
Proof.
  intros k. unfold merge_extra. destruct extra_info as [extra |]; [| reflexivity].
  destruct (Nat.eqb_spec (size extra) 0) as [E | _].
  - apply map_size_empty_iff in E. subst extra. rewrite lookup_empty. reflexivity.
  - rewrite lookup_union. destruct (extra !! k), (computed !! k); reflexivity.
Qed.

(** C2 (as amended).  For confidences in the unit interval the mean, the
    minimum and the maximum stored in the metadata lie in the unit interval,
    and all three are 0.0 when there is no detection.  The converse does not
    hold: a single confidence 0.0 gives 0.0 three times as well. *)
Theorem confidence_statistics_in_unit_interval (p : Pathlib.Path)
    (tbs : list pyval) (cs : list Q) :
  Forall in_unit cs ->
  exists a mn mx,
    computed_metadata cwd self p tbs cs !! "avg_confidence" = Some (VFloat a) /\
    computed_metadata cwd self p tbs cs !! "min_confidence" = Some (VFloat mn) /\
    computed_metadata cwd self p tbs cs !! "max_confidence" = Some (VFloat mx) /\
    in_unit a /\ in_unit mn /\ in_unit mx /\
    (cs = [] -> a == 0 /\ mn == 0 /\ mx == 0)%Q.
Proof.
  intros H.
  exists (Py.round (avg_confidence cs) 4), (min_confidence cs), (max_confidence cs).
  rewrite metadata_avg_confidence, metadata_min_confidence, metadata_max_confidence.
  repeat split; try reflexivity.
  - apply round4_in_unit, avg_confidence_in_unit, H.
  - apply round4_in_unit, avg_confidence_in_unit, H.
  - destruct H as [| c cs Hc H]; cbn [min_confidence]; [lra |].
    apply round4_in_unit, min_from_in_unit; assumption.
  - destruct H as [| c cs Hc H]; cbn [min_confidence]; [lra |].
    apply round4_in_unit, min_from_in_unit; assumption.
  - destruct H as [| c cs Hc H]; cbn [max_confidence]; [lra |].
    apply round4_in_unit, max_from_in_unit; assumption.
  - destruct H as [| c cs Hc H]; cbn [max_confidence]; [lra |].
    apply round4_in_unit, max_from_in_unit; assumption.
  - subst cs. reflexivity.
  - subst cs. reflexivity.
  - subst cs. reflexivity.
Qed.

Lemma round4_rounds_to (x : Q) : rounds_to x (Py.round x 4).
Proof.
  destruct (round4_spec x) as (n & E & Hn). split; [| exact Hn].
  exists n. rewrite E. reflexivity.
Qed.

Lemma rounds_to_zero : rounds_to 0 0.
Proof. split; [exists 0%Z; reflexivity | discriminate]. Qed.

(** C10.  A successful call stores the mean, the minimum and the maximum
    confidence rounded to four decimal places, and merges [extra_info] last:
    a key of [extra_info] takes its value from there, every other key keeps
    the computed one. *)
Theorem metadata_rounded_then_extra_info_merged (raw : pyval) (p : Pathlib.Path)
    (extra_info : option (gmap string pyval)) (w : list event) (txt : string)
    (md : gmap string pyval) :
  _process_ocr_result str_to_float cwd self raw p extra_info = (w, Ok (txt, md)) ->
  exists b computed a mn mx,
    collect_blocks str_to_float raw = (w, Ok b) /\
    computed = computed_metadata cwd self p (text_blocks b) (confidences b) /\
    computed !! "avg_confidence" = Some (VFloat a) /\
    computed !! "min_confidence" = Some (VFloat mn) /\
    computed !! "max_confidence" = Some (VFloat mx) /\
    rounds_to (avg_confidence (confidences b)) a /\
    rounds_to (exact_min (confidences b)) mn /\
    rounds_to (exact_max (confidences b)) mx /\
    updated_with extra_info computed md.
Proof.
  intros H. destruct (process_ok_inv _ _ _ _ _ _ H) as (b & texts & Hb & _ & _ & ->).
  exists b, (computed_metadata cwd self p (text_blocks b) (confidences b)),
    (Py.round (avg_confidence (confidences b)) 4),
    (min_confidence (confidences b)), (max_confidence (confidences b)).
  split; [exact Hb |]. split; [reflexivity |].
  rewrite metadata_avg_confidence, metadata_min_confidence, metadata_max_confidence.
  repeat split; try reflexivity.
  - destruct (round4_rounds_to (avg_confidence (confidences b))) as [H4 _]. exact H4.
  - destruct (round4_rounds_to (avg_confidence (confidences b))) as [_ Hn]. exact Hn.
  - destruct (confidences b) as [| c cs]; [apply rounds_to_zero | apply round4_rounds_to].
  - destruct (confidences b) as [| c cs]; [apply rounds_to_zero | apply round4_rounds_to].
  - destruct (confidences b) as [| c cs]; [apply rounds_to_zero | apply round4_rounds_to].
  - destruct (confidences b) as [| c cs]; [apply rounds_to_zero | apply round4_rounds_to].
  - apply merge_extra_lookup.
Qed.

End Statistics.

(** ** The flat shape: a list of texts *)

Section FlatShape.
Import OCR.
Variable str_to_float : string -> option Q.
Variable cwd : string.
Variable self : ImageOCRReader.

Lemma flat_body_eq (idx : nat) (x : pyval) (b : blocks) :
  flat_body idx x b
  = if truthy x then mret (append_block b x 1 VNone idx) else mret b.
Proof. reflexivity. Qed.

(** The loop keeps the truthy items, in order, and neither prints nor
    raises. *)
Lemma flat_loop (xs : list pyval) :
  forall (idx : nat) (b : blocks),
  exists ds,
    for_enumerate flat_body idx xs b
    = ([], Ok {| text_blocks := text_blocks b ++ List.filter truthy xs;
                 confidences := confidences b ++
                                repeat 1%Q (length (List.filter truthy xs));
                 detailed_blocks := detailed_blocks b ++ ds |}) /\
    List.map d_text ds = List.filter truthy xs /\
    Forall flat_detection ds.
Proof.
  induction xs as [| x xs IH]; intros idx b.
  - exists []. cbn. rewrite !app_nil_r. destruct b. repeat split. constructor.
  - cbn [for_enumerate List.filter]. rewrite flat_body_eq.
    destruct (truthy x).
    + rewrite bind_mret.
      destruct (IH (S idx) (append_block b x 1 VNone idx)) as (ds & E & Ht & Hd).
      exists ({| d_text := x; d_confidence := 1; d_bbox := VNone;
                 d_block_index := idx |} :: ds).
      rewrite E. cbn [append_block text_blocks confidences detailed_blocks
                      length repeat List.map].
      rewrite <- !app_assoc. cbn [app]. rewrite Ht.
      repeat split. constructor; [split; reflexivity | exact Hd].
    + rewrite bind_mret. apply IH.
Qed.

Lemma collect_blocks_flat (s : string) (rest : list pyval) :
  exists b,
    collect_blocks str_to_float (VList (VStr s :: rest)) = ([], Ok b) /\
    text_blocks b = List.filter truthy (VStr s :: rest) /\
    confidences b = repeat 1%Q (length (text_blocks b)) /\
    List.map d_text (detailed_blocks b) = text_blocks b /\
    Forall flat_detection (detailed_blocks b).
Proof.
  cbn [collect_blocks].
  destruct (flat_loop (VStr s :: rest) 0 no_blocks) as (ds & E & Ht & Hd).
  eexists. split; [exact E |]. cbn [text_blocks confidences detailed_blocks no_blocks app].
  repeat split; assumption.
Qed.

Lemma filter_split_length {A : Type} (f : A -> bool) (l : list A) :
  (length (List.filter f l) + length (List.filter (fun x => negb (f x)) l)
   = length l)%nat.
Proof.
  induction l as [| x l IH]; [reflexivity |].
  cbn [List.filter]. destruct (f x); cbn [negb length]; lia.
Qed.

Lemma str_items_filter_truthy (texts : list string) :
  str_items (List.filter truthy (VStr <$> texts))
  = Ok (List.filter non_empty texts).
Proof.
  induction texts as [| t texts IH]; [reflexivity |].
  cbn [fmap list_fmap List.filter truthy]. fold (non_empty t).
  change (list_fmap string pyval VStr texts) with (VStr <$> texts).
  destruct (non_empty t); [| exact IH].
  cbn [str_items]. rewrite IH. reflexivity.
Qed.

Lemma filter_truthy_strings (texts : list string) :
  length (List.filter truthy (VStr <$> texts))
  = length (List.filter non_empty texts).
Proof.
  induction texts as [| t texts IH]; [reflexivity |].
  cbn [fmap list_fmap List.filter truthy]. fold (non_empty t).
  change (list_fmap string pyval VStr texts) with (VStr <$> texts).
  destruct (non_empty t); cbn [length]; rewrite IH; reflexivity.
Qed.

Lemma process_of_blocks (raw : pyval) (p : Pathlib.Path)
    (extra_info : option (gmap string pyval)) (w : list event) (b : blocks)
    (texts : list string) :
  collect_blocks str_to_float raw = (w, Ok b) ->
  str_items (text_blocks b) = Ok texts ->
  _process_ocr_result str_to_float cwd self raw p extra_info
  = (w, Ok (_format_text_blocks texts (confidences b),
            merge_extra (computed_metadata cwd self p (text_blocks b) (confidences b))
              extra_info)).
Proof.
  intros Hb Ht. unfold _process_ocr_result.
  rewrite Hb, bind_ok, bind_lift, Ht. cbn. rewrite app_nil_r. reflexivity.
Qed.

(** C7.  A raw result, a list, whose first element is a text is read as a
    flat list of texts: every detection has confidence 1.0 and no bounding
    box, and the texts are the (truthy) elements in order.  The raw result
    [["A","B","C"]] gives three detections, all of confidence 1.0. *)
Theorem flat_shape_confidence_one (s : string) (rest : list pyval)
    (p : Pathlib.Path) :
  (exists b,
     collect_blocks str_to_float (VList (VStr s :: rest)) = ([], Ok b) /\
     text_blocks b = List.filter truthy (VStr s :: rest) /\
     confidences b = repeat 1%Q (length (text_blocks b)) /\
     List.map d_text (detailed_blocks b) = text_blocks b /\
     Forall flat_detection (detailed_blocks b)) /\
  (exists b txt md,
     collect_blocks str_to_float Scenario.flat_ABC = ([], Ok b) /\
     List.map d_text (detailed_blocks b) = [VStr "A"; VStr "B"; VStr "C"] /\
     List.map d_confidence (detailed_blocks b) = [1%Q; 1%Q; 1%Q] /\
     List.map d_bbox (detailed_blocks b) = [VNone; VNone; VNone] /\
     _process_ocr_result str_to_float cwd self Scenario.flat_ABC p None
     = ([], Ok (txt, md)) /\
     md !! "num_text_blocks" = Some (VInt 3) /\
     float_at md "avg_confidence" 1 /\
     float_at md "min_confidence" 1 /\
     float_at md "max_confidence" 1).
Proof.
  split; [apply collect_blocks_flat |].
  eexists _, _, _. split; [reflexivity |].
  repeat split; try reflexivity.
  - eexists. split; [reflexivity | vm_compute; reflexivity].
  - eexists. split; [reflexivity | vm_compute; reflexivity].
  - eexists. split; [reflexivity | vm_compute; reflexivity].
Qed.

(** C9.  In the flat shape an empty text is skipped without a trace: the
    detections are the truthy elements, so their number is the number of
    non-empty texts, which together with the number of empty ones makes up
    the length of the raw list. *)
Theorem flat_shape_skips_empty_texts (s : string) (rest : list pyval)
    (texts : list string) (p : Pathlib.Path) :
  (exists b,
     collect_blocks str_to_float (VList (VStr s :: rest)) = ([], Ok b) /\
     length (detailed_blocks b) = length (List.filter truthy (VStr s :: rest)) /\
     (length (detailed_blocks b)
      + length (List.filter (fun v => negb (truthy v)) (VStr s :: rest))
      = length (VStr s :: rest))%nat) /\
  (exists txt md,
     _process_ocr_result str_to_float cwd self (VList (VStr <$> s :: texts)) p None
     = ([], Ok (txt, md)) /\
     md !! "num_text_blocks"
     = Some (VInt (Z.of_nat (length (List.filter non_empty (s :: texts))))) /\
     (length (List.filter non_empty (s :: texts))
      + length (List.filter (fun t => String.eqb t "") (s :: texts))
      = length (s :: texts))%nat).
Proof.
  split.
  - destruct (collect_blocks_flat s rest) as (b & E & Ht & _ & Hd & _).
    exists b. split; [exact E |].
    assert (length (detailed_blocks b) = length (List.filter truthy (VStr s :: rest))) as L.
    { rewrite <- Ht, <- Hd, length_map. reflexivity. }
    split; [exact L |]. rewrite L. apply filter_split_length.
  - destruct (collect_blocks_flat s (VStr <$> texts)) as (b & E & Ht & _).
    change (VStr s :: (VStr <$> texts)) with (VStr <$> s :: texts) in E, Ht.
    eexists _, _. split.
    + eapply process_of_blocks; [exact E |].
      rewrite Ht. apply str_items_filter_truthy.
    + cbn [merge_extra]. rewrite metadata_num_text_blocks, Ht, filter_truthy_strings.
      split; [reflexivity |].
      rewrite <- (filter_split_length non_empty (s :: texts)).
      f_equal. f_equal. clear. induction (s :: texts) as [| t l IH]; [reflexivity |].
      cbn [List.filter]. unfold non_empty at 1. rewrite negb_involutive.
      destruct (String.eqb t ""); rewrite IH; reflexivity.
Qed.

End FlatShape.

(** ** The three lists go in step *)

Section InStep.
Import OCR.
Variable str_to_float : string -> option Q.

Lemma append_block_in_step (b : blocks) (t : pyval) (c : Q) (bbox : pyval)
    (idx : nat) :
  in_step b -> in_step (append_block b t c bbox idx).
Proof.
  intros [Hc Hd]. unfold in_step, append_block.
  cbn [text_blocks confidences detailed_blocks].
  rewrite !length_app. cbn [length]. lia.
Qed.

Lemma mret_ok_inv {A : Type} (a a' : A) (w : list event) :
  (mret a : M A) = (w, Ok a') -> a = a'.
Proof. intros [= _ ->]. reflexivity. Qed.

Lemma batch_body_in_step (rec_scores dt_polys : pyval) (idx : nat) (x : pyval)
    (b b' : blocks) (w : list event) :
  in_step b ->
  batch_body str_to_float rec_scores dt_polys idx x b = (w, Ok b') ->
  in_step b'.
Proof.
  intros Hb H. unfold batch_body in H.
  apply bind_ok_inv in H as (? & confidence & ? & _ & H & _).
  apply bind_ok_inv in H as (? & bbox & ? & _ & H & _).
  apply bind_ok_inv in H as (? & conf & ? & _ & H & _).
  apply mret_ok_inv in H as <-. apply append_block_in_step, Hb.
Qed.

Lemma flat_body_in_step (idx : nat) (x : pyval) (b b' : blocks) (w : list event) :
  in_step b -> flat_body idx x b = (w, Ok b') -> in_step b'.
Proof.
  intros Hb. rewrite flat_body_eq. destruct (truthy x); intros H;
    apply mret_ok_inv in H as <-; [apply append_block_in_step |]; exact Hb.
Qed.

Lemma legacy_body_in_step (idx : nat) (line : pyval) (b b' : blocks)
    (w : list event) :
  in_step b -> legacy_body str_to_float idx line b = (w, Ok b') -> in_step b'.
Proof.
  intros Hb H. unfold legacy_body in H.
  destruct (truthy line); [| apply mret_ok_inv in H as <-; exact Hb].
  apply bind_ok_inv in H as (? & n & ? & _ & H & _).
  destruct (2 <=? n)%nat; [| apply mret_ok_inv in H as <-; exact Hb].
  apply bind_ok_inv in H as (? & box & ? & _ & H & _).
  apply bind_ok_inv in H as (? & inner & ? & _ & H & _).
  destruct (is_list_or_tuple inner && len_ge 2 inner).
  - apply bind_ok_inv in H as (? & text & ? & _ & H & _).
    apply bind_ok_inv in H as (? & confidence & ? & _ & H & _).
    apply bind_ok_inv in H as (? & conf & ? & _ & H & _).
    apply mret_ok_inv in H as <-. apply append_block_in_step, Hb.
  - apply bind_ok_inv in H as (? & [] & ? & _ & H & _).
    apply mret_ok_inv in H as <-. exact Hb.
Qed.

Lemma no_blocks_in_step : in_step no_blocks.
Proof. split; reflexivity. Qed.

(** Whatever the raw result, a call that gets through the loops has one
    confidence and one detailed entry per text. *)
Lemma collect_blocks_in_step (raw : pyval) (w : list event) (b : blocks) :
  collect_blocks str_to_float raw = (w, Ok b) -> in_step b.
Proof.
  pose proof no_blocks_in_step as H0.
  destruct raw as [| | | | | [| item rest] | |];
    try (intros H; apply mret_ok_inv in H as <-; exact H0).
  destruct item; cbn [collect_blocks];
    try (intros H; apply mret_ok_inv in H as <-; exact H0).
  - apply (for_enumerate_invariant in_step); [| exact H0].
    intros ? ? ? ? ? Hs Hb. exact (flat_body_in_step _ _ _ _ _ Hs Hb).
  - apply (for_enumerate_invariant in_step); [| exact H0].
    intros ? ? ? ? ? Hs Hb. exact (legacy_body_in_step _ _ _ _ _ Hs Hb).
  - destruct (dict_contains "rec_texts" d).
    + intros H. apply bind_ok_inv in H as (? & items & ? & _ & H & _).
      revert H. apply (for_enumerate_invariant in_step); [| exact H0].
      intros ? ? ? ? ? Hs Hb. exact (batch_body_in_step _ _ _ _ _ _ _ Hs Hb).
    + intros H. apply bind_ok_inv in H as (? & [] & ? & _ & H & _).
      apply mret_ok_inv in H as <-. exact H0.
Qed.

End InStep.

(** ** Lines of text *)

Section Lines.

Lemma append_cons (x : ascii) (a b : string) :
  String x a +:+ b = String x (a +:+ b).
Proof. reflexivity. Qed.

Lemma append_empty (b : string) : EmptyString +:+ b = b.
Proof. reflexivity. Qed.

Lemma string_length_append (a b : string) :
  String.length (a +:+ b) = (String.length a + String.length b)%nat.
Proof.
  induction a as [| x a IH]; [reflexivity |].
  rewrite append_cons. cbn [String.length]. rewrite IH. reflexivity.
Qed.

Lemma has_char_app (c : ascii) (a b : string) :
  has_char c (a +:+ b) = has_char c a || has_char c b.
Proof.
  induction a as [| x a IH]; [reflexivity |].
  rewrite append_cons. cbn [has_char]. rewrite IH, orb_assoc. reflexivity.
Qed.

Lemma split_on_not_nil (c : ascii) (s : string) : split_on c s <> [].
Proof.
  destruct s as [| a s]; [discriminate |].
  cbn [split_on]. destruct (Ascii.eqb a c); [discriminate |].
  destruct (split_on c s); discriminate.
Qed.

Lemma split_on_app (c : ascii) (a b : string) :
  split_on c (a +:+ String c b) = split_on c a ++ split_on c b.
Proof.
  induction a as [| x a IH].
  - rewrite append_empty. cbn [split_on app]. rewrite Ascii.eqb_refl. reflexivity.
  - rewrite append_cons. cbn [split_on]. destruct (Ascii.eqb x c).
    + rewrite IH. reflexivity.
    + rewrite IH. pose proof (split_on_not_nil c a) as Hn.
      destruct (split_on c a); [contradiction | reflexivity].
Qed.

Lemma split_on_absent (c : ascii) (s : string) :
  has_char c s = false -> split_on c s = [s].
Proof.
  induction s as [| a s IH]; [reflexivity |].
  cbn [has_char split_on]. intros H. apply orb_false_elim in H as [Ha Hs].
  rewrite Ha, (IH Hs). reflexivity.
Qed.

(** Splitting what [join] made gives the joined texts back, when none of
    them holds the separator. *)
Lemma split_concat (ls : list string) :
  Forall one_line ls ->
  split_on newline (String.concat nl ls)
  = match ls with [] => [EmptyString] | _ => ls end.
Proof.
  induction 1 as [| l ls Hl H IH]; [reflexivity |].
  destruct ls as [| l' ls].
  - cbn [String.concat]. apply split_on_absent, Hl.
  - change (String.concat nl (l :: l' :: ls))
      with (l +:+ String newline (String.concat nl (l' :: ls))).
    rewrite split_on_app, IH, (split_on_absent _ _ Hl). reflexivity.
Qed.

Lemma string_of_uint_one_line (d : Decimal.uint) :
  one_line (NilEmpty.string_of_uint d).
Proof. induction d; [reflexivity | exact IHd ..]. Qed.

Lemma str_of_nat_one_line (n : nat) : one_line (str_of_nat n).
Proof.
  unfold str_of_nat, NilZero.string_of_uint.
  destruct (Nat.to_uint n); first [reflexivity | apply string_of_uint_one_line].
Qed.

Lemma one_line_app (a b : string) :
  one_line a -> one_line b -> one_line (a +:+ b).
Proof. unfold one_line. intros Ha Hb. rewrite has_char_app, Ha, Hb. reflexivity. Qed.

Lemma format_2f_one_line (x : Q) : one_line (format_2f x).
Proof.
  unfold format_2f. repeat apply one_line_app.
  - destruct (Qltb x 0); reflexivity.
  - apply str_of_nat_one_line.
  - reflexivity.
  - unfold pad2. destruct (_ <? 10)%nat.
    + apply one_line_app; [reflexivity | apply str_of_nat_one_line].
    + apply str_of_nat_one_line.
Qed.

Lemma detailed_line_one_line (i : nat) (t : string) (c : Q) :
  one_line t -> one_line (OCR.detailed_line i t c).
Proof.
  intros Ht. unfold OCR.detailed_line.
  apply one_line_app; [reflexivity |].
  apply one_line_app; [apply str_of_nat_one_line |].
  apply one_line_app; [reflexivity |].
  apply one_line_app; [apply format_2f_one_line |].
  apply one_line_app; [reflexivity | exact Ht].
Qed.

Lemma detailed_line_not_title (i : nat) (t : string) (c : Q) :
  String.eqb (OCR.detailed_line i t c) OCR.separator_title = false.
Proof. reflexivity. Qed.

Lemma detailed_lines_spec (texts : list string) :
  forall (i : nat) (confs : list Q),
  Forall one_line texts ->
  Forall (fun l => one_line l /\ String.eqb l OCR.separator_title = false)
    (OCR.detailed_lines i texts confs).
Proof.
  induction texts as [| t texts IH]; intros i confs H; [constructor |].
  destruct confs as [| c confs]; [constructor |].
  cbn [OCR.detailed_lines]. inversion H as [| ? ? Ht H']; subst.
  constructor; [| apply IH, H'].
  split; [apply detailed_line_one_line, Ht | apply detailed_line_not_title].
Qed.

Lemma detailed_lines_length (texts : list string) :
  forall (i : nat) (confs : list Q),
  length (OCR.detailed_lines i texts confs)
  = Nat.min (length texts) (length confs).
Proof.
  induction texts as [| t texts IH]; intros i [| c confs]; try reflexivity.
  cbn [OCR.detailed_lines length Nat.min]. rewrite IH. reflexivity.
Qed.

Lemma detailed_lines_lookup (texts : list string) :
  forall (i k : nat) (confs : list Q) (t : string) (c : Q),
  texts !! k = Some t -> confs !! k = Some c ->
  OCR.detailed_lines i texts confs !! k = Some (OCR.detailed_line (i + k) t c).
Proof.
  induction texts as [| t0 texts IH]; intros i k [| c0 confs] t c Ht Hc;
    try discriminate.
  destruct k as [| k].
  - injection Ht as ->. injection Hc as ->. rewrite Nat.add_0_r. reflexivity.
  - change (OCR.detailed_lines (S i) texts confs !! k
            = Some (OCR.detailed_line (i + S k) t c)).
    rewrite (IH (S i) k confs t c Ht Hc). f_equal. f_equal. lia.
Qed.

Lemma after_title_skip (pre post : list string) :
  Forall (fun l => String.eqb l OCR.separator_title = false) pre ->
  after_title (pre ++ OCR.separator_title :: post) = post.
Proof.
  induction 1 as [| l pre Hl _ IH].
  - cbn [app after_title]. rewrite String.eqb_refl. reflexivity.
  - cbn [app after_title]. rewrite Hl. exact IH.
Qed.

(** The document of a non-empty detection list, section by section. *)
Lemma format_text_blocks_cons (t : string) (texts : list string) (confs : list Q) :
  OCR._format_text_blocks (t :: texts) confs
  = String.concat nl (OCR.detailed_lines 1 (t :: texts) confs)
    +:+ String newline
          (EmptyString +:+ String newline
             (OCR.separator_title +:+ String newline
                (String.concat nl (t :: texts)))).
Proof. reflexivity. Qed.

End Lines.

(** ** The formatted document *)

Section Document.
Import OCR.
Variable str_to_float : string -> option Q.
Variable cwd : string.
Variable self : ImageOCRReader.

(** C3 (as amended).  For a non-empty detection list the formatted text is
    the annotated section, one line [[Block i] (conf: c): text] per
    detection with [i] counted from 1, then the separator, then the
    plain-text section.  For the empty detection list it is the empty string:
    neither section nor separator is there, and nothing is raised; a raw
    result that yields no detection gives the empty text with a count of 0
    and confidences 0.0 in the metadata, the empty raw result among them. *)
Theorem format_text_blocks_sections (texts : list string) (confs : list Q)
    (raw : pyval) (p : Pathlib.Path) :
  match texts with
  | [] => _format_text_blocks texts confs = EmptyString
  | _ :: _ =>
      exists lines,
        _format_text_blocks texts confs
        = String.concat nl lines +:+ separator +:+ String.concat nl texts /\
        length lines = Nat.min (length texts) (length confs) /\
        forall k t c,
          texts !! k = Some t -> confs !! k = Some c ->
          lines !! k = Some (detailed_line (S k) t c)
  end /\
  (forall w b,
     collect_blocks str_to_float raw = (w, Ok b) -> text_blocks b = [] ->
     exists md,
       _process_ocr_result str_to_float cwd self raw p None
       = (w, Ok (EmptyString, md)) /\
       md !! "num_text_blocks" = Some (VInt 0) /\
       float_at md "avg_confidence" 0 /\
       float_at md "min_confidence" 0 /\
       float_at md "max_confidence" 0) /\
  exists md,
    _process_ocr_result str_to_float cwd self (VList []) p None
    = ([], Ok (EmptyString, md)) /\
    md !! "num_text_blocks" = Some (VInt 0) /\
    float_at md "avg_confidence" 0 /\
    float_at md "min_confidence" 0 /\
    float_at md "max_confidence" 0.
Proof.
  split; [| split].
  - destruct texts as [| t texts]; [reflexivity |].
    exists (detailed_lines 1 (t :: texts) confs).
    split; [reflexivity |]. split; [apply detailed_lines_length |].
    intros k t' c Ht Hc. apply (detailed_lines_lookup _ 1 k confs t' c Ht Hc).
  - intros w b Hb Ht.
    destruct (collect_blocks_in_step _ _ _ _ Hb) as [Hc _].
    rewrite Ht in Hc. apply length_zero_iff_nil in Hc.
    eexists. split.
    + apply (process_of_blocks _ _ _ _ _ _ _ _ [] Hb). rewrite Ht. reflexivity.
    + rewrite Ht, Hc. cbn [merge_extra].
      repeat split; try reflexivity;
        (eexists; split; [reflexivity | vm_compute; reflexivity]).
  - eexists. split; [reflexivity |].
    repeat split; try reflexivity;
      (eexists; split; [reflexivity | vm_compute; reflexivity]).
Qed.

(** C4 (as amended).  When no detection text holds a line feed, the lines
    after the separator title of the formatted text are the detection texts,
    in their order. *)
Theorem plain_section_round_trip (texts : list string) (confs : list Q) :
  Forall one_line texts ->
  spec_plain_section_lines (_format_text_blocks texts confs) = texts.
Proof.
  intros H. destruct texts as [| t texts]; [reflexivity |].
  rewrite format_text_blocks_cons. unfold spec_plain_section_lines.
  rewrite !split_on_app, (split_concat _ H).
  change (split_on newline EmptyString) with [EmptyString].
  change (split_on newline separator_title) with [separator_title].
  rewrite app_assoc. apply after_title_skip.
  apply Forall_app. split; [| repeat constructor].
  pose proof (detailed_lines_spec (t :: texts) 1 confs H) as Hd.
  rewrite split_concat.
  - destruct (detailed_lines 1 (t :: texts) confs); [repeat constructor |].
    eapply Forall_impl; [exact Hd |]. intros ? [_ Hl]. exact Hl.
  - eapply Forall_impl; [exact Hd |]. intros ? [Hl _]. exact Hl.
Qed.

End Document.

(** C4: a text of two lines comes back as two texts. *)
Lemma plain_section_splits_two_line_text :
  spec_plain_section_lines (OCR._format_text_blocks [Scenario.two_lines] [1%Q])
  <> [Scenario.two_lines].
Proof. vm_compute. discriminate. Qed.

Lemma plain_section_round_trip_AB :
  Forall one_line ["A"; "B"] /\
  spec_plain_section_lines (OCR._format_text_blocks ["A"; "B"] [9 # 10; 8 # 10]%Q)
  = ["A"; "B"].
Proof.
  assert (Forall one_line ["A"; "B"]) as H by (repeat constructor).
  split; [exact H | apply (plain_section_round_trip ["A"; "B"] _ H)].
Defined.

(** C3: the document of the empty detection list holds no separator. *)
Lemma empty_document_has_no_separator :
  ~ exists detailed plain,
      OCR._format_text_blocks [] [] = detailed +:+ OCR.separator +:+ plain.
Proof.
  intros (d & pl & H). apply (f_equal String.length) in H.
  rewrite !string_length_append in H.
  change (String.length (OCR._format_text_blocks [] [])) with 0%nat in H.
  change (String.length OCR.separator) with 26%nat in H. lia.
Qed.

(** ** Loading files *)

Section Loading.
Import OCR Pathlib.
Variable str_to_float : string -> option Q.
Variable path_exists : string -> bool.
Variable cwd : string.
Variable self : ImageOCRReader.

Lemma load_file_unsupported (file : string) (extra : option (gmap string pyval)) :
  path_exists (str (parse file)) = true ->
  is_supported (lower (suffix (parse file))) = false ->
  load_file str_to_float path_exists cwd self file extra
  = ([], Raise ValueError).
Proof. intros He Hs. unfold load_file. rewrite He, Hs. reflexivity. Qed.

Lemma load_files_app (pre rest : list string) (extra : option (gmap string pyval)) :
  forall docs,
  load_files str_to_float path_exists cwd self (pre ++ rest) extra docs
  = load_files str_to_float path_exists cwd self pre extra docs
    ≫= (fun ds => load_files str_to_float path_exists cwd self rest extra ds).
Proof.
  induction pre as [| f pre IH]; intros docs.
  - cbn [app load_files]. rewrite bind_mret. reflexivity.
  - cbn [app load_files]. rewrite bind_assoc.
    destruct (load_file str_to_float path_exists cwd self f extra)
      as [w [d | e]]; [| reflexivity].
    rewrite !bind_ok, IH. reflexivity.
Qed.

(** *** What reaches the trace *)

Lemma trace_bind {A B : Type} (P : event -> Prop) (m : M A) (f : A -> M B) :
  Forall P m.1 -> (forall a, Forall P (f a).1) -> Forall P (m ≫= f).1.
Proof.
  intros Hm Hf. destruct m as [w [a | e]]; [| exact Hm].
  rewrite bind_ok. cbn [fst]. apply Forall_app. split; [exact Hm | apply Hf].
Qed.

Lemma trace_lift {A : Type} (P : event -> Prop) (r : outcome A) :
  Forall P (lift r).1.
Proof. constructor. Qed.

Lemma trace_for_enumerate {A St : Type} (P : event -> Prop)
    (body : nat -> A -> St -> M St) :
  (forall idx x s, Forall P (body idx x s).1) ->
  forall xs idx s, Forall P (for_enumerate body idx xs s).1.
Proof.
  intros Hb. induction xs as [| x xs IH]; intros idx s.
  - constructor.
  - cbn [for_enumerate]. apply trace_bind; [apply Hb | intros s'; apply IH].
Qed.

Lemma legacy_body_quiet (idx : nat) (line : pyval) (b : blocks) :
  Forall quiet (legacy_body str_to_float idx line b).1.
Proof.
  unfold legacy_body. destruct (truthy line); [| constructor].
  apply trace_bind; [apply trace_lift | intros n].
  destruct (2 <=? n)%nat; [| constructor].
  apply trace_bind; [apply trace_lift | intros box].
  apply trace_bind; [apply trace_lift | intros inner].
  destruct (is_list_or_tuple inner && len_ge 2 inner).
  - repeat (apply trace_bind; [apply trace_lift | intros ?]). constructor.
  - repeat constructor.
Qed.

Lemma collect_blocks_quiet (raw : pyval) :
  Forall quiet (collect_blocks str_to_float raw).1.
Proof.
  destruct raw as [| | | | | [| item rest] | |]; try constructor.
  destruct item; try constructor; cbn [collect_blocks].
  - apply trace_for_enumerate. intros idx x b. rewrite flat_body_eq.
    destruct (truthy x); constructor.
  - apply trace_for_enumerate, legacy_body_quiet.
  - destruct (dict_contains "rec_texts" d); [| repeat constructor].
    apply trace_bind; [apply trace_lift | intros items].
    apply trace_for_enumerate. intros idx x b. unfold batch_body.
    repeat (apply trace_bind; [apply trace_lift | intros ?]). constructor.
Qed.

Lemma process_quiet (raw : pyval) (p : Path) (extra : option (gmap string pyval)) :
  Forall quiet (_process_ocr_result str_to_float cwd self raw p extra).1.
Proof.
  unfold _process_ocr_result.
  apply trace_bind; [apply collect_blocks_quiet | intros b].
  apply trace_bind; [apply trace_lift | intros texts]. constructor.
Qed.

Lemma load_file_trace (file : string) (extra : option (gmap string pyval)) :
  Forall (allowed_event path_exists [file])
    (load_file str_to_float path_exists cwd self file extra).1.
Proof.
  unfold load_file.
  destruct (path_exists (str (parse file))) eqn:He; [| constructor].
  destruct (is_supported (lower (suffix (parse file)))) eqn:Hs; [| constructor].
  cbn [negb]. apply trace_bind.
  - repeat constructor. exists file. repeat split; first [left; reflexivity | assumption].
  - intros _. apply trace_bind; [apply trace_lift | intros raw].
    apply trace_bind; [| intros [? ?]; constructor].
    eapply Forall_impl; [apply process_quiet |].
    intros [] Hq; first [exact I | destruct Hq].
Qed.

Lemma allowed_event_weaken (files files' : list string) (ev : event) :
  (forall f, In f files -> In f files') ->
  allowed_event path_exists files ev -> allowed_event path_exists files' ev.
Proof.
  intros Hsub. destruct ev; try exact (fun H => H).
  intros (f & Hf & H). exists f. split; [apply Hsub, Hf | exact H].
Qed.

Lemma load_files_trace (files : list string) (extra : option (gmap string pyval)) :
  forall docs,
    Forall (allowed_event path_exists files)
      (load_files str_to_float path_exists cwd self files extra docs).1.
Proof.
  induction files as [| f files IH]; intros docs; [constructor |].
  cbn [load_files]. apply trace_bind.
  - eapply Forall_impl; [apply load_file_trace |].
    intros ev. apply allowed_event_weaken. intros f' [-> | []]. left. reflexivity.
  - intros d. eapply Forall_impl; [apply IH |].
    intros ev. apply allowed_event_weaken. intros f' Hf'. right. exact Hf'.
Qed.

(** C5 (as amended).  A file that exists and whose extension, lower-cased,
    is not a supported one makes [load_data] raise [ValueError] when its turn
    comes, and the engine is not called for it: the trace is the one of the
    files loaded before it.  Whatever the list, the engine is only ever called
    on files that exist and have a supported extension. *)
Theorem unsupported_extension_rejected_before_engine (file : string)
    (extra : option (gmap string pyval)) :
  path_exists (str (parse file)) = true ->
  is_supported (lower (suffix (parse file))) = false ->
  load_data str_to_float path_exists cwd self (OneFile file) extra
  = ([], Raise ValueError) /\
  (forall pre post w docs,
     load_data str_to_float path_exists cwd self (FileList pre) extra
     = (w, Ok docs) ->
     load_data str_to_float path_exists cwd self
       (FileList (pre ++ file :: post)) extra
     = (w, Raise ValueError)) /\
  (forall files,
     Forall (allowed_event path_exists files)
       (load_data str_to_float path_exists cwd self (FileList files) extra).1).
Proof.
  intros He Hs. split; [| split].
  - unfold load_data. cbn [load_files].
    rewrite (load_file_unsupported _ _ He Hs). reflexivity.
  - intros pre post w docs Hpre. unfold load_data in *.
    rewrite load_files_app, Hpre, bind_ok. cbn [load_files].
    rewrite (load_file_unsupported _ _ He Hs). cbn. rewrite app_nil_r. reflexivity.
  - intros files. apply load_files_trace.
Qed.

End Loading.

(** ** The batch scenario *)

Section BatchScenario.
Import OCR.
Variable str_to_float : string -> option Q.
Variable cwd : string.
Variable self : ImageOCRReader.

(** C6.  The raw result [[{"rec_texts": ["A","B"], "rec_scores": [0.9, 0.8]}]]
    gives two detections, the mean confidence 0.85 in the metadata, and a
    formatted text with the line [[Block 1] (conf: 0.90): A]. *)
Theorem batch_scenario_two_detections (p : Pathlib.Path) :
  exists b txt md,
    collect_blocks str_to_float Scenario.batch_AB = ([], Ok b) /\
    length (detailed_blocks b) = 2%nat /\
    List.map d_text (detailed_blocks b) = [VStr "A"; VStr "B"] /\
    _process_ocr_result str_to_float cwd self Scenario.batch_AB p None
    = ([], Ok (txt, md)) /\
    md !! "num_text_blocks" = Some (VInt 2) /\
    float_at md "avg_confidence" (85 # 100) /\
    In "[Block 1] (conf: 0.90): A" (split_on newline txt).
Proof.
  eexists _, _, _. split; [reflexivity |].
  repeat split; try reflexivity.
  - eexists. split; [reflexivity | vm_compute; reflexivity].
  - left. reflexivity.
Qed.

End BatchScenario.

(** ** The benchmark harness *)

Section Benchmark.
Import Chunking.
Variables Doc Node Splitter WindowParser : Type.
Variable get_nodes_from_documents : Splitter -> list Doc -> outcome (list Node).
Variable sentence_splitter : nat -> nat -> outcome Splitter.
Variable build_window_nodes_from_documents
  : WindowParser -> list Node -> outcome (list Node).
Variable show_node : Node -> outcome unit.
Variable show_window_node : Node -> outcome unit.
Variable run_query : bool -> list Node -> string -> outcome Response.

Lemma scores_length (nodes : list NodeWithScore) (ss : list Q) :
  scores nodes = Ok ss -> length ss = length nodes.
Proof.
  revert ss. induction nodes as [| n nodes IH]; intros ss.
  - intros [= <-]. reflexivity.
  - cbn [scores]. destruct (score n); [| discriminate].
    destruct (scores nodes) as [ss' |]; [| discriminate].
    intros [= <-]. cbn [length]. rewrite (IH ss' eq_refl). reflexivity.
Qed.

(** Python's left fold from 0 adds up to the sum of the list. *)
Lemma sum_from_total (l : list Q) (a : Q) :
  (fold_left Qplus l a == a + total l)%Q.
Proof.
  revert a. induction l as [| x l IH]; intros a; cbn [fold_left total].
  - ring.
  - rewrite IH. ring.
Qed.

Lemma sum_total (l : list Q) : (Py.sum l == total l)%Q.
Proof. unfold Py.sum. rewrite sum_from_total. ring. Qed.

Lemma scored_scores (nodes : list NodeWithScore) (ss : list Q) :
  Forall2 (fun n s => score n = Some s /\ exists t, node_text n = Ok t) nodes ss ->
  scores nodes = Ok ss /\ show_sources nodes = Ok tt.
Proof.
  induction 1 as [| n s nodes ss [Hs [t Ht]] _ [IH1 IH2]]; [split; reflexivity |].
  cbn [scores show_sources]. rewrite Hs, IH1, Ht, IH2. split; reflexivity.
Qed.

Lemma average_similarity_mean (nodes : list NodeWithScore) (ss : list Q) :
  scores nodes = Ok ss ->
  exists a, average_similarity nodes = Ok a /\ is_mean_of ss a.
Proof.
  intros Hs. pose proof (scores_length _ _ Hs) as Hl.
  unfold average_similarity. destruct nodes as [| n nodes].
  - injection Hs as <-. exists 0%Q. split; reflexivity.
  - rewrite Hs. eexists. split; [reflexivity |].
    destruct ss as [| s ss]; [discriminate |]. unfold is_mean_of.
    rewrite Hl, <- (sum_total (s :: ss)).
    set (k := inject_Z (Z.of_nat (length (n :: nodes)))).
    assert (~ (k == 0)%Q) as Hk.
    { unfold k. cbn [length]. rewrite Nat2Z.inj_succ.
      unfold Qeq, inject_Z. cbn [Qnum Qden]. lia. }
    field. exact Hk.
Qed.

Lemma report_mean (name : string) (nodes : list Node) (resp : Response)
    (t0 t1 : Q) (ss : list Q) :
  sources_scored resp ss ->
  exists r, report Node name nodes resp t0 t1 = Ok r /\
    num_sources r = length ss /\ is_mean_of ss (avg_similarity r).
Proof.
  intros Hs. apply scored_scores in Hs as [Hs Hp].
  destruct (average_similarity_mean _ _ Hs) as (a & Ha & Hm).
  unfold report. rewrite Hp. cbn [mbind outcome_bind]. rewrite Ha.
  eexists. split; [reflexivity |]. cbn [num_sources avg_similarity].
  split; [symmetry; apply scores_length, Hs | exact Hm].
Qed.

Lemma show_each_ok (show : Node -> outcome unit) (nodes : list Node) :
  Forall (fun n => show n = Ok tt) nodes -> show_each show nodes = Ok tt.
Proof.
  induction 1 as [| n nodes Hn _ IH]; [reflexivity |].
  cbn [show_each]. rewrite Hn. exact IH.
Qed.

(** C8.  Both evaluation functions report as average similarity the
    arithmetic mean of the scores of the sources the query returned, and 0
    when it returned none; neither case is an error.  This is so whenever
    the steps before the report get through and every source has a score
    and a text. *)
Theorem average_similarity_is_mean_of_scores (resp : Response) (ss : list Q) :
  sources_scored resp ss ->
  (forall splitter documents query name t0 t1 nodes,
     get_nodes_from_documents splitter documents = Ok nodes ->
     shown show_node nodes ->
     run_query false nodes query = Ok resp ->
     exists r,
       evaluate_splitter Doc Node Splitter get_nodes_from_documents show_node
         run_query splitter documents query name t0 t1 = Ok r /\
       num_sources r = length ss /\ is_mean_of ss (avg_similarity r)) /\
  (forall (splitter : WindowParser) documents query name t0 t1
          base_splitter base_nodes nodes,
     sentence_splitter 512 50 = Ok base_splitter ->
     get_nodes_from_documents base_splitter documents = Ok base_nodes ->
     build_window_nodes_from_documents splitter base_nodes = Ok nodes ->
     shown show_window_node nodes ->
     run_query true nodes query = Ok resp ->
     exists r,
       evaluate_sentence_window_splitter Doc Node Splitter WindowParser
         get_nodes_from_documents sentence_splitter
         build_window_nodes_from_documents show_window_node run_query
         splitter documents query name t0 t1 = Ok r /\
       num_sources r = length ss /\ is_mean_of ss (avg_similarity r)).
Proof.
  intros Hs. split.
  - intros splitter documents query name t0 t1 nodes Hn Hp Hq.
    unfold evaluate_splitter. rewrite Hn. cbn [mbind outcome_bind].
    rewrite (show_each_ok _ _ Hp). cbn [mbind outcome_bind].
    rewrite Hq. cbn [mbind outcome_bind].
    apply report_mean, Hs.
  - intros splitter documents query name t0 t1 base_splitter base_nodes nodes
      Hb Hbn Hn Hp Hq.
    unfold evaluate_sentence_window_splitter. rewrite Hb. cbn [mbind outcome_bind].
    rewrite Hbn. cbn [mbind outcome_bind].
    rewrite Hn. cbn [mbind outcome_bind].
    rewrite (show_each_ok _ _ Hp). cbn [mbind outcome_bind].
    rewrite Hq. cbn [mbind outcome_bind].
    apply report_mean, Hs.
Qed.

End Benchmark.

(** ** The statements at concrete inputs *)

Import OCR Scenario.

(** C1: with the scores [[0.9, None]] the call ends in [TypeError]; the
    detection "B" is not skipped and "A" is not returned. *)
Lemma bad_score_is_not_skipped :
  _process_ocr_result no_float work_dir reader batch_bad_score image None
  = ([], Raise TypeError) /\
  ~ exists w txt md,
      _process_ocr_result no_float work_dir reader batch_bad_score image None
      = (w, Ok (txt, md)).
Proof.
  split; [reflexivity |].
  intros (w & txt & md & H). vm_compute in H. discriminate.
Qed.

Lemma coercion_failure_aborts_call_at_bad_score :
  has_uncoercible_confidence no_float batch_bad_score /\
  exists w e,
    _process_ocr_result no_float work_dir reader batch_bad_score image None
    = (w, Raise e).
Proof.
  assert (has_uncoercible_confidence no_float batch_bad_score) as H.
  { apply (uncoercible_batch no_float _ [] [VStr "A"; VStr "B"]
             [VFloat (9 # 10); VNone] 1 VNone TypeError);
      first [reflexivity | simpl; lia]. }
  split; [exact H |].
  apply (coercion_failure_aborts_call no_float work_dir reader
           batch_bad_score image None H).
Defined.

(** C2: one detection of confidence 0.0 is a non-empty list within the unit
    interval, and its mean, minimum and maximum are all 0.0. *)
Lemma zero_statistics_of_nonempty_list :
  exists b txt md,
    collect_blocks no_float batch_zero_score = ([], Ok b) /\
    confidences b = [0%Q] /\ confidences b <> [] /\
    Forall in_unit (confidences b) /\
    _process_ocr_result no_float work_dir reader batch_zero_score image None
    = ([], Ok (txt, md)) /\
    float_at md "avg_confidence" 0 /\
    float_at md "min_confidence" 0 /\
    float_at md "max_confidence" 0.
Proof.
  eexists _, _, _. split; [reflexivity |].
  split; [reflexivity |]. split; [discriminate |].
  split; [repeat constructor; discriminate |].
  split; [reflexivity |].
  repeat split; (eexists; split; [reflexivity | vm_compute; reflexivity]).
Qed.

Lemma confidence_statistics_of_AB :
  Forall in_unit [9 # 10; 8 # 10]%Q /\
  exists a mn mx,
    computed_metadata work_dir reader image [VStr "A"; VStr "B"]
      [9 # 10; 8 # 10]%Q !! "avg_confidence" = Some (VFloat a) /\
    computed_metadata work_dir reader image [VStr "A"; VStr "B"]
      [9 # 10; 8 # 10]%Q !! "min_confidence" = Some (VFloat mn) /\
    computed_metadata work_dir reader image [VStr "A"; VStr "B"]
      [9 # 10; 8 # 10]%Q !! "max_confidence" = Some (VFloat mx) /\
    in_unit a /\ in_unit mn /\ in_unit mx /\
    ([9 # 10; 8 # 10]%Q = [] -> a == 0 /\ mn == 0 /\ mx == 0)%Q.
Proof.
  assert (Forall in_unit [9 # 10; 8 # 10]%Q) as H.
  { repeat constructor; unfold Qle; simpl; lia. }
  split; [exact H |].
  apply (confidence_statistics_in_unit_interval work_dir reader image
           [VStr "A"; VStr "B"] [9 # 10; 8 # 10]%Q H).
Defined.

(** C5: a [.gif] that does not exist is reported as missing, not as
    unsupported. *)
Lemma missing_gif_is_not_a_value_error :
  is_supported (lower (Pathlib.suffix (Pathlib.parse "scan.gif"))) = false /\
  load_data no_float no_file work_dir reader (OneFile "scan.gif") None
  = ([], Raise FileNotFoundError) /\
  ~ exists w,
      load_data no_float no_file work_dir reader (OneFile "scan.gif") None
      = (w, Raise ValueError).
Proof.
  split; [reflexivity |]. split; [reflexivity |].
  intros (w & H). vm_compute in H. discriminate.
Qed.

Lemma existing_gif_rejected_before_engine :
  (every_file (Pathlib.str (Pathlib.parse "scan.gif")) = true /\
   is_supported (lower (Pathlib.suffix (Pathlib.parse "scan.gif"))) = false) /\
  load_data no_float every_file work_dir reader (OneFile "scan.gif") None
  = ([], Raise ValueError) /\
  (forall pre post w docs,
     load_data no_float every_file work_dir reader (FileList pre) None
     = (w, Ok docs) ->
     load_data no_float every_file work_dir reader
       (FileList (pre ++ "scan.gif" :: post)) None = (w, Raise ValueError)) /\
  (forall files, Forall (allowed_event every_file files)
     (load_data no_float every_file work_dir reader (FileList files) None).1).
Proof.
  split; [split; reflexivity |].
  apply (unsupported_extension_rejected_before_engine no_float every_file
           work_dir reader "scan.gif" None); reflexivity.
Defined.

(** C5: with an image before it, the engine is called for the image alone. *)
Lemma engine_called_for_the_image_only :
  load_data no_float every_file work_dir reader
    (FileList ["a.PNG"; "b.gif"; "c.png"]) None
  = ([OcrCall "a.PNG"], Raise ValueError).
Proof. reflexivity. Qed.

Lemma average_similarity_of_two_sources :
  sources_scored two_sources [3 # 4; 1 # 4]%Q /\
  exists r,
    Chunking.evaluate_splitter string string unit split_lines show_line
      answer_query tt ["one"] "query" "sentence-512" 0 1 = Ok r /\
    Chunking.num_sources r = 2%nat /\
    is_mean_of [3 # 4; 1 # 4]%Q (Chunking.avg_similarity r) /\
    (Chunking.avg_similarity r == 1 # 2)%Q.
Proof.
  assert (sources_scored two_sources [3 # 4; 1 # 4]%Q) as H.
  { repeat constructor; eexists; reflexivity. }
  split; [exact H |].
  destruct (average_similarity_is_mean_of_scores string string unit unit
              split_lines (fun _ _ => Ok tt) (fun _ ns => Ok ns) show_line
              show_line answer_query two_sources [3 # 4; 1 # 4]%Q H) as [Hs _].
  destruct (Hs tt ["one"] "query" "sentence-512" 0%Q 1%Q ["one"] eq_refl
              ltac:(repeat constructor) eq_refl) as (r & Hr & Hn & Hm).
  exists r. split; [exact Hr |]. split; [exact Hn |]. split; [exact Hm |].
  unfold is_mean_of in Hm. cbn [length total] in Hm.
  change (inject_Z (Z.of_nat 2)) with 2%Q in Hm. lra.
Defined.

(** C8: a query without sources reports 0. *)
Lemma average_similarity_without_sources :
  Chunking.average_similarity [] = Ok 0%Q.
Proof. reflexivity. Qed.

Lemma metadata_of_AB_with_extra_info :
  _process_ocr_result no_float work_dir reader batch_AB image (Some extra_scanner)
  = ([], Ok (_format_text_blocks ["A"; "B"] [9 # 10; 8 # 10]%Q,
             merge_extra
               (computed_metadata work_dir reader image [VStr "A"; VStr "B"]
                  [9 # 10; 8 # 10]%Q)
               (Some extra_scanner))) /\
  exists b computed a mn mx,
    collect_blocks no_float batch_AB = ([], Ok b) /\
    computed = computed_metadata work_dir reader image (text_blocks b) (confidences b) /\
    computed !! "avg_confidence" = Some (VFloat a) /\
    computed !! "min_confidence" = Some (VFloat mn) /\
    computed !! "max_confidence" = Some (VFloat mx) /\
    rounds_to (avg_confidence (confidences b)) a /\
    rounds_to (exact_min (confidences b)) mn /\
    rounds_to (exact_max (confidences b)) mx /\
    updated_with (Some extra_scanner) computed
      (merge_extra
         (computed_metadata work_dir reader image [VStr "A"; VStr "B"]
            [9 # 10; 8 # 10]%Q)
         (Some extra_scanner)).
Proof.
  assert (_process_ocr_result no_float work_dir reader batch_AB image
            (Some extra_scanner)
          = ([], Ok (_format_text_blocks ["A"; "B"] [9 # 10; 8 # 10]%Q,
                     merge_extra
                       (computed_metadata work_dir reader image
                          [VStr "A"; VStr "B"] [9 # 10; 8 # 10]%Q)
                       (Some extra_scanner)))) as H by reflexivity.
  split; [exact H |].
  apply (metadata_rounded_then_extra_info_merged no_float work_dir reader
           batch_AB image (Some extra_scanner) [] _ _ H).
Defined.

(** C10: the caller's [avg_confidence] replaces the computed one, the
    computed minimum stays, and the stored mean of a single confidence 1/3
    is 0.3333, not 1/3. *)
Lemma extra_info_overwrites_computed_key :
  merge_extra
    (computed_metadata work_dir reader image [VStr "A"; VStr "B"] [9 # 10; 8 # 10]%Q)
    (Some extra_scanner) !! "avg_confidence" = Some (VStr "n/a") /\
  merge_extra
    (computed_metadata work_dir reader image [VStr "A"; VStr "B"] [9 # 10; 8 # 10]%Q)
    (Some extra_scanner) !! "min_confidence" = Some (VFloat (8000 # 10000)) /\
  Py.round (avg_confidence [1 # 3]%Q) 4 = (3333 # 10000)%Q /\
  ~ (Py.round (avg_confidence [1 # 3]%Q) 4 == avg_confidence [1 # 3]%Q)%Q.
Proof.
  split; [reflexivity |]. split; [reflexivity |]. split; [reflexivity |].
  vm_compute. discriminate.
Qed.

(** * Further properties *)

(** ** One document per file *)

Section Batches.
Import Pathlib.
Variable str_to_float : string -> option Q.
Variable path_exists : string -> bool.
Variable cwd : string.
Variable self : ImageOCRReader.

Lemma bind_emit {B : Type} (ev : event) (f : unit -> M B) :
  emit ev ≫= f = (ev :: (f tt).1, (f tt).2).
Proof. unfold emit. rewrite bind_ok. reflexivity. Qed.

Lemma engine_calls_app (w1 w2 : list event) :
  engine_calls (w1 ++ w2) = engine_calls w1 ++ engine_calls w2.
Proof. unfold engine_calls. apply flat_map_app. Qed.

Lemma engine_calls_quiet (w : list event) :
  Forall quiet w -> engine_calls w = [].
Proof.
  induction 1 as [| ev w Hq _ IH]; [reflexivity |].
  destruct ev; first [exact IH | destruct Hq].
Qed.

(** A file that does not pass the guards raises before anything is printed
    or called. *)
Lemma load_file_guarded (file : string) (extra : option (gmap string pyval)) :
  loadable path_exists file = false ->
  exists e, load_file str_to_float path_exists cwd self file extra = ([], Raise e) /\
    (e = FileNotFoundError \/ e = ValueError).
Proof.
  unfold loadable, load_file. intros H.
  destruct (path_exists (str (parse file))).
  - cbn [andb negb] in *. rewrite H. exists ValueError. split; [reflexivity | right; reflexivity].
  - exists FileNotFoundError. split; [reflexivity | left; reflexivity].
Qed.

(** What one round of the loop leaves when it gets through. *)
Lemma load_file_ok_inv (file : string) (extra : option (gmap string pyval))
    (w : list event) (d : Document) :
  load_file str_to_float path_exists cwd self file extra = (w, Ok d) ->
  loadable path_exists file = true /\
  document_of str_to_float cwd self extra file d /\
  engine_calls w = [str (parse file)].
Proof.
  unfold load_file, loadable.
  destruct (path_exists (str (parse file))); [| discriminate].
  destruct (is_supported (lower (suffix (parse file)))); [| discriminate].
  cbn [negb andb]. intros H.
  apply bind_ok_inv in H as (w1 & [] & w2 & H1 & H & ->).
  injection H1 as <-.
  apply bind_ok_inv in H as (w3 & raw & w4 & H3 & H & ->).
  apply lift_ok_inv in H3 as [Hraw ->].
  apply bind_ok_inv in H as (w5 & [txt md] & w6 & H5 & H & ->).
  injection H as <- <-.
  split; [reflexivity |]. split.
  - exists raw, w5, txt, md. repeat split; assumption.
  - pose proof (process_quiet str_to_float cwd self raw (parse file) extra) as Hq.
    rewrite H5 in Hq. cbn [fst] in Hq.
    rewrite !engine_calls_app, (engine_calls_quiet _ Hq). reflexivity.
Qed.

Lemma load_files_ok_inv (files : list string) (extra : option (gmap string pyval)) :
  forall docs0 w docs,
  load_files str_to_float path_exists cwd self files extra docs0 = (w, Ok docs) ->
  exists ds,
    docs = docs0 ++ ds /\
    Forall2 (document_of str_to_float cwd self extra) files ds /\
    Forall (fun f => loadable path_exists f = true) files /\
    engine_calls w = List.map (fun f => str (parse f)) files.
Proof.
  induction files as [| f files IH]; intros docs0 w docs H.
  - cbn [load_files] in H. injection H as <- <-. exists [].
    rewrite app_nil_r. repeat split; constructor.
  - cbn [load_files] in H.
    apply bind_ok_inv in H as (w1 & d & w2 & H1 & H2 & ->).
    apply load_file_ok_inv in H1 as (Hl & Hd & Hc).
    apply IH in H2 as (ds & -> & HF & Hall & Hcalls).
    exists (d :: ds). rewrite <- app_assoc. split; [reflexivity |].
    split; [constructor; assumption |]. split; [constructor; assumption |].
    rewrite engine_calls_app, Hc, Hcalls. reflexivity.
Qed.

Lemma load_data_list_ok (files : list string)
    (extra : option (gmap string pyval)) (w : list event) (docs : list Document) :
  load_data str_to_float path_exists cwd self (FileList files) extra
  = (w, Ok docs) ->
  Forall2 (document_of str_to_float cwd self extra) files docs /\
  length docs = length files /\
  Forall (fun f => loadable path_exists f = true) files /\
  engine_calls w = List.map (fun f => str (parse f)) files.
Proof.
  unfold load_data. intros H.
  apply load_files_ok_inv in H as (ds & -> & HF & Hall & Hc).
  cbn [app]. split; [exact HF |]. split; [| split; assumption].
  symmetry. eapply Forall2_length. exact HF.
Qed.

(** X1.  A call of [load_data] that returns has made one document per file,
    in the order of the files: the i-th document is the processed raw result
    of the i-th file, every file passed both guards, and the engine was
    called exactly once per file, in that order. *)
Theorem load_data_one_document_per_file (files : list string)
    (extra : option (gmap string pyval)) (w : list event) (docs : list Document) :
  load_data str_to_float path_exists cwd self (FileList files) extra
  = (w, Ok docs) ->
  Forall2 (document_of str_to_float cwd self extra) files docs /\
  length docs = length files /\
  Forall (fun f => loadable path_exists f = true) files /\
  engine_calls w = List.map (fun f => str (parse f)) files.
Proof. apply load_data_list_ok. Qed.

Lemma load_data_first_failure (pre post : list string) (file : string)
    (extra : option (gmap string pyval)) (w w' : list event)
    (docs : list Document) (e : exn) :
  load_data str_to_float path_exists cwd self (FileList pre) extra = (w, Ok docs) ->
  load_data str_to_float path_exists cwd self (OneFile file) extra = (w', Raise e) ->
  load_data str_to_float path_exists cwd self (FileList (pre ++ file :: post)) extra
  = (w ++ w', Raise e) /\
  engine_calls (w ++ w')
  = List.map (fun f => str (parse f)) pre
    ++ (if loadable path_exists file then [str (parse file)] else []).
Proof.
  unfold load_data. intros Hpre Hf.
  assert (load_file str_to_float path_exists cwd self file extra = (w', Raise e)) as Hf'.
  { cbn [load_files] in Hf.
    destruct (load_file str_to_float path_exists cwd self file extra)
      as [w1 [d | e1]];
      [rewrite bind_ok in Hf; discriminate |
       rewrite bind_raise in Hf; injection Hf as -> ->; reflexivity]. }
  split.
  - rewrite load_files_app, Hpre, bind_ok. cbn [load_files]. rewrite Hf'. reflexivity.
  - apply load_files_ok_inv in Hpre as (ds & _ & _ & _ & Hc).
    rewrite engine_calls_app, Hc. f_equal.
    destruct (loadable path_exists file) eqn:Hl.
    + revert Hf'. unfold load_file. unfold loadable in Hl.
      apply andb_prop in Hl as [-> ->]. cbn [negb]. intros H.
      rewrite bind_emit, bind_lift in H.
      destruct (ocr_model self (str (parse file))) as [raw | e1].
      * pose proof (process_quiet str_to_float cwd self raw (parse file) extra) as Hq.
        destruct (_process_ocr_result str_to_float cwd self raw (parse file) extra)
          as [w5 [[txt md] | e5]].
        -- rewrite bind_ok in H. discriminate.
        -- rewrite bind_raise in H. injection H as <- _. cbn [fst] in Hq.
           change (engine_calls (OcrCall (str (parse file)) :: w5))
             with (str (parse file) :: engine_calls w5).
           rewrite (engine_calls_quiet _ Hq). reflexivity.
      * injection H as <- _. reflexivity.
    + destruct (load_file_guarded file extra Hl) as (e' & E & _).
      rewrite E in Hf'. injection Hf' as <- _. reflexivity.
Qed.

(** X2.  The first file that fails ends the call with its exception: the
    documents of the files before it are dropped, the trace stops there, and
    the files after it have no bearing on the outcome. *)
Theorem load_data_stops_at_first_failure (pre post : list string) (file : string)
    (extra : option (gmap string pyval)) (w w' : list event)
    (docs : list Document) (e : exn) :
  load_data str_to_float path_exists cwd self (FileList pre) extra = (w, Ok docs) ->
  load_data str_to_float path_exists cwd self (OneFile file) extra = (w', Raise e) ->
  load_data str_to_float path_exists cwd self (FileList (pre ++ file :: post)) extra
  = (w ++ w', Raise e) /\
  engine_calls (w ++ w')
  = List.map (fun f => str (parse f)) pre
    ++ (if loadable path_exists file then [str (parse file)] else []).
Proof. apply load_data_first_failure. Qed.

(** X3.  A file that does not exist is reported as [FileNotFoundError],
    whatever its extension, before the extension is looked at and before the
    engine is called: alone at once, in a list once the files before it are
    loaded. *)
Theorem missing_file_raises_before_engine (file : string)
    (extra : option (gmap string pyval)) :
  path_exists (str (parse file)) = false ->
  load_data str_to_float path_exists cwd self (OneFile file) extra
  = ([], Raise FileNotFoundError) /\
  forall pre post w docs,
    load_data str_to_float path_exists cwd self (FileList pre) extra
    = (w, Ok docs) ->
    load_data str_to_float path_exists cwd self
      (FileList (pre ++ file :: post)) extra
    = (w, Raise FileNotFoundError) /\
    engine_calls w = List.map (fun f => str (parse f)) pre.
Proof.
  intros He.
  assert (load_data str_to_float path_exists cwd self (OneFile file) extra
          = ([], Raise FileNotFoundError)) as H1.
  { unfold load_data. cbn [load_files]. unfold load_file. rewrite He. reflexivity. }
  split; [exact H1 |]. intros pre post w docs Hpre.
  destruct (load_data_first_failure pre post file extra w [] docs _ Hpre H1)
    as [H2 _].
  rewrite app_nil_r in H2. split; [exact H2 |].
  destruct (load_data_list_ok pre extra w docs Hpre) as (_ & _ & _ & Hc).
  exact Hc.
Qed.

Lemma computed_metadata_dom (p : Path) (tbs : list pyval) (cs : list Q) :
  dom (computed_metadata cwd self p tbs cs)
  = (list_to_set computed_keys : gset string).
Proof. unfold computed_metadata. rewrite dom_list_to_map_L. reflexivity. Qed.

Lemma merge_extra_dom (computed : gmap string pyval)
    (extra_info : option (gmap string pyval)) :
  dom (merge_extra computed extra_info)
  = dom (default ∅ extra_info) ∪ dom computed.
Proof.
  unfold merge_extra. destruct extra_info as [extra |].
  - change (default ∅ (Some extra)) with extra.
    destruct (Nat.eqb_spec (size extra) 0) as [E | _].
    + apply map_size_empty_iff in E. subst extra.
      rewrite dom_empty_L, (left_id_L ∅ (∪)). reflexivity.
    + apply dom_union_L.
  - change (default ∅ None) with (∅ : gmap string pyval).
    rewrite dom_empty_L, (left_id_L ∅ (∪)). reflexivity.
Qed.

(** X4.  Every document [load_data] returns carries every entry of
    [extra_info], and the keys of its metadata are the nine computed keys
    together with the keys of [extra_info], no other and none missing. *)
Theorem every_document_carries_extra_info (file : file_arg)
    (extra_info : option (gmap string pyval)) (w : list event)
    (docs : list Document) :
  load_data str_to_float path_exists cwd self file extra_info = (w, Ok docs) ->
  Forall (fun d =>
            dom (metadata d)
            = dom (default ∅ extra_info) ∪ (list_to_set computed_keys : gset string) /\
            forall k v, default ∅ extra_info !! k = Some v ->
                        metadata d !! k = Some v) docs.
Proof.
  unfold load_data. intros H.
  apply load_files_ok_inv in H as (ds & -> & HF & _ & _). cbn [app].
  clear w. induction HF as [| f d files ds Hd _ IH]; constructor; [| exact IH].
  destruct Hd as (raw & w & txt & md & _ & Hp & ->). cbn [metadata].
  apply process_ok_inv in Hp as (b & texts & _ & _ & _ & ->).
  split.
  - rewrite merge_extra_dom, computed_metadata_dom. reflexivity.
  - intros k v Hk. rewrite (merge_extra_lookup _ extra_info k).
    destruct extra_info as [extra |].
    + change (extra !! k = Some v) in Hk. rewrite Hk. reflexivity.
    + change ((∅ : gmap string pyval) !! k = Some v) in Hk.
      rewrite lookup_empty in Hk. discriminate.
Qed.

End Batches.

(** ** The order of the three statistics *)

Section Order.
Local Open Scope Q_scope.

Lemma round_half_even_comp (x y : Q) :
  x == y -> round_half_even x = round_half_even y.
Proof.
  intros H. unfold round_half_even. rewrite (Qfloor_comp _ _ H).
  assert ((x - inject_Z (Qfloor y) ?= 1 # 2) = (y - inject_Z (Qfloor y) ?= 1 # 2))
    as -> by (rewrite H; reflexivity).
  reflexivity.
Qed.

Lemma round_half_even_mono (x y : Q) :
  x <= y -> (round_half_even x <= round_half_even y)%Z.
Proof.
  intros H. apply Qle_lt_or_eq in H as [Hlt | Heq].
  - destruct (round_half_even_near x) as [Hx _].
    destruct (round_half_even_near y) as [_ Hy].
    assert (inject_Z (round_half_even x) < inject_Z (round_half_even y + 1)) as L.
    { rewrite inject_Z_plus. change (inject_Z 1) with 1. lra. }
    rewrite <- Zlt_Qlt in L. lia.
  - rewrite (round_half_even_comp _ _ Heq). lia.
Qed.

Lemma round4_mono (x y : Q) : x <= y -> Py.round x 4 <= Py.round y 4.
Proof.
  intros H. unfold Py.round. change (10 ^ Z.of_nat 4)%Z with 10000%Z.
  assert (x * inject_Z 10000 <= y * inject_Z 10000) as H'.
  { change (inject_Z 10000) with (10000 # 1). lra. }
  apply round_half_even_mono in H'. unfold Qle. cbn [Qnum Qden Z.to_pos]. lia.
Qed.

Lemma min_from_lower (l : list Q) :
  forall x, min_from x l <= x /\ Forall (fun y => min_from x l <= y) l.
Proof.
  unfold min_from. induction l as [| y l IH]; intros x.
  - cbn [fold_left]. split; [lra | constructor].
  - cbn [fold_left]. unfold Qltb at 2 4.
    destruct (Qle_bool x y) eqn:E; cbn [negb].
    + apply Qle_bool_iff in E. destruct (IH x) as [Hx Hl].
      split; [exact Hx |]. constructor; [lra | exact Hl].
    + assert (y < x) as Hyx.
      { apply Qnot_le_lt. intros Hle. apply Qle_bool_iff in Hle. congruence. }
      destruct (IH y) as [Hy Hl].
      split; [lra |]. constructor; [exact Hy | exact Hl].
Qed.

Lemma max_from_upper (l : list Q) :
  forall x, x <= max_from x l /\ Forall (fun y => y <= max_from x l) l.
Proof.
  unfold max_from. induction l as [| y l IH]; intros x.
  - cbn [fold_left]. split; [lra | constructor].
  - cbn [fold_left]. unfold Qltb at 2 4.
    destruct (Qle_bool y x) eqn:E; cbn [negb].
    + apply Qle_bool_iff in E. destruct (IH x) as [Hx Hl].
      split; [exact Hx |]. constructor; [lra | exact Hl].
    + assert (x < y) as Hxy.
      { apply Qnot_le_lt. intros Hle. apply Qle_bool_iff in Hle. congruence. }
      destruct (IH y) as [Hy Hl].
      split; [lra |]. constructor; [exact Hy | exact Hl].
Qed.

End Order.

Section StatisticsOrder.
Variable cwd : string.
Variable self : ImageOCRReader.

(** X5.  The stored minimum is at most the stored maximum, and the
    confidence of every detection, rounded to four decimals like them, lies
    between the two. *)
Theorem metadata_min_max_bracket_confidences (p : Pathlib.Path)
    (tbs : list pyval) (cs : list Q) :
  exists mn mx,
    computed_metadata cwd self p tbs cs !! "min_confidence" = Some (VFloat mn) /\
    computed_metadata cwd self p tbs cs !! "max_confidence" = Some (VFloat mx) /\
    (mn <= mx)%Q /\
    Forall (fun c => (mn <= Py.round c 4)%Q /\ (Py.round c 4 <= mx)%Q) cs.
Proof.
  exists (min_confidence cs), (max_confidence cs).
  rewrite metadata_min_confidence, metadata_max_confidence.
  split; [reflexivity |]. split; [reflexivity |].
  destruct cs as [| c cs].
  - split; [discriminate | constructor].
  - destruct (min_from_lower cs c) as [Hc Hl].
    destruct (max_from_upper cs c) as [Hc' Hl'].
    cbn [min_confidence max_confidence]. split.
    + apply round4_mono. apply (Qle_trans _ c); assumption.
    + constructor.
      * split; apply round4_mono; assumption.
      * rewrite List.Forall_forall in *. intros y Hy.
        split; apply round4_mono; [apply Hl | apply Hl']; exact Hy.
Qed.

End StatisticsOrder.

(** ** The batch shape *)

Section BatchShape.
Variable str_to_float : string -> option Q.

Lemma batch_body_ok (rec_scores dt_polys : pyval) (scores polys : list pyval)
    (qs : list Q) (i : nat) (t : pyval) (b : blocks) :
  seq_items rec_scores = Some scores ->
  seq_items dt_polys = Some polys ->
  match scores !! i with
  | Some v => exists q, qs !! i = Some q /\ to_float str_to_float v = Ok q
  | None => qs !! i = None
  end ->
  batch_body str_to_float rec_scores dt_polys i t b
  = ([], Ok (append_block b t (default 1%Q (qs !! i))
               (default VNone (polys !! i)) i)).
Proof.
  intros Hs Hp Hq. unfold batch_body.
  rewrite (seq_items_len _ _ Hs), (seq_items_len _ _ Hp). cbn [mbind outcome_bind].
  assert (exists bbox, (if (i <? length polys)%nat then getitem dt_polys i
                        else mret VNone) = Ok bbox /\
                       bbox = default VNone (polys !! i)) as (bbox & -> & ->).
  { destruct (Nat.ltb_spec i (length polys)) as [Hlt | Hge].
    - destruct (lookup_lt_is_Some_2 polys i Hlt) as [x Hx].
      rewrite (seq_items_getitem _ _ _ _ Hp Hx), Hx. eexists. split; reflexivity.
    - rewrite (lookup_ge_None_2 polys i Hge). eexists. split; reflexivity. }
  destruct (Nat.ltb_spec i (length scores)) as [Hlt | Hge].
  - destruct (lookup_lt_is_Some_2 scores i Hlt) as [v Hv].
    rewrite Hv in Hq. destruct Hq as (q & Hqi & Hf).
    rewrite (seq_items_getitem _ _ _ _ Hs Hv), !bind_lift, Hf, Hqi. reflexivity.
  - rewrite (lookup_ge_None_2 scores i Hge) in Hq. rewrite Hq, !bind_lift.
    reflexivity.
Qed.

Lemma batch_loop (rec_scores dt_polys : pyval) (scores polys : list pyval)
    (qs : list Q) (texts : list pyval) :
  seq_items rec_scores = Some scores ->
  seq_items dt_polys = Some polys ->
  forall idx b,
  (forall i, (idx <= i < idx + length texts)%nat ->
     match scores !! i with
     | Some v => exists q, qs !! i = Some q /\ to_float str_to_float v = Ok q
     | None => qs !! i = None
     end) ->
  for_enumerate (batch_body str_to_float rec_scores dt_polys) idx texts b
  = ([], Ok {| text_blocks := text_blocks b ++ texts;
               confidences := confidences b ++
                 imap (fun i _ => default 1%Q (qs !! (idx + i)%nat)) texts;
               detailed_blocks := detailed_blocks b ++
                 imap (fun i t => batch_detection qs polys (idx + i) t) texts |}).
Proof.
  intros Hs Hp. induction texts as [| t texts IH]; intros idx b Hq.
  - cbn [for_enumerate imap]. rewrite !app_nil_r. destruct b; reflexivity.
  - cbn [for_enumerate].
    rewrite (batch_body_ok _ _ _ _ qs idx t b Hs Hp); [| apply Hq; cbn [length]; lia].
    rewrite bind_ok. cbn [fst snd app].
    rewrite IH; [| intros i Hi; apply Hq; cbn [length]; lia].
    assert (imap ((fun i (_ : pyval) => default 1%Q (qs !! (idx + i)%nat)) ∘ S) texts
            = imap (fun i _ => default 1%Q (qs !! (S idx + i)%nat)) texts) as E1.
    { apply imap_ext. intros i x _. cbn. do 2 f_equal. lia. }
    assert (imap ((fun i t => batch_detection qs polys (idx + i) t) ∘ S) texts
            = imap (fun i t => batch_detection qs polys (S idx + i) t) texts) as E2.
    { apply imap_ext. intros i x _. cbn. f_equal. lia. }
    cbn [append_block text_blocks confidences detailed_blocks imap fst snd].
    rewrite <- !app_assoc, E1, E2, Nat.add_0_r. reflexivity.
Qed.

(** X6.  In the batch shape every text is kept, the empty ones too: when the
    scores that stand beside a text coerce, the call makes one detection per
    text, in order, with the score and the polygon of the same index, and
    with 1.0 and no polygon where [rec_scores] or [dt_polys] is shorter or
    missing. *)
Theorem batch_shape_keeps_every_text (d : list (string * pyval))
    (rest texts scores polys : list pyval) (qs : list Q) :
  dict_contains "rec_texts" d = true ->
  seq_items (dict_get "rec_texts" (VList []) d) = Some texts ->
  seq_items (dict_get "rec_scores" (VList []) d) = Some scores ->
  seq_items (dict_get "dt_polys" (VList []) d) = Some polys ->
  Forall2 (fun v q => to_float str_to_float v = Ok q)
    (take (length texts) scores) qs ->
  exists b,
    collect_blocks str_to_float (VList (VDict d :: rest)) = ([], Ok b) /\
    text_blocks b = texts /\
    confidences b = imap (fun i _ => default 1%Q (qs !! i)) texts /\
    detailed_blocks b = imap (batch_detection qs polys) texts.
Proof.
  intros Hc Ht Hs Hp Hq. cbn [collect_blocks]. rewrite Hc.
  rewrite (seq_items_iter _ _ Ht), bind_lift.
  eexists. split.
  - apply (batch_loop _ _ scores polys qs texts Hs Hp 0 no_blocks).
    intros i [_ Hi]. cbn [Nat.add] in Hi.
    destruct (scores !! i) as [v |] eqn:Hv.
    + assert (take (length texts) scores !! i = Some v) as Hv'.
      { rewrite lookup_take_lt; assumption. }
      destruct (Forall2_lookup_l _ _ _ _ _ Hq Hv') as (q & Hqi & Hf).
      exists q. split; assumption.
    + apply lookup_ge_None_2. rewrite <- (Forall2_length _ _ _ Hq), length_take.
      apply lookup_ge_None_1 in Hv. lia.
  - cbn [text_blocks confidences detailed_blocks no_blocks app]. repeat split.
Qed.

Lemma for_enumerate_ext {A B St : Type} (f : nat -> A -> St -> M St)
    (g : nat -> B -> St -> M St) (xs : list A) :
  forall (ys : list B) (idx : nat) (s : St),
  length xs = length ys ->
  (forall k x y s', xs !! k = Some x -> ys !! k = Some y ->
     f (idx + k)%nat x s' = g (idx + k)%nat y s') ->
  for_enumerate f idx xs s = for_enumerate g idx ys s.
Proof.
  induction xs as [| x xs IH]; intros [| y ys] idx s Hl Hfg; try discriminate.
  - reflexivity.
  - cbn [for_enumerate].
    pose proof (Hfg 0%nat x y s eq_refl eq_refl) as H0.
    rewrite Nat.add_0_r in H0. rewrite H0.
    destruct (g idx y s) as [w [s' | e]]; [| reflexivity].
    rewrite !bind_ok. rewrite (IH ys (S idx) s'); [reflexivity | |].
    + cbn [length] in Hl. lia.
    + intros k x' y' s'' Hx Hy.
      replace (S idx + k)%nat with (idx + S k)%nat by lia.
      apply (Hfg (S k)); assumption.
Qed.

(** X7.  The same detections written in the batch shape and in the
    nested-list shape are read alike: the three lists, the trace and, where
    a confidence does not coerce, the exception are the same, and so are the
    text and the metadata of the document. *)
Theorem batch_and_nested_shapes_agree (entries : list (pyval * pyval * pyval))
    (cwd : string) (self : ImageOCRReader) (p : Pathlib.Path)
    (extra_info : option (gmap string pyval)) :
  collect_blocks str_to_float (batch_of entries)
  = collect_blocks str_to_float (legacy_of entries) /\
  _process_ocr_result str_to_float cwd self (batch_of entries) p extra_info
  = _process_ocr_result str_to_float cwd self (legacy_of entries) p extra_info.
Proof.
  assert (collect_blocks str_to_float (batch_of entries)
          = collect_blocks str_to_float (legacy_of entries)) as H.
  { unfold batch_of, legacy_of. cbn [collect_blocks].
    change (dict_contains "rec_texts" _) with true. cbv iota.
    change (dict_get "rec_texts" _ _) with (VList ((fun e => e.1.2) <$> entries)).
    change (dict_get "rec_scores" _ _) with (VList ((fun e => e.2) <$> entries)).
    change (dict_get "dt_polys" _ _) with (VList ((fun e => e.1.1) <$> entries)).
    cbn [iter]. rewrite bind_lift.
    apply for_enumerate_ext; [rewrite !length_fmap; reflexivity |].
    intros k t line b Ht Hline. cbn [Nat.add].
    rewrite list_lookup_fmap in Ht, Hline.
    destruct (entries !! k) as [[[box text] conf] |] eqn:He; [| discriminate].
    cbn in Ht, Hline. injection Ht as <-. injection Hline as <-.
    unfold batch_body, legacy_body, legacy_line. cbn [len mbind outcome_bind].
    rewrite !length_fmap.
    assert ((k <? length entries)%nat = true) as ->.
    { apply Nat.ltb_lt. eapply lookup_lt_Some. exact He. }
    cbn [getitem]. rewrite !list_lookup_fmap, He. cbn.
    destruct (to_float str_to_float conf); reflexivity. }
  split; [exact H |]. unfold _process_ocr_result. rewrite H. reflexivity.
Qed.

End BatchShape.

(** ** Where an exception can come from *)

Section Exceptions.
Variable str_to_float : string -> option Q.
Variable cwd : string.
Variable self : ImageOCRReader.

Lemma str_items_raise (vs : list pyval) (e : exn) :
  str_items vs = Raise e ->
  e = TypeError /\ exists v, In v vs /\ is_text v = false.
Proof.
  induction vs as [| v vs IH]; [discriminate |].
  destruct v; cbn [str_items];
    try (intros [= <-]; split; [reflexivity |];
         eexists; split; [left; reflexivity | reflexivity]).
  destruct (str_items vs) as [ss | e']; [discriminate |].
  cbn [mbind outcome_bind]. intros [= <-].
  destruct (IH eq_refl) as (-> & v & Hv & Ht).
  split; [reflexivity |]. exists v. split; [right; exact Hv | exact Ht].
Qed.

Lemma str_items_length (vs : list pyval) (ss : list string) :
  str_items vs = Ok ss -> length ss = length vs.
Proof.
  revert ss. induction vs as [| v vs IH]; intros ss.
  - intros [= <-]. reflexivity.
  - destruct v; cbn [str_items]; try discriminate.
    destruct (str_items vs) as [ss' | e']; [| discriminate].
    cbn [mbind outcome_bind]. intros [= <-]. cbn [length].
    rewrite (IH ss' eq_refl). reflexivity.
Qed.

(** X8.  An exception of [_process_ocr_result] comes from a raw result of
    the batch or nested-list shape, or from a flat list that holds, after its
    first text, a truthy value that is not a text, which makes the join raise
    [TypeError].  Every other raw value - [None], a number, a string, a dict,
    an empty list, a list headed by anything else - is processed without an
    exception. *)
Theorem exceptions_only_from_known_shapes (raw : pyval) (p : Pathlib.Path)
    (extra_info : option (gmap string pyval)) (w : list event) (e : exn) :
  _process_ocr_result str_to_float cwd self raw p extra_info = (w, Raise e) ->
  keyed_or_nested raw \/
  exists s rest v,
    raw = VList (VStr s :: rest) /\ In v rest /\ truthy v = true /\
    is_text v = false /\ e = TypeError /\ w = [].
Proof.
  unfold _process_ocr_result.
  destruct raw as [| | | | | [| item rest] | |]; try discriminate.
  destruct item; try discriminate; try (intros _; left; exact I).
  intros H. right.
  destruct (collect_blocks_flat str_to_float s rest) as (b & E & Ht & _).
  rewrite E, bind_ok, bind_lift in H. cbn [fst snd app] in H.
  destruct (str_items (text_blocks b)) as [texts | e'] eqn:Es; [discriminate |].
  injection H as <- <-.
  apply str_items_raise in Es as (-> & v & Hv & Hnt).
  rewrite Ht in Hv. apply filter_In in Hv as [Hin Htr].
  destruct Hin as [<- | Hin]; [discriminate |].
  exists s, rest, v. repeat split; assumption.
Qed.

Lemma format_text_blocks_empty_iff (texts : list string) (confs : list Q) :
  _format_text_blocks texts confs = EmptyString <-> texts = [].
Proof.
  split; [| intros ->; reflexivity].
  destruct texts as [| t texts]; [reflexivity |].
  rewrite format_text_blocks_cons. intros H.
  apply (f_equal String.length) in H.
  rewrite string_length_append in H. cbn [String.length] in H. lia.
Qed.

(** X9.  The text of the document is empty exactly when no text block was
    detected: with no [extra_info], a call that returns gives the empty
    string if and only if [num_text_blocks] is 0. *)
Theorem text_empty_iff_no_text_block (raw : pyval) (p : Pathlib.Path)
    (w : list event) (txt : string) (md : gmap string pyval) :
  _process_ocr_result str_to_float cwd self raw p None = (w, Ok (txt, md)) ->
  (txt = EmptyString <-> md !! "num_text_blocks" = Some (VInt 0)).
Proof.
  intros H. apply process_ok_inv in H as (b & texts & _ & Hs & -> & ->).
  cbn [merge_extra]. rewrite metadata_num_text_blocks, format_text_blocks_empty_iff.
  apply str_items_length in Hs.
  split.
  - intros ->. cbn [length] in Hs. rewrite <- Hs. reflexivity.
  - intros [= H0]. destruct texts; [reflexivity |]. cbn [length] in Hs. lia.
Qed.

End Exceptions.

(** ** The nested-list shape *)

Section NestedShape.
Variable str_to_float : string -> option Q.

(** A round of the loop over lines that gets through keeps the line, skips
    it in silence, or skips it with one warning that names it. *)
Lemma legacy_body_ok_inv (idx : nat) (line : pyval) (b b' : blocks)
    (w : list event) :
  legacy_body str_to_float idx line b = (w, Ok b') ->
  (w = [] /\ exists t c box, b' = append_block b t c box idx) \/
  (w = [] /\ b' = b) \/
  (w = [PrintBadLine idx line] /\ b' = b).
Proof.
  unfold legacy_body. intros H.
  destruct (truthy line);
    [| injection H as <- <-; right; left; split; reflexivity].
  rewrite bind_lift in H. destruct (len line) as [n | e]; [| discriminate].
  destruct (2 <=? n)%nat;
    [| injection H as <- <-; right; left; split; reflexivity].
  rewrite bind_lift in H. destruct (getitem line 0) as [box | e]; [| discriminate].
  rewrite bind_lift in H. destruct (getitem line 1) as [inner | e]; [| discriminate].
  destruct (is_list_or_tuple inner && len_ge 2 inner).
  - rewrite bind_lift in H. destruct (getitem inner 0) as [t | e]; [| discriminate].
    rewrite bind_lift in H. destruct (getitem inner 1) as [c | e]; [| discriminate].
    rewrite bind_lift in H.
    destruct (to_float str_to_float c) as [q | e]; [| discriminate].
    injection H as <- <-. left. split; [reflexivity |]. exists t, q, box. reflexivity.
  - rewrite bind_emit in H. injection H as <- <-.
    right. right. split; reflexivity.
Qed.

Lemma legacy_loop_account (lines : list pyval) :
  forall idx b w b',
  for_enumerate (legacy_body str_to_float) idx lines b = (w, Ok b') ->
  (length (text_blocks b') + length w
   <= length (text_blocks b) + length lines)%nat /\
  Forall (fun ev => exists k line,
            ev = PrintBadLine (idx + k) line /\ lines !! k = Some line) w.
Proof.
  induction lines as [| line lines IH]; intros idx b w b' H.
  - cbn [for_enumerate] in H. injection H as <- <-. cbn [length]. split; [lia | constructor].
  - cbn [for_enumerate] in H.
    apply bind_ok_inv in H as (w1 & b1 & w2 & H1 & H2 & ->).
    apply IH in H2 as [Hn Hw].
    assert (Forall (fun ev => exists k l, ev = PrintBadLine (idx + k) l /\
                      (line :: lines) !! k = Some l) w2) as Hw2.
    { eapply Forall_impl; [exact Hw |]. intros ev (k & l & -> & Hk).
      exists (S k), l. split; [f_equal; lia | exact Hk]. }
    rewrite length_app. cbn [length].
    apply legacy_body_ok_inv in H1 as [[-> (t & c & box & ->)] | [[-> ->] | [-> ->]]].
    + cbn [append_block text_blocks] in Hn. rewrite length_app in Hn.
      cbn [length app] in *. split; [lia | exact Hw2].
    + cbn [length app]. split; [lia | exact Hw2].
    + cbn [length app]. split; [lia |]. constructor; [| exact Hw2].
      exists 0%nat, line. split; [f_equal; lia | reflexivity].
Qed.

(** X10.  In the nested-list shape a line gives at most one detection or one
    warning, never both and never two: when the call gets through, the text
    blocks and the printed warnings together are no more than the lines, and
    every warning names a line of the raw result under its index. *)
Theorem nested_shape_accounts_for_lines (lines rest : list pyval)
    (w : list event) (b : blocks) :
  collect_blocks str_to_float (VList (VList lines :: rest)) = (w, Ok b) ->
  (length (text_blocks b) + length w <= length lines)%nat /\
  Forall (fun ev => exists idx line,
            ev = PrintBadLine idx line /\ lines !! idx = Some line) w.
Proof.
  cbn [collect_blocks]. intros H.
  apply legacy_loop_account in H as [Hn Hw]. exact (conj Hn Hw).
Qed.

End NestedShape.

(** ** Loading a directory *)

Section DirectoryLoading.
Import Pathlib Directory.
Variable str_to_float : string -> option Q.
Variable path_exists is_dir is_file : string -> bool.
Variable glob rglob : string -> list string.
Variable cwd : string.
Variable self : ImageOCRReader.

Lemma dir_engine_calls_inner (w : list event) :
  dir_engine_calls (Inner <$> w) = engine_calls w.
Proof.
  induction w as [| ev w IH]; [reflexivity |].
  cbn [fmap list_fmap]. unfold dir_engine_calls, engine_calls in *.
  cbn [flat_map]. rewrite <- IH. destruct ev; reflexivity.
Qed.

(** X11.  A path that is missing or is not a directory raises [ValueError]
    before anything is listed; a directory in which no entry is an image file
    - whatever else it holds - gives the empty list and one message, and the
    engine is not called. *)
Theorem directory_without_images (dir_path : string) (recursive : bool)
    (extra_info : option (gmap string pyval)) :
  let d := str (parse dir_path) in
  (path_exists d && is_dir d = false ->
   load_data_from_dir str_to_float path_exists is_dir is_file glob rglob cwd
     self dir_path recursive extra_info = ([], Raise ValueError)) /\
  (path_exists d && is_dir d = true ->
   Forall (fun f => is_image_file is_file f = false)
     (if recursive then rglob d else glob d) ->
   load_data_from_dir str_to_float path_exists is_dir is_file glob rglob cwd
     self dir_path recursive extra_info = ([PrintNoImages d], Ok [])).
Proof.
  cbn zeta. unfold load_data_from_dir. split.
  - intros H. destruct (path_exists (str (parse dir_path))),
      (is_dir (str (parse dir_path))); try discriminate; reflexivity.
  - intros H Hl. apply andb_prop in H as [-> ->]. cbn [negb orb].
    assert (List.filter (is_image_file is_file)
              (if recursive then rglob (str (parse dir_path))
               else glob (str (parse dir_path))) = []) as ->; [| reflexivity].
    induction Hl as [| f l Hf _ IH]; [reflexivity |].
    cbn [List.filter]. rewrite Hf. exact IH.
Qed.

Lemma load_file_total (f : string) (extra : option (gmap string pyval))
    (d : Document) :
  loadable path_exists f = true ->
  document_of str_to_float cwd self extra f d ->
  exists w, load_file str_to_float path_exists cwd self f extra = (w, Ok d).
Proof.
  intros Hl (raw & w & txt & md & Hraw & Hp & ->).
  unfold load_file. unfold loadable in Hl. apply andb_prop in Hl as [-> ->].
  cbn [negb]. rewrite bind_emit, bind_lift, Hraw, Hp, bind_ok. cbn [fst snd].
  eexists. reflexivity.
Qed.

Lemma load_files_total (files : list string) (extra : option (gmap string pyval)) :
  Forall (fun f => loadable path_exists f = true /\
                   exists d, document_of str_to_float cwd self extra f d) files ->
  forall docs0, exists w docs,
    load_files str_to_float path_exists cwd self files extra docs0 = (w, Ok docs).
Proof.
  induction 1 as [| f files [Hl (d & Hd)] _ IH]; intros docs0.
  - exists [], docs0. reflexivity.
  - cbn [load_files]. destruct (load_file_total f extra d Hl Hd) as (w1 & ->).
    destruct (IH (docs0 ++ [d])) as (w' & docs & E).
    rewrite bind_ok, E. eexists _, _. reflexivity.
Qed.

(** X12.  In a directory whose image files exist for [load_data] as they do
    for the listing, and on which the engine and the processing get through,
    [load_data_from_dir] returns one document per image file, in the order
    of the listing; the engine is called on the image files and on no other
    entry. *)
Theorem directory_gives_one_document_per_image (dir_path : string)
    (recursive : bool) (extra_info : option (gmap string pyval)) :
  let d := str (parse dir_path) in
  let image_files :=
    List.filter (is_image_file is_file) (if recursive then rglob d else glob d) in
  path_exists d && is_dir d = true ->
  (forall f, is_file (str (parse f)) = true -> path_exists (str (parse f)) = true) ->
  Forall (fun f => exists doc, document_of str_to_float cwd self extra_info f doc)
    image_files ->
  exists w docs,
    load_data_from_dir str_to_float path_exists is_dir is_file glob rglob cwd
      self dir_path recursive extra_info = (w, Ok docs) /\
    Forall2 (document_of str_to_float cwd self extra_info) image_files docs /\
    dir_engine_calls w = List.map (fun f => str (parse f)) image_files.
Proof.
  cbn zeta. intros Hd Hfs Hdocs. unfold load_data_from_dir.
  apply andb_prop in Hd as [-> ->]. cbn [negb orb].
  set (files := List.filter (is_image_file is_file)
                  (if recursive then rglob (str (parse dir_path))
                   else glob (str (parse dir_path)))) in *.
  assert (Forall (fun f => loadable path_exists f = true /\
                    exists doc, document_of str_to_float cwd self extra_info f doc)
            files) as Hall.
  { rewrite List.Forall_forall in *. intros f Hf. split; [| apply Hdocs, Hf].
    unfold files in Hf. apply filter_In in Hf as [_ Hi].
    unfold is_image_file in Hi. apply andb_prop in Hi as [Hs Hfile].
    unfold loadable. rewrite (Hfs f Hfile), Hs. reflexivity. }
  destruct (load_files_total files extra_info Hall []) as (w & docs & E).
  destruct (load_data_list_ok str_to_float path_exists cwd self
              files extra_info w docs E) as (HF & _ & _ & Hc).
  destruct files as [| f files'] eqn:Ef.
  - exists [PrintNoImages (str (parse dir_path))], [].
    inversion HF; subst. repeat split. constructor.
  - unfold load_data. rewrite E.
    exists (PrintFound (length (f :: files')) :: (Inner <$> w)), docs.
    split; [reflexivity |]. split; [exact HF |].
    change (dir_engine_calls (PrintFound (length (f :: files')) :: (Inner <$> w)))
      with (dir_engine_calls (Inner <$> w)).
    rewrite dir_engine_calls_inner. exact Hc.
Qed.

End DirectoryLoading.

(** ** The parameters of the engine *)

Section EngineParameters.
Import Directory.

Lemma kwargs_not_dropped (kwargs : gmap string pyval) (k : string) (v : pyval) :
  (forall n, In n init_parameters -> kwargs !! n = None) ->
  kwargs !! k = Some v ->
  negb (existsb (String.eqb k) dropped_kwargs) = true.
Proof.
  intros Hn Hk. apply negb_true_iff.
  destruct (existsb (String.eqb k) dropped_kwargs) eqn:E; [| reflexivity].
  apply existsb_exists in E as (n & Hin & Heq). apply String.eqb_eq in Heq. subst n.
  rewrite Hn in Hk; [discriminate |].
  unfold dropped_kwargs in Hin. unfold init_parameters.
  destruct Hin as [<- | [<- | []]]; cbn; tauto.
Qed.

(** X13.  Whatever keyword arguments the caller gives beside the named ones,
    the engine is made with the language, with [use_gpu] only when asked
    for, with every keyword argument unchanged, and with [use_angle_cls] as
    the caller's keyword says, else [True] when orientation classification is
    asked for; [ocr_version] and the two switches for unwarping and text-line
    orientation never reach the engine. *)
Theorem engine_parameters (lang : string) (use_gpu classify : bool)
    (kwargs : gmap string pyval) :
  (forall n, In n init_parameters -> kwargs !! n = None) ->
  let ps := ocr_params lang use_gpu classify kwargs in
  ps !! "lang" = Some (VStr lang) /\
  (forall k v, kwargs !! k = Some v -> ps !! k = Some v) /\
  ps !! "use_gpu" = (if use_gpu then Some (VBool true) else None) /\
  ps !! "use_angle_cls"
  = match kwargs !! "use_angle_cls" with
    | Some v => Some v
    | None => if classify then Some (VBool true) else None
    end /\
  ps !! "ocr_version" = None /\
  ps !! "use_doc_unwarping" = None /\
  ps !! "use_textline_orientation" = None.
Proof.
  intros Hn. cbn zeta. unfold ocr_params.
  set (base := (if classify then _ else _) : gmap string pyval).
  set (P := fun kv : string * pyval =>
              negb (existsb (String.eqb kv.1) dropped_kwargs) = true).
  assert (forall k, filter P kwargs !! k = kwargs !! k) as Hf.
  { intros k. destruct (kwargs !! k) as [v |] eqn:Hk.
    - apply map_lookup_filter_Some. split; [exact Hk |].
      unfold P. cbn [fst]. eapply kwargs_not_dropped; eassumption.
    - apply map_lookup_filter_None. left. exact Hk. }
  assert (forall k, (filter P kwargs ∪ base) !! k
                    = match kwargs !! k with Some v => Some v | None => base !! k end)
    as Hu.
  { intros k. rewrite lookup_union, Hf.
    destruct (kwargs !! k), (base !! k); reflexivity. }
  assert (forall n, In n init_parameters -> (filter P kwargs ∪ base) !! n = base !! n)
    as Hb.
  { intros n Hin. rewrite Hu, (Hn n Hin). reflexivity. }
  repeat split.
  - rewrite Hb; [| cbn; tauto]. unfold base. destruct classify, use_gpu; reflexivity.
  - intros k v Hk. rewrite Hu, Hk. reflexivity.
  - rewrite Hb; [| cbn; tauto]. unfold base. destruct classify, use_gpu; reflexivity.
  - rewrite Hu. destruct (kwargs !! "use_angle_cls"); [reflexivity |].
    unfold base. destruct classify, use_gpu; reflexivity.
  - rewrite Hb; [| cbn; tauto]. unfold base. destruct classify, use_gpu; reflexivity.
  - rewrite Hb; [| cbn; tauto]. unfold base. destruct classify, use_gpu; reflexivity.
  - rewrite Hb; [| cbn; tauto]. unfold base. destruct classify, use_gpu; reflexivity.
Qed.

End EngineParameters.

(** ** The winner of a comparison *)

Section Winner.
Import Benchmark.
Local Open Scope Q_scope.
Context {A : Type}.
Variable key : A -> Q.

Lemma Qltb_true (x y : Q) : Qltb x y = true <-> x < y.
Proof.
  unfold Qltb. rewrite negb_true_iff. split.
  - intros H. apply Qnot_le_lt. intros Hle. apply Qle_bool_iff in Hle. congruence.
  - intros H. destruct (Qle_bool y x) eqn:E; [| reflexivity].
    apply Qle_bool_iff in E. lra.
Qed.

Lemma Qltb_false (x y : Q) : Qltb x y = false <-> y <= x.
Proof.
  unfold Qltb. rewrite negb_false_iff. apply Qle_bool_iff.
Qed.

(** Passing over items that do not exceed the best leaves it. *)
Lemma max_by_stays (l : list A) (m : A) :
  Forall (fun y => key y <= key m) l -> max_by key m l = m.
Proof.
  unfold max_by. induction 1 as [| y l Hy _ IH]; [reflexivity |].
  cbn [fold_left]. apply Qltb_false in Hy. rewrite Hy. exact IH.
Qed.

(** An item that exceeds all before it and is not exceeded after it wins. *)
Lemma max_by_found (pre post : list A) (m : A) :
  Forall (fun y => key y < key m) pre ->
  Forall (fun y => key y <= key m) post ->
  forall b, key b < key m ->
  fold_left (fun best y => if Qltb (key best) (key y) then y else best)
    (pre ++ m :: post) b = m.
Proof.
  intros Hpre Hpost. induction Hpre as [| y pre Hy _ IH]; intros b Hb.
  - cbn [app fold_left]. apply Qltb_true in Hb. rewrite Hb.
    apply (max_by_stays post m Hpost).
  - cbn [app fold_left]. apply IH. destruct (Qltb (key b) (key y)); assumption.
Qed.

Lemma max_by_cons (x y : A) (l : list A) :
  max_by key x (y :: l)
  = max_by key (if Qltb (key x) (key y) then y else x) l.
Proof. reflexivity. Qed.

(** [max] returns the first of the items with the greatest key. *)
Lemma max_by_first_maximum (l : list A) :
  forall x, exists pre post,
    x :: l = pre ++ max_by key x l :: post /\
    Forall (fun y => key y < key (max_by key x l)) pre /\
    Forall (fun y => key y <= key (max_by key x l)) post.
Proof.
  induction l as [| y l IH]; intros x.
  - exists [], []. repeat split; constructor.
  - rewrite max_by_cons. destruct (Qltb (key x) (key y)) eqn:E.
    + apply Qltb_true in E. destruct (IH y) as (pre & post & Hd & Hpre & Hpost).
      remember (max_by key y l) as m eqn:Em. clear Em IH.
      exists (x :: pre), post. rewrite Hd. split; [reflexivity |].
      split; [| exact Hpost]. constructor; [| exact Hpre].
      destruct pre as [| p pre].
      * injection Hd as Hy _. rewrite <- Hy. exact E.
      * injection Hd as Hy _. subst p. inversion Hpre; subst. lra.
    + apply Qltb_false in E. destruct (IH x) as (pre & post & Hd & Hpre & Hpost).
      remember (max_by key x l) as m eqn:Em. clear Em IH.
      destruct pre as [| p pre].
      * injection Hd as Hx Hl. subst m l. exists [], (y :: post).
        split; [reflexivity |]. split; [constructor |].
        constructor; [exact E | exact Hpost].
      * injection Hd as Hx Hl. subst p l. exists (x :: y :: pre), post.
        split; [reflexivity |]. split; [| exact Hpost].
        inversion Hpre; subst. constructor; [assumption |].
        constructor; [lra | assumption].
Qed.

(** The winner of a list is the winner of every selection that holds it. *)
Lemma max_by_filter (f : A -> bool) (x : A) (l : list A) :
  f (max_by key x l) = true ->
  exists y l', List.filter f (x :: l) = y :: l' /\
    max_by key y l' = max_by key x l.
Proof.
  intros Hf. destruct (max_by_first_maximum l x) as (pre & post & Hd & Hpre & Hpost).
  set (m := max_by key x l) in *. rewrite Hd, List.filter_app. cbn [List.filter].
  rewrite Hf.
  assert (Forall (fun y => key y < key m) (List.filter f pre)) as Hpre'.
  { rewrite List.Forall_forall in *. intros y Hy. apply Hpre.
    apply filter_In in Hy. tauto. }
  assert (Forall (fun y => key y <= key m) (List.filter f post)) as Hpost'.
  { rewrite List.Forall_forall in *. intros y Hy. apply Hpost.
    apply filter_In in Hy. tauto. }
  destruct (List.filter f pre) as [| p pre'] eqn:Ep.
  - exists m, (List.filter f post). split; [reflexivity |].
    apply max_by_stays, Hpost'.
  - exists p, (pre' ++ m :: List.filter f post). split; [reflexivity |].
    inversion Hpre'; subst. apply max_by_found; assumption.
Qed.

End Winner.

(** ** The closing report *)

Section Report.
Import Chunking Benchmark.
Local Open Scope Q_scope.

(** X14.  The configuration the report names as the overall best has the
    greatest average similarity of all results, and of several that share it
    the one that ran first. *)
Theorem overall_best_is_first_maximum (all_results : list results) (s : summary) :
  summarize all_results = Ok s ->
  exists pre post,
    all_results = pre ++ overall_best s :: post /\
    Forall (fun r => avg_similarity r < avg_similarity (overall_best s)) pre /\
    Forall (fun r => avg_similarity r <= avg_similarity (overall_best s)) post.
Proof.
  unfold summarize. destruct all_results as [| r rs]; [discriminate |].
  intros [= <-]. cbn [overall_best]. apply max_by_first_maximum.
Qed.

Lemma best_of_filter (f : results -> bool) (r : results) (rs : list results) :
  f (max_by avg_similarity r rs) = true ->
  best_of (List.filter f (r :: rs)) = Some (max_by avg_similarity r rs).
Proof.
  intros Hf. destruct (max_by_filter avg_similarity f r rs Hf) as (y & l' & -> & E).
  cbn [best_of]. rewrite E. reflexivity.
Qed.

Lemma overall_best_in_method (all_results : list results) (s : summary) :
  summarize all_results = Ok s ->
  (contains sentence_marker (config_name (overall_best s)) = true ->
   best_sentence s = Some (overall_best s)) /\
  (contains token_marker (config_name (overall_best s)) = true ->
   best_token s = Some (overall_best s)) /\
  (contains window_marker (config_name (overall_best s)) = true ->
   best_window s = Some (overall_best s)).
Proof.
  unfold summarize. destruct all_results as [| r rs]; [discriminate |].
  intros [= <-]. cbn [overall_best best_sentence best_token best_window].
  split; [| split]; intros H;
    apply (best_of_filter (fun r => contains _ (config_name r))); exact H.
Qed.

(** X15.  The overall best is also the best of its own method: when its name
    carries the marker of a method, the report names it as the best
    configuration of that method. *)
Theorem overall_best_is_best_of_its_method (all_results : list results)
    (s : summary) :
  summarize all_results = Ok s ->
  (contains sentence_marker (config_name (overall_best s)) = true ->
   best_sentence s = Some (overall_best s)) /\
  (contains token_marker (config_name (overall_best s)) = true ->
   best_token s = Some (overall_best s)) /\
  (contains window_marker (config_name (overall_best s)) = true ->
   best_window s = Some (overall_best s)).
Proof. apply overall_best_in_method. Qed.

Lemma method_choice (a b c : Q) (m : string) :
  m = (max_by snd (sentence_method, a)
         [(token_method, b); (window_method, c)]).1 ->
  (m = sentence_method /\ b <= a /\ c <= a) \/
  (m = token_method /\ a < b /\ c <= b) \/
  (m = window_method /\ a < c /\ b < c).
Proof.
  intros ->. unfold max_by. cbn [fold_left snd].
  destruct (Qltb a b) eqn:Eab; cbn [snd].
  - apply Qltb_true in Eab. destruct (Qltb b c) eqn:Ebc; cbn [fst].
    + apply Qltb_true in Ebc. right. right.
      split; [reflexivity | split; [lra | exact Ebc]].
    + apply Qltb_false in Ebc. right. left.
      split; [reflexivity | split; assumption].
  - apply Qltb_false in Eab. destruct (Qltb a c) eqn:Eac; cbn [fst].
    + apply Qltb_true in Eac. right. right.
      split; [reflexivity | split; [exact Eac | lra]].
    + apply Qltb_false in Eac. left.
      split; [reflexivity | split; assumption].
Qed.

(** X16.  The method the advice is given for has the greatest of the three
    average similarities; a tie goes to sentence splitting before token
    splitting, and to token splitting before the sentence window. *)
Theorem best_method_is_first_maximum (all_results : list results) (s : summary) :
  summarize all_results = Ok s ->
  (best_method s = sentence_method /\
   avg_token_similarity s <= avg_sentence_similarity s /\
   avg_window_similarity s <= avg_sentence_similarity s) \/
  (best_method s = token_method /\
   avg_sentence_similarity s < avg_token_similarity s /\
   avg_window_similarity s <= avg_token_similarity s) \/
  (best_method s = window_method /\
   avg_sentence_similarity s < avg_window_similarity s /\
   avg_token_similarity s < avg_window_similarity s).
Proof.
  unfold summarize. destruct all_results as [| r rs]; [discriminate |].
  intros [= <-]. apply method_choice. reflexivity.
Qed.

Lemma max_by_upper (r : results) (rs : list results) :
  Forall (fun y => avg_similarity y <= avg_similarity (max_by avg_similarity r rs))
    (r :: rs).
Proof.
  destruct (max_by_first_maximum avg_similarity rs r) as (pre & post & Hd & Hpre & Hpost).
  rewrite Hd. apply Forall_app. split.
  - eapply Forall_impl; [exact Hpre |]. intros y Hy. cbn beta in Hy. lra.
  - constructor; [lra | exact Hpost].
Qed.

Lemma max_by_member (r : results) (rs : list results) :
  In (max_by avg_similarity r rs) (r :: rs).
Proof.
  destruct (max_by_first_maximum avg_similarity rs r) as (pre & post & Hd & _).
  rewrite Hd. apply in_or_app. right. left. reflexivity.
Qed.

Lemma summarize_groups (all_results : list results) (s : summary) :
  summarize all_results = Ok s ->
  (sentence_results s
   = List.filter (fun r => contains sentence_marker (config_name r)) all_results /\
   token_results s
   = List.filter (fun r => contains token_marker (config_name r)) all_results /\
   window_results s
   = List.filter (fun r => contains window_marker (config_name r)) all_results) /\
  best_sentence s = best_of (sentence_results s) /\
  best_token s = best_of (token_results s) /\
  best_window s = best_of (window_results s).
Proof.
  unfold summarize. destruct all_results as [| r rs]; [discriminate |].
  intros [= <-]. repeat split; reflexivity.
Qed.

Lemma overall_best_member (all_results : list results) (s : summary) :
  summarize all_results = Ok s -> In (overall_best s) all_results.
Proof.
  unfold summarize. destruct all_results as [| r rs]; [discriminate |].
  intros [= <-]. apply max_by_member.
Qed.

Lemma group_best_bounds (f : results -> bool) (r : results) (rs : list results)
    (b : results) :
  best_of (List.filter f (r :: rs)) = Some b ->
  In b (List.filter f (r :: rs)) /\
  Forall (fun y => avg_similarity y <= avg_similarity b)
    (List.filter f (r :: rs)) /\
  avg_similarity b <= avg_similarity (max_by avg_similarity r rs).
Proof.
  destruct (List.filter f (r :: rs)) as [| y l] eqn:E; [discriminate |].
  cbn [best_of]. intros [= <-].
  split; [apply max_by_member |]. split; [apply max_by_upper |].
  pose proof (max_by_member y l) as Hin. rewrite <- E in Hin.
  apply filter_In in Hin as [Hin _].
  pose proof (max_by_upper r rs) as Hall. rewrite List.Forall_forall in Hall.
  apply Hall, Hin.
Qed.

(** X17.  The configuration the report names as the best of a method is one
    of the results of that method, no result of the method has a greater
    average similarity, and it is never above the overall best. *)
Theorem method_best_is_maximal_in_its_method (all_results : list results)
    (s : summary) :
  summarize all_results = Ok s ->
  (forall b, best_sentence s = Some b ->
     In b (sentence_results s) /\
     Forall (fun r => avg_similarity r <= avg_similarity b) (sentence_results s) /\
     avg_similarity b <= avg_similarity (overall_best s)) /\
  (forall b, best_token s = Some b ->
     In b (token_results s) /\
     Forall (fun r => avg_similarity r <= avg_similarity b) (token_results s) /\
     avg_similarity b <= avg_similarity (overall_best s)) /\
  (forall b, best_window s = Some b ->
     In b (window_results s) /\
     Forall (fun r => avg_similarity r <= avg_similarity b) (window_results s) /\
     avg_similarity b <= avg_similarity (overall_best s)).
Proof.
  unfold summarize. destruct all_results as [| r rs]; [discriminate |].
  intros [= <-].
  cbn [best_sentence best_token best_window overall_best
       sentence_results token_results window_results].
  split; [| split]; intros b Hb;
    apply (group_best_bounds (fun r => contains _ (config_name r)) r rs b Hb).
Qed.

End Report.

(** ** The evaluation functions *)

Section Evaluation.
Import Chunking.
Variables Doc Node Splitter WindowParser : Type.
Variable get_nodes_from_documents : Splitter -> list Doc -> outcome (list Node).
Variable sentence_splitter : nat -> nat -> outcome Splitter.
Variable build_window_nodes_from_documents
  : WindowParser -> list Node -> outcome (list Node).
Variable show_node : Node -> outcome unit.
Variable show_window_node : Node -> outcome unit.
Variable run_query : bool -> list Node -> string -> outcome Response.

Lemma obind_ok_inv {A B : Type} (m : outcome A) (f : A -> outcome B) (b : B) :
  m ≫= f = Ok b -> exists a, m = Ok a /\ f a = Ok b.
Proof.
  destruct m as [a | e]; [| discriminate]. intros H. exists a.
  split; [reflexivity | exact H].
Qed.

Lemma obind_raise_inv {A B : Type} (m : outcome A) (f : A -> outcome B) (e : exn) :
  m ≫= f = Raise e -> m = Raise e \/ exists a, m = Ok a /\ f a = Raise e.
Proof.
  destruct m as [a | e']; intros H.
  - right. exists a. split; [reflexivity | exact H].
  - left. injection H as ->. reflexivity.
Qed.

Lemma obind_raise_iff {A B : Type} (m : outcome A) (f : A -> outcome B) (e : exn) :
  m ≫= f = Raise e <-> m = Raise e \/ exists a, m = Ok a /\ f a = Raise e.
Proof.
  split; [apply obind_raise_inv |].
  intros [-> | (a & -> & H)]; [reflexivity | exact H].
Qed.

Lemma first_failing_nil {A : Type} (ok : A -> Prop) (fails : A -> exn -> Prop)
    (e : exn) :
  ~ first_failing ok fails [] e.
Proof. intros (pre & x & post & H & _). destruct pre; discriminate. Qed.

Lemma first_failing_cons {A : Type} (ok : A -> Prop) (fails : A -> exn -> Prop)
    (x : A) (l : list A) (e : exn) :
  first_failing ok fails (x :: l) e <->
  fails x e \/ (ok x /\ first_failing ok fails l e).
Proof.
  split.
  - intros (pre & y & post & H & Hok & Hf). destruct pre as [| p pre].
    + injection H as -> ->. left. exact Hf.
    + injection H as -> ->. right. inversion Hok as [| ? ? Hp Hpre]; subst.
      split; [exact Hp |]. exists pre, y, post.
      split; [reflexivity |]. split; assumption.
  - intros [Hf | [Hx (pre & y & post & -> & Hok & Hf)]].
    + exists [], x, l. split; [reflexivity |]. split; [constructor | exact Hf].
    + exists (x :: pre), y, post. split; [reflexivity |].
      split; [constructor; assumption | exact Hf].
Qed.

Lemma show_each_ok_iff {N : Type} (show : N -> outcome unit) (nodes : list N) :
  show_each show nodes = Ok tt <-> Forall (fun n => show n = Ok tt) nodes.
Proof.
  induction nodes as [| n nodes IH]; cbn [show_each].
  - split; [constructor | reflexivity].
  - destruct (show n) as [[] | e'] eqn:E; cbn [mbind outcome_bind].
    + rewrite IH. split.
      * intros H. constructor; [exact E | exact H].
      * intros H. inversion H; assumption.
    + split; [discriminate |]. intros H. inversion H as [| ? ? Hn _].
      rewrite E in Hn. discriminate.
Qed.

Lemma show_each_raise_iff {N : Type} (show : N -> outcome unit)
    (nodes : list N) (e : exn) :
  show_each show nodes = Raise e <->
  first_failing (fun n => show n = Ok tt) (fun n e => show n = Raise e) nodes e.
Proof.
  induction nodes as [| n nodes IH]; cbn [show_each].
  - split; [discriminate |]. intros H. destruct (first_failing_nil _ _ _ H).
  - rewrite first_failing_cons.
    destruct (show n) as [[] | e'] eqn:E; cbn [mbind outcome_bind].
    + rewrite IH. split.
      * intros H. right. split; [reflexivity | exact H].
      * intros [H | [_ H]]; [discriminate | exact H].
    + split.
      * intros [= ->]. left. reflexivity.
      * intros [[= ->] | [H _]]; [reflexivity | discriminate].
Qed.

Lemma show_sources_ok_iff (nodes : list NodeWithScore) :
  show_sources nodes = Ok tt <-> Forall source_ok nodes.
Proof.
  induction nodes as [| n nodes IH]; cbn [show_sources].
  - split; [constructor | reflexivity].
  - destruct (score n) as [q |] eqn:Es.
    + destruct (node_text n) as [t | e'] eqn:Et; cbn [mbind outcome_bind].
      * rewrite IH. split.
        -- intros H. constructor; [| exact H].
           split; [exists q; exact Es | exists t; exact Et].
        -- intros H. inversion H; assumption.
      * split; [discriminate |]. intros H. inversion H as [| ? ? [_ [t Ht]] _].
        subst. rewrite Et in Ht. discriminate.
    + split; [discriminate |]. intros H. inversion H as [| ? ? [[s Hs] _] _].
      subst. rewrite Es in Hs. discriminate.
Qed.

Lemma show_sources_raise_iff (nodes : list NodeWithScore) (e : exn) :
  show_sources nodes = Raise e <-> first_failing source_ok source_fails nodes e.
Proof.
  induction nodes as [| n nodes IH]; cbn [show_sources].
  - split; [discriminate |]. intros H. destruct (first_failing_nil _ _ _ H).
  - rewrite first_failing_cons. unfold source_fails at 1, source_ok at 1.
    destruct (score n) as [q |] eqn:Es.
    + destruct (node_text n) as [t | e'] eqn:Et; cbn [mbind outcome_bind].
      * rewrite IH. split.
        -- intros H. right. split; [| exact H].
           split; [exists q; reflexivity | exists t; reflexivity].
        -- intros [[[H _] | [_ H]] | [_ H]]; [discriminate .. | exact H].
      * split.
        -- intros [= ->]. left. right. split; [exists q |]; reflexivity.
        -- intros [[[H _] | [_ [= ->]]] | [[_ [t H]] _]];
             [discriminate | reflexivity | discriminate].
    + split.
      * intros [= <-]. left. left. split; reflexivity.
      * intros [[[_ ->] | [[s H] _]] | [[[s H] _] _]];
          [reflexivity | discriminate ..].
Qed.

Lemma show_sources_scores (nodes : list NodeWithScore) :
  show_sources nodes = Ok tt -> exists ss, scores nodes = Ok ss.
Proof.
  induction nodes as [| n nodes IH]; cbn [show_sources scores].
  - intros _. exists []. reflexivity.
  - destruct (score n) as [q |]; [| discriminate].
    destruct (node_text n) as [t | e']; [| discriminate].
    cbn [mbind outcome_bind]. intros H. destruct (IH H) as [ss ->].
    exists (q :: ss). reflexivity.
Qed.

Lemma average_similarity_ok (l : list NodeWithScore) (ss : list Q) :
  scores l = Ok ss -> exists q, average_similarity l = Ok q.
Proof.
  intros H. unfold average_similarity. destruct l as [| n l].
  - exists 0%Q. reflexivity.
  - rewrite H. eexists. reflexivity.
Qed.

(** Gathering the metrics never fails: the report fails only in the prints
    of the sources. *)
Lemma report_raise (name : string) (nodes : list Node) (resp : Response)
    (t0 t1 : Q) (e : exn) :
  report Node name nodes resp t0 t1 = Raise e <->
  first_failing source_ok source_fails (source_nodes resp) e.
Proof.
  rewrite <- show_sources_raise_iff. unfold report.
  destruct (show_sources (source_nodes resp)) as [[] | e'] eqn:E;
    cbn [mbind outcome_bind].
  - destruct (show_sources_scores _ E) as [ss Hs].
    destruct (average_similarity_ok _ _ Hs) as [q ->]. cbn [mbind outcome_bind].
    split; discriminate.
  - split; intros [= ->]; reflexivity.
Qed.

Lemma report_name (name : string) (nodes : list Node) (resp : Response)
    (t0 t1 : Q) (r : results) :
  report Node name nodes resp t0 t1 = Ok r -> config_name r = name.
Proof.
  unfold report. intros H.
  apply obind_ok_inv in H as (u & _ & H).
  apply obind_ok_inv in H as (q & _ & H).
  injection H as <-. reflexivity.
Qed.

Lemma after_split_raise (show : Node -> outcome unit) (post : bool)
    (nodes : list Node) (query name : string) (t0 t1 : Q) (e : exn) :
  (_ ← show_each show (take 3 nodes);
   resp ← run_query post nodes query;
   report Node name nodes resp t0 t1) = Raise e <->
  fails_after_split show run_query post nodes query e.
Proof.
  unfold fails_after_split, shown.
  rewrite <- show_each_raise_iff, <- show_each_ok_iff.
  destruct (show_each show (take 3 nodes)) as [[] | e'];
    cbn [mbind outcome_bind].
  - rewrite obind_raise_iff. split.
    + intros [H | (resp & H & Hr)].
      * right. split; [reflexivity |]. left. exact H.
      * right. split; [reflexivity |]. right. exists resp.
        split; [exact H |]. apply report_raise in Hr. exact Hr.
    + intros [H | [_ [H | (resp & H & Hr)]]].
      * discriminate.
      * left. exact H.
      * right. exists resp. split; [exact H |]. apply report_raise. exact Hr.
  - split.
    + intros [= ->]. left. reflexivity.
    + intros [[= ->] | [H _]]; [reflexivity | discriminate].
Qed.

(** X18.  An evaluation fails exactly where its first failing step fails,
    and with that step's exception: making the nodes (for the window
    evaluation: making the base splitter, the base nodes or the window
    nodes), showing one of the first three nodes, the query, or printing a
    source, which raises [TypeError] for a source without a score.  The
    nodes after the third are not shown, and gathering the metrics never
    fails. *)
Theorem evaluation_fails_at_first_failing_step
    (splitter : Splitter) (window : WindowParser) (documents : list Doc)
    (query name : string) (t0 t1 : Q) (e : exn) :
  (evaluate_splitter Doc Node Splitter get_nodes_from_documents show_node
     run_query splitter documents query name t0 t1 = Raise e <->
   get_nodes_from_documents splitter documents = Raise e \/
   exists nodes,
     get_nodes_from_documents splitter documents = Ok nodes /\
     fails_after_split show_node run_query false nodes query e) /\
  (evaluate_sentence_window_splitter Doc Node Splitter WindowParser
     get_nodes_from_documents sentence_splitter
     build_window_nodes_from_documents show_window_node run_query
     window documents query name t0 t1 = Raise e <->
   sentence_splitter 512 50 = Raise e \/
   exists base_splitter,
     sentence_splitter 512 50 = Ok base_splitter /\
     (get_nodes_from_documents base_splitter documents = Raise e \/
      exists base_nodes,
        get_nodes_from_documents base_splitter documents = Ok base_nodes /\
        (build_window_nodes_from_documents window base_nodes = Raise e \/
         exists nodes,
           build_window_nodes_from_documents window base_nodes = Ok nodes /\
           fails_after_split show_window_node run_query true nodes query e))).
Proof.
  split.
  - unfold evaluate_splitter. rewrite obind_raise_iff.
    setoid_rewrite after_split_raise. reflexivity.
  - unfold evaluate_sentence_window_splitter. rewrite obind_raise_iff.
    setoid_rewrite obind_raise_iff. setoid_rewrite obind_raise_iff.
    setoid_rewrite after_split_raise. reflexivity.
Qed.

End Evaluation.

(** ** The benchmark run *)

Section Runs.
Import Chunking Benchmark.

Lemma run_configurations_ok {C : Type} (evaluate : C -> nat -> outcome results)
    (configs : list C) :
  forall acc out,
    run_configurations evaluate configs acc = Ok out ->
    exists rs, out = acc ++ rs /\
      Forall2 (fun c r => exists run, evaluate c run = Ok r) configs rs.
Proof.
  induction configs as [| c configs IH]; intros acc out H.
  - injection H as <-. exists []. rewrite app_nil_r.
    split; [reflexivity | constructor].
  - cbn [run_configurations] in H.
    apply obind_ok_inv in H as (r & Hr & H).
    apply IH in H as (rs & -> & Hrs). exists (r :: rs).
    rewrite <- app_assoc. split; [reflexivity |].
    constructor; [exists (length acc); exact Hr | exact Hrs].
Qed.

Lemma run_configurations_raise {C : Type} (evaluate : C -> nat -> outcome results)
    (configs : list C) (e : exn) :
  forall acc,
    run_configurations evaluate configs acc = Raise e ->
    exists c run, In c configs /\ evaluate c run = Raise e.
Proof.
  induction configs as [| c configs IH]; intros acc H; [discriminate |].
  cbn [run_configurations] in H.
  apply obind_raise_inv in H as [H | (r & _ & H)].
  - exists c, (length acc). split; [left; reflexivity | exact H].
  - apply IH in H as (c' & run & Hin & H). exists c', run.
    split; [right; exact Hin | exact H].
Qed.

Lemma names_of_run {C : Type} (evaluate : C -> nat -> outcome results)
    (label : C -> string) (configs : list C) (rs : list results) :
  (forall c run r, evaluate c run = Ok r -> config_name r = label c) ->
  Forall2 (fun c r => exists run, evaluate c run = Ok r) configs rs ->
  config_name <$> rs = label <$> configs.
Proof.
  intros Hname. induction 1 as [| c r configs rs [run Hr] _ IH]; [reflexivity |].
  cbn [fmap list_fmap]. f_equal; [eapply Hname; exact Hr | exact IH].
Qed.

Lemma map_filter_comm {A B : Type} (g : A -> B) (p : B -> bool) (l : list A) :
  g <$> List.filter (fun a => p (g a)) l = List.filter p (g <$> l).
Proof.
  induction l as [| a l IH]; [reflexivity |].
  cbn [List.filter fmap list_fmap]. destruct (p (g a)).
  - cbn [fmap list_fmap]. f_equal. exact IH.
  - exact IH.
Qed.

End Runs.

Section MainRun.
Import Chunking Benchmark.
Variables Doc Node Splitter WindowParser : Type.
Variable get_nodes_from_documents : Splitter -> list Doc -> outcome (list Node).
Variable sentence_splitter : nat -> nat -> outcome Splitter.
Variable build_window_nodes_from_documents
  : WindowParser -> list Node -> outcome (list Node).
Variable show_node : Node -> outcome unit.
Variable show_window_node : Node -> outcome unit.
Variable run_query : bool -> list Node -> string -> outcome Response.
Variable sentence_splitter_by_paragraph : nat -> nat -> string -> outcome Splitter.
Variable token_text_splitter : nat -> nat -> string -> outcome Splitter.
Variable sentence_window_parser : nat -> string -> string -> outcome WindowParser.
Variable getenv : string -> option string.
Variable data_dir_exists : bool.
Variable listdir_data_dir : outcome (list string).
Variable reader_load_data : outcome (list Doc).
Variable clock : nat -> Q * Q.

Lemma evaluate_splitter_name (splitter : Splitter) (documents : list Doc)
    (query n : string) (t0 t1 : Q) (r : results) :
  evaluate_splitter Doc Node Splitter get_nodes_from_documents show_node
    run_query splitter documents query n t0 t1 = Ok r ->
  config_name r = n.
Proof.
  unfold evaluate_splitter. intros H.
  apply obind_ok_inv in H as (nodes & _ & H).
  apply obind_ok_inv in H as (u & _ & H).
  apply obind_ok_inv in H as (resp & _ & H). eapply report_name. exact H.
Qed.

Lemma evaluate_sentence_name (documents : list Doc) (c : configuration)
    (run : nat) (r : results) :
  evaluate_sentence Doc Node Splitter get_nodes_from_documents show_node
    run_query sentence_splitter_by_paragraph clock documents c run = Ok r ->
  config_name r = name c.
Proof.
  unfold evaluate_sentence. intros H.
  apply obind_ok_inv in H as (splitter & _ & H).
  eapply evaluate_splitter_name. exact H.
Qed.

Lemma evaluate_token_name (documents : list Doc) (c : configuration)
    (run : nat) (r : results) :
  evaluate_token Doc Node Splitter get_nodes_from_documents show_node
    run_query token_text_splitter clock documents c run = Ok r ->
  config_name r = name c.
Proof.
  unfold evaluate_token. intros H.
  apply obind_ok_inv in H as (splitter & _ & H).
  eapply evaluate_splitter_name. exact H.
Qed.

Lemma evaluate_window_name (documents : list Doc) (c : window_configuration)
    (run : nat) (r : results) :
  evaluate_window Doc Node Splitter WindowParser get_nodes_from_documents
    sentence_splitter build_window_nodes_from_documents show_window_node
    run_query sentence_window_parser clock documents c run = Ok r ->
  config_name r = window_name c.
Proof.
  unfold evaluate_window, evaluate_sentence_window_splitter. intros H.
  apply obind_ok_inv in H as (splitter & _ & H).
  apply obind_ok_inv in H as (base & _ & H).
  apply obind_ok_inv in H as (base_nodes & _ & H).
  apply obind_ok_inv in H as (nodes & _ & H).
  apply obind_ok_inv in H as (u & _ & H).
  apply obind_ok_inv in H as (resp & _ & H). eapply report_name. exact H.
Qed.

Lemma main_ok_inv (s : summary) :
  main Doc Node Splitter WindowParser get_nodes_from_documents
    sentence_splitter build_window_nodes_from_documents show_node
    show_window_node run_query sentence_splitter_by_paragraph
    token_text_splitter sentence_window_parser getenv data_dir_exists
    listdir_data_dir reader_load_data clock
  = Ok (Some s) ->
  exists all_results,
    summarize all_results = Ok s /\
    config_name <$> all_results =
      (name <$> sentence_configurations) ++ (name <$> token_configurations)
      ++ (window_name <$> sentence_window_configurations).
Proof.
  unfold main.
  destruct (getenv "DASHSCOPE_API_KEY") as [[| a k] |]; [discriminate | | discriminate].
  destruct (load_documents_from_data_folder _ _ _ _) as [documents | e];
    [| destruct e; discriminate].
  intros H.
  apply obind_ok_inv in H as (r1 & H1 & H).
  apply obind_ok_inv in H as (r2 & H2 & H).
  apply obind_ok_inv in H as (r3 & H3 & H).
  apply obind_ok_inv in H as (s' & Hs & H). injection H as ->.
  apply run_configurations_ok in H1 as (rs1 & -> & F1).
  apply run_configurations_ok in H2 as (rs2 & -> & F2).
  apply run_configurations_ok in H3 as (rs3 & -> & F3).
  exists (([] ++ rs1) ++ rs2 ++ rs3). rewrite app_assoc. split; [exact Hs |].
  rewrite app_nil_l, !fmap_app, <- app_assoc. f_equal; [| f_equal].
  - eapply names_of_run; [| exact F1]. apply evaluate_sentence_name.
  - eapply names_of_run; [| exact F2]. apply evaluate_token_name.
  - eapply names_of_run; [| exact F3]. apply evaluate_window_name.
Qed.

Lemma filter_names (p : string -> bool) (all_results : list results)
    (names : list string) :
  config_name <$> all_results = names ->
  config_name <$> List.filter (fun r => p (config_name r)) all_results
  = List.filter p names.
Proof. intros <-. apply map_filter_comm. Qed.

Lemma best_of_some (l : list results) (names : list string) :
  config_name <$> l = names -> names <> [] -> exists b, best_of l = Some b.
Proof.
  destruct l as [| r l]; intros <- Hne; [destruct Hne; reflexivity |].
  eexists. reflexivity.
Qed.

Lemma every_name_has_a_marker :
  Forall (fun n => contains sentence_marker n = true \/
                   contains token_marker n = true \/
                   contains window_marker n = true)
    ((name <$> sentence_configurations) ++ (name <$> token_configurations)
     ++ (window_name <$> sentence_window_configurations)).
Proof.
  repeat constructor;
    first [ left; vm_compute; reflexivity
          | right; left; vm_compute; reflexivity
          | right; right; vm_compute; reflexivity ].
Qed.

(** X19.  When [main] reaches its report, all fifteen configurations have
    run: the results of each method are those of its five configurations,
    in the order of the table; every method has a best configuration, and
    the overall best is one of the three. *)
Theorem main_reports_all_configurations (s : summary) :
  main Doc Node Splitter WindowParser get_nodes_from_documents
    sentence_splitter build_window_nodes_from_documents show_node
    show_window_node run_query sentence_splitter_by_paragraph
    token_text_splitter sentence_window_parser getenv data_dir_exists
    listdir_data_dir reader_load_data clock
  = Ok (Some s) ->
  config_name <$> sentence_results s = name <$> sentence_configurations /\
  config_name <$> token_results s = name <$> token_configurations /\
  config_name <$> window_results s
    = window_name <$> sentence_window_configurations /\
  exists bs bt bw,
    best_sentence s = Some bs /\ best_token s = Some bt /\
    best_window s = Some bw /\
    (overall_best s = bs \/ overall_best s = bt \/ overall_best s = bw).
Proof.
  intros H. apply main_ok_inv in H as (all_results & Hs & Hnames).
  pose proof (overall_best_member all_results s Hs) as Hin.
  pose proof (overall_best_in_method all_results s Hs) as (Ob1 & Ob2 & Ob3).
  pose proof (summarize_groups all_results s Hs)
    as ((G1 & G2 & G3) & B1 & B2 & B3).
  pose proof (filter_names (contains sentence_marker) _ _ Hnames) as N1.
  pose proof (filter_names (contains token_marker) _ _ Hnames) as N2.
  pose proof (filter_names (contains window_marker) _ _ Hnames) as N3.
  rewrite <- G1 in N1. rewrite <- G2 in N2. rewrite <- G3 in N3.
  split; [rewrite N1; vm_compute; reflexivity |].
  split; [rewrite N2; vm_compute; reflexivity |].
  split; [rewrite N3; vm_compute; reflexivity |].
  destruct (best_of_some _ _ N1) as [bs Hbs]; [vm_compute; discriminate |].
  destruct (best_of_some _ _ N2) as [bt Hbt]; [vm_compute; discriminate |].
  destruct (best_of_some _ _ N3) as [bw Hbw]; [vm_compute; discriminate |].
  rewrite <- B1 in Hbs. rewrite <- B2 in Hbt. rewrite <- B3 in Hbw.
  exists bs, bt, bw.
  split; [exact Hbs |]. split; [exact Hbt |]. split; [exact Hbw |].
  assert (In (config_name (overall_best s)) (config_name <$> all_results)) as Hn.
  { apply in_map. exact Hin. }
  rewrite Hnames in Hn.
  pose proof every_name_has_a_marker as Hall.
  rewrite List.Forall_forall in Hall.
  destruct (Hall _ Hn) as [M | [M | M]].
  - left. apply Ob1 in M. rewrite Hbs in M. injection M as ->. reflexivity.
  - right. left. apply Ob2 in M. rewrite Hbt in M. injection M as ->. reflexivity.
  - right. right. apply Ob3 in M. rewrite Hbw in M. injection M as ->. reflexivity.
Qed.

Lemma load_documents_value_error :
  load_documents_from_data_folder Doc data_dir_exists listdir_data_dir
    reader_load_data = Raise ValueError <->
  data_dir_exists = false \/ listdir_data_dir = Ok [] \/
  listdir_data_dir = Raise ValueError \/
  (exists x xs, listdir_data_dir = Ok (x :: xs)) /\
  reader_load_data = Raise ValueError.
Proof.
  unfold load_documents_from_data_folder.
  destruct data_dir_exists; cbn [negb].
  - destruct listdir_data_dir as [[| x xs] | e]; cbn.
    + split; [intros _; right; left; reflexivity | reflexivity].
    + split.
      * intros H. right. right. right.
        split; [exists x, xs; reflexivity | exact H].
      * intros [H | [H | [H | [_ H]]]]; [discriminate .. | exact H].
    + split.
      * intros [= ->]. right. right. left. reflexivity.
      * intros [H | [H | [[= ->] | [(x & xs & H) _]]]];
          [discriminate .. | reflexivity | discriminate].
  - split; [intros _; left; reflexivity | reflexivity].
Qed.

Lemma summarize_nonempty (all_results : list results) (e : exn) :
  summarize all_results = Raise e -> all_results = [].
Proof. destruct all_results; [reflexivity | discriminate]. Qed.

(** X20.  [main] returns before any evaluation exactly when the API key is
    missing or empty, or loading the documents raises [ValueError]: the data
    folder is missing or empty, or listing or reading it raises that
    exception.  A run that gets past loading never ends without a report
    unless it raises. *)
Theorem main_returns_early_iff :
  main Doc Node Splitter WindowParser get_nodes_from_documents
    sentence_splitter build_window_nodes_from_documents show_node
    show_window_node run_query sentence_splitter_by_paragraph
    token_text_splitter sentence_window_parser getenv data_dir_exists
    listdir_data_dir reader_load_data clock
  = Ok None <->
  getenv "DASHSCOPE_API_KEY" = None \/
  getenv "DASHSCOPE_API_KEY" = Some EmptyString \/
  data_dir_exists = false \/ listdir_data_dir = Ok [] \/
  listdir_data_dir = Raise ValueError \/
  (exists x xs, listdir_data_dir = Ok (x :: xs)) /\
  reader_load_data = Raise ValueError.
Proof.
  rewrite <- load_documents_value_error. unfold main.
  destruct (getenv "DASHSCOPE_API_KEY") as [[| a k] |].
  - split; [intros _; right; left; reflexivity | reflexivity].
  - destruct (load_documents_from_data_folder _ _ _ _) as [documents | e].
    + split.
      * intros H.
        apply obind_ok_inv in H as (r1 & _ & H).
        apply obind_ok_inv in H as (r2 & _ & H).
        apply obind_ok_inv in H as (r3 & _ & H).
        apply obind_ok_inv in H as (s & _ & H). discriminate.
      * intros [H | [H | H]]; discriminate.
    + split.
      * intros H. right. right. destruct e; try discriminate. reflexivity.
      * intros [H | [H | H]]; [discriminate .. |]. injection H as ->. reflexivity.
  - split; [intros _; left; reflexivity | reflexivity].
Qed.

(** X21.  [main] raises only what loading the documents raised (other than
    [ValueError], which ends the run quietly) or what the run of one of the
    fifteen configurations raised - making its splitter or its evaluation,
    [ValueError] included.  The report itself never fails: it is only
    reached with all fifteen results, so no [max] is taken of an empty
    list. *)
Theorem main_raises_only_from_loading_or_a_run (e : exn) :
  main Doc Node Splitter WindowParser get_nodes_from_documents
    sentence_splitter build_window_nodes_from_documents show_node
    show_window_node run_query sentence_splitter_by_paragraph
    token_text_splitter sentence_window_parser getenv data_dir_exists
    listdir_data_dir reader_load_data clock
  = Raise e ->
  (e <> ValueError /\
   load_documents_from_data_folder Doc data_dir_exists listdir_data_dir
     reader_load_data = Raise e) \/
  exists documents,
    load_documents_from_data_folder Doc data_dir_exists listdir_data_dir
      reader_load_data = Ok documents /\
    ((exists c run,
        In c sentence_configurations /\
        evaluate_sentence Doc Node Splitter get_nodes_from_documents show_node
          run_query sentence_splitter_by_paragraph clock documents c run
        = Raise e) \/
     (exists c run,
        In c token_configurations /\
        evaluate_token Doc Node Splitter get_nodes_from_documents show_node
          run_query token_text_splitter clock documents c run = Raise e) \/
     (exists c run,
        In c sentence_window_configurations /\
        evaluate_window Doc Node Splitter WindowParser
          get_nodes_from_documents sentence_splitter
          build_window_nodes_from_documents show_window_node run_query
          sentence_window_parser clock documents c run = Raise e)).
Proof.
  unfold main.
  destruct (getenv "DASHSCOPE_API_KEY") as [[| a k] |]; [discriminate | | discriminate].
  destruct (load_documents_from_data_folder _ _ _ _) as [documents | e'].
  - intros H. right. exists documents. split; [reflexivity |].
    apply obind_raise_inv in H as [H | (r1 & H1 & H)].
    { apply run_configurations_raise in H as (c & run & Hin & H).
      left. exists c, run. split; assumption. }
    apply obind_raise_inv in H as [H | (r2 & H2 & H)].
    { apply run_configurations_raise in H as (c & run & Hin & H).
      right. left. exists c, run. split; assumption. }
    apply obind_raise_inv in H as [H | (r3 & H3 & H)].
    { apply run_configurations_raise in H as (c & run & Hin & H).
      right. right. exists c, run. split; assumption. }
    apply obind_raise_inv in H as [H | (s & _ & H)]; [| discriminate].
    apply summarize_nonempty in H. subst r3.
    apply run_configurations_ok in H3 as (rs3 & E & F3).
    inversion F3 as [| ? r ? ? _ _ E1 E2]. subst rs3.
    destruct r2; discriminate.
  - intros H. left. destruct e'; try discriminate; injection H as <-;
      (split; [discriminate | reflexivity]).
Qed.

End MainRun.

(** ** The further properties at concrete inputs *)

Import Chunking Directory Benchmark Scenario2.

Lemma load_data_of_two_images :
  exists w docs,
    load_data no_float every_file work_dir reader_AB
      (FileList ["a.png"; "b.jpg"]) None = (w, Ok docs) /\
    (Forall2 (document_of no_float work_dir reader_AB None) ["a.png"; "b.jpg"] docs /\
     length docs = length ["a.png"; "b.jpg"] /\
     Forall (fun f => loadable every_file f = true) ["a.png"; "b.jpg"] /\
     engine_calls w
     = List.map (fun f => Pathlib.str (Pathlib.parse f)) ["a.png"; "b.jpg"]).
Proof.
  eexists _, _. split; [reflexivity |].
  eapply (load_data_one_document_per_file no_float every_file work_dir reader_AB
           ["a.png"; "b.jpg"] None).
  reflexivity.
Defined.

Lemma load_data_stops_at_gif :
  exists w docs,
    load_data no_float every_file work_dir reader_AB (FileList ["a.png"]) None
    = (w, Ok docs) /\
    load_data no_float every_file work_dir reader_AB (OneFile "b.gif") None
    = ([], Raise ValueError) /\
    load_data no_float every_file work_dir reader_AB
      (FileList (["a.png"] ++ "b.gif" :: ["c.png"])) None
    = (w ++ [], Raise ValueError) /\
    engine_calls (w ++ [])
    = List.map (fun f => Pathlib.str (Pathlib.parse f)) ["a.png"]
      ++ (if loadable every_file "b.gif"
          then [Pathlib.str (Pathlib.parse "b.gif")] else []).
Proof.
  eexists _, _. split; [reflexivity |]. split; [reflexivity |].
  eapply (load_data_stops_at_first_failure no_float every_file work_dir reader_AB
            ["a.png"] ["c.png"] "b.gif" None); reflexivity.
Defined.

Lemma missing_png_raises_before_engine :
  no_file (Pathlib.str (Pathlib.parse "missing.png")) = false /\
  load_data no_float no_file work_dir reader_AB (OneFile "missing.png") None
  = ([], Raise FileNotFoundError) /\
  forall pre post w docs,
    load_data no_float no_file work_dir reader_AB (FileList pre) None
    = (w, Ok docs) ->
    load_data no_float no_file work_dir reader_AB
      (FileList (pre ++ "missing.png" :: post)) None
    = (w, Raise FileNotFoundError) /\
    engine_calls w = List.map (fun f => Pathlib.str (Pathlib.parse f)) pre.
Proof.
  split; [reflexivity |].
  apply (missing_file_raises_before_engine no_float no_file work_dir reader_AB
           "missing.png" None); reflexivity.
Defined.

Lemma scanned_document_carries_extra_info :
  exists w docs,
    load_data no_float every_file work_dir reader_AB (OneFile "scan.png")
      (Some extra_scanner) = (w, Ok docs) /\
    Forall (fun d =>
              dom (metadata d)
              = dom (default ∅ (Some extra_scanner))
                ∪ (list_to_set computed_keys : gset string) /\
              forall k v, default ∅ (Some extra_scanner) !! k = Some v ->
                          metadata d !! k = Some v) docs.
Proof.
  eexists _, _. split; [reflexivity |].
  eapply (every_document_carries_extra_info no_float every_file work_dir reader_AB
           (OneFile "scan.png") (Some extra_scanner)).
  reflexivity.
Defined.

Lemma batch_AB_keeps_both_texts :
  Forall2 (fun v q => to_float no_float v = Ok q)
    (take (length [VStr "A"; VStr "B"]) [VFloat (9 # 10); VFloat (8 # 10)])
    [9 # 10; 8 # 10]%Q /\
  exists b,
    collect_blocks no_float (VList (VDict dict_AB :: [])) = ([], Ok b) /\
    text_blocks b = [VStr "A"; VStr "B"] /\
    confidences b
    = imap (fun i _ => default 1%Q ([9 # 10; 8 # 10]%Q !! i)) [VStr "A"; VStr "B"] /\
    detailed_blocks b
    = imap (batch_detection [9 # 10; 8 # 10]%Q []) [VStr "A"; VStr "B"].
Proof.
  assert (Forall2 (fun v q => to_float no_float v = Ok q)
            (take (length [VStr "A"; VStr "B"]) [VFloat (9 # 10); VFloat (8 # 10)])
            [9 # 10; 8 # 10]%Q) as H.
  { repeat constructor. }
  split; [exact H |].
  apply (batch_shape_keeps_every_text no_float dict_AB [] [VStr "A"; VStr "B"]
           [VFloat (9 # 10); VFloat (8 # 10)] [] [9 # 10; 8 # 10]%Q);
    first [reflexivity | exact H].
Defined.

Lemma number_in_flat_list_raises :
  _process_ocr_result no_float work_dir reader flat_A_5 image None
  = ([], Raise TypeError) /\
  (keyed_or_nested flat_A_5 \/
   exists s rest v,
     flat_A_5 = VList (VStr s :: rest) /\ In v rest /\ truthy v = true /\
     is_text v = false /\ TypeError = TypeError /\ @nil event = []).
Proof.
  split; [reflexivity |].
  apply (exceptions_only_from_known_shapes no_float work_dir reader flat_A_5
           image None [] TypeError).
  reflexivity.
Defined.

Lemma text_of_flat_ABC :
  exists w txt md,
    _process_ocr_result no_float work_dir reader flat_ABC image None
    = (w, Ok (txt, md)) /\
    (txt = EmptyString <-> md !! "num_text_blocks" = Some (VInt 0)).
Proof.
  eexists _, _, _. split; [reflexivity |].
  eapply (text_empty_iff_no_text_block no_float work_dir reader flat_ABC image []).
  reflexivity.
Defined.

Lemma two_legacy_lines_accounted :
  collect_blocks no_float (VList (VList two_legacy_lines :: []))
  = ([PrintBadLine 1 (VList [VNone; VInt 7])],
     Ok {| text_blocks := [VStr "A"]; confidences := [9 # 10]%Q;
           detailed_blocks :=
             [{| d_text := VStr "A"; d_confidence := 9 # 10; d_bbox := VNone;
                 d_block_index := 0 |}] |}) /\
  (length [VStr "A"] + length [PrintBadLine 1 (VList [VNone; VInt 7])]
   <= length two_legacy_lines)%nat /\
  Forall (fun ev => exists idx line,
            ev = PrintBadLine idx line /\ two_legacy_lines !! idx = Some line)
    [PrintBadLine 1 (VList [VNone; VInt 7])].
Proof.
  assert (collect_blocks no_float (VList (VList two_legacy_lines :: []))
          = ([PrintBadLine 1 (VList [VNone; VInt 7])],
             Ok {| text_blocks := [VStr "A"]; confidences := [9 # 10]%Q;
                   detailed_blocks :=
                     [{| d_text := VStr "A"; d_confidence := 9 # 10;
                         d_bbox := VNone; d_block_index := 0 |}] |})) as H
    by (vm_compute; reflexivity).
  split; [exact H |].
  apply (nested_shape_accounts_for_lines no_float two_legacy_lines [] _ _ H).
Defined.

Lemma directory_of_notes_has_no_image :
  load_data_from_dir no_float no_file every_file every_file listing_notes
    listing_notes work_dir reader_AB "scans" false None
  = ([], Raise ValueError) /\
  load_data_from_dir no_float every_file every_file every_file listing_notes
    listing_notes work_dir reader_AB "scans" false None
  = ([PrintNoImages "scans"], Ok []).
Proof.
  split.
  - apply (directory_without_images no_float no_file every_file every_file
             listing_notes listing_notes work_dir reader_AB "scans" false None).
    reflexivity.
  - apply (directory_without_images no_float every_file every_file every_file
             listing_notes listing_notes work_dir reader_AB "scans" false None).
    + reflexivity.
    + repeat constructor.
Defined.

Lemma scans_directory_gives_one_document :
  every_file "scans" && every_file "scans" = true /\
  exists w docs,
    load_data_from_dir no_float every_file every_file every_file listing
      listing work_dir reader_AB "scans" false None = (w, Ok docs) /\
    Forall2 (document_of no_float work_dir reader_AB None) ["scans/a.png"] docs /\
    dir_engine_calls w = ["scans/a.png"].
Proof.
  split; [reflexivity |].
  apply (directory_gives_one_document_per_image no_float every_file every_file
           every_file listing listing work_dir reader_AB "scans" false None).
  - reflexivity.
  - intros f _. reflexivity.
  - constructor; [| constructor].
    eexists. eexists _, _, _, _. split; [reflexivity |].
    split; reflexivity.
Defined.

Lemma engine_parameters_with_det :
  (forall n, In n init_parameters -> kwargs_det !! n = None) /\
  let ps := ocr_params "ch" true false kwargs_det in
  ps !! "lang" = Some (VStr "ch") /\
  (forall k v, kwargs_det !! k = Some v -> ps !! k = Some v) /\
  ps !! "use_gpu" = Some (VBool true) /\
  ps !! "use_angle_cls" = None /\
  ps !! "ocr_version" = None /\
  ps !! "use_doc_unwarping" = None /\
  ps !! "use_textline_orientation" = None.
Proof.
  assert (forall n, In n init_parameters -> kwargs_det !! n = None) as H.
  { intros n [<- | [<- | [<- | [<- | [<- | [<- | []]]]]]]; reflexivity. }
  split; [exact H |].
  apply (engine_parameters "ch" true false kwargs_det H).
Defined.

Lemma overall_best_of_four_results :
  exists s,
    summarize four_results = Ok s /\
    exists pre post,
      four_results = pre ++ overall_best s :: post /\
      Forall (fun r => avg_similarity r < avg_similarity (overall_best s))%Q pre /\
      Forall (fun r => avg_similarity r <= avg_similarity (overall_best s))%Q post.
Proof.
  eexists. split; [reflexivity |].
  apply (overall_best_is_first_maximum four_results). reflexivity.
Defined.

Lemma overall_best_of_four_results_in_its_method :
  exists s,
    summarize four_results = Ok s /\
    (contains sentence_marker (config_name (overall_best s)) = true ->
     best_sentence s = Some (overall_best s)) /\
    (contains token_marker (config_name (overall_best s)) = true ->
     best_token s = Some (overall_best s)) /\
    (contains window_marker (config_name (overall_best s)) = true ->
     best_window s = Some (overall_best s)).
Proof.
  eexists. split; [reflexivity |].
  apply (overall_best_is_best_of_its_method four_results). reflexivity.
Defined.

Lemma best_method_of_four_results :
  exists s,
    summarize four_results = Ok s /\
    ((best_method s = sentence_method /\
      avg_token_similarity s <= avg_sentence_similarity s /\
      avg_window_similarity s <= avg_sentence_similarity s) \/
     (best_method s = token_method /\
      avg_sentence_similarity s < avg_token_similarity s /\
      avg_window_similarity s <= avg_token_similarity s) \/
     (best_method s = window_method /\
      avg_sentence_similarity s < avg_window_similarity s /\
      avg_token_similarity s < avg_window_similarity s))%Q.
Proof.
  eexists. split; [reflexivity |].
  apply (best_method_is_first_maximum four_results). reflexivity.
Defined.

Lemma method_bests_of_four_results :
  exists s,
    summarize four_results = Ok s /\
    (forall b, best_sentence s = Some b ->
       In b (sentence_results s) /\
       Forall (fun r => avg_similarity r <= avg_similarity b)%Q (sentence_results s) /\
       (avg_similarity b <= avg_similarity (overall_best s))%Q) /\
    (forall b, best_token s = Some b ->
       In b (token_results s) /\
       Forall (fun r => avg_similarity r <= avg_similarity b)%Q (token_results s) /\
       (avg_similarity b <= avg_similarity (overall_best s))%Q) /\
    (forall b, best_window s = Some b ->
       In b (window_results s) /\
       Forall (fun r => avg_similarity r <= avg_similarity b)%Q (window_results s) /\
       (avg_similarity b <= avg_similarity (overall_best s))%Q).
Proof.
  eexists. split; [reflexivity |].
  apply (method_best_is_maximal_in_its_method four_results). reflexivity.
Defined.

Lemma main_runs_to_its_report :
  exists s,
    main string string unit unit same_nodes plain_splitter same_nodes
      show_line show_line answer_query by_paragraph by_paragraph window_parser
      getenv true (Ok ["a.txt"]) (Ok ["deep learning"]) readings
    = Ok (Some s) /\
    config_name <$> sentence_results s = name <$> sentence_configurations /\
    config_name <$> token_results s = name <$> token_configurations /\
    config_name <$> window_results s
      = window_name <$> sentence_window_configurations /\
    exists bs bt bw,
      best_sentence s = Some bs /\ best_token s = Some bt /\
      best_window s = Some bw /\
      (overall_best s = bs \/ overall_best s = bt \/ overall_best s = bw).
Proof.
  destruct (main string string unit unit same_nodes plain_splitter same_nodes
              show_line show_line answer_query by_paragraph by_paragraph
              window_parser getenv true (Ok ["a.txt"]) (Ok ["deep learning"])
              readings)
    as [[s |] | e] eqn:E.
  - exists s. split; [reflexivity |].
    apply (main_reports_all_configurations string string unit unit same_nodes
             plain_splitter same_nodes show_line show_line answer_query
             by_paragraph by_paragraph window_parser getenv true
             (Ok ["a.txt"]) (Ok ["deep learning"]) readings s E).
  - vm_compute in E. discriminate.
  - vm_compute in E. discriminate.
Defined.

Lemma main_passes_on_a_failing_splitter :
  main string string unit unit failing_split plain_splitter same_nodes
    show_line show_line answer_query by_paragraph by_paragraph window_parser
    getenv true (Ok ["a.txt"]) (Ok ["deep learning"]) readings
  = Raise (EngineError "tokenizer") /\
  ((EngineError "tokenizer" <> ValueError /\
    load_documents_from_data_folder string true (Ok ["a.txt"])
      (Ok ["deep learning"]) = Raise (EngineError "tokenizer")) \/
   exists documents,
     load_documents_from_data_folder string true (Ok ["a.txt"])
       (Ok ["deep learning"]) = Ok documents /\
     ((exists c run,
         In c sentence_configurations /\
         evaluate_sentence string string unit failing_split show_line
           answer_query by_paragraph readings documents c run
         = Raise (EngineError "tokenizer")) \/
      (exists c run,
         In c token_configurations /\
         evaluate_token string string unit failing_split show_line
           answer_query by_paragraph readings documents c run
         = Raise (EngineError "tokenizer")) \/
      (exists c run,
         In c sentence_window_configurations /\
         evaluate_window string string unit unit failing_split plain_splitter
           same_nodes show_line answer_query window_parser readings
           documents c run = Raise (EngineError "tokenizer")))).
Proof.
  split; [reflexivity |].
  apply (main_raises_only_from_loading_or_a_run string string unit unit
           failing_split plain_splitter same_nodes show_line show_line
           answer_query by_paragraph by_paragraph window_parser getenv true
           (Ok ["a.txt"]) (Ok ["deep learning"]) readings).
  reflexivity.
Defined.

(** A source without a score ends the evaluation with [TypeError], after
    the first source was printed. *)
Lemma unscored_source_ends_the_evaluation :
  evaluate_splitter string string unit same_nodes show_line unscored_query
    tt ["deep learning"] "query" "sentence-512" 0 1 = Raise TypeError /\
  fails_after_split show_line unscored_query false ["deep learning"] "query"
    TypeError.
Proof.
  split; [reflexivity |]. right. split; [repeat constructor |].
  right. exists unscored_source. split; [reflexivity |].
  exists [{| node_text := Ok "x"; score := Some (3 # 4)%Q |}],
    {| node_text := Ok "y"; score := None |}, [].
  split; [reflexivity |]. split.
  - repeat constructor; eexists; reflexivity.
  - left. split; reflexivity.
Qed.
